(** * Kathara IS-IS configuration generator: a shallow embedding

    The development follows [v8_kathara-isis-generator-simple.py]:
    the [SimpleISISGenerator] object becomes the record [Generator], its
    dictionaries become [gmap]s, the set of device names a [gset], and
    the files of the working directory a finite map from files to
    their contents.

    Conventions of the embedding.
    - A Python [str] is a Rocq [string]; one [ascii] is one code point,
      so the texts of the embedding are those made of code points
      below 256. On them [str.strip], [str.isdigit], [str.lower],
      [int] and the UTF-8 encoding of [str.encode] are those of
      CPython.
    - Messages printed on the standard error stream are not modelled.
    - The operating system is a parameter of the run, the record
      [Directory]: it tells which file a name stands for, and whether
      [open] and [os.chmod] are refused. A write that [open] accepts
      is taken to store the whole text.
    - [re.search] is modelled for the patterns that are alternations
      of literal words, as those of [DEFAULT_CONFIG] are; the
      statements that need it say so with [plain_patterns].
    - A subscript [d[k]] of a dictionary is the total lookup [d !!! k].
      Lemma [parsed_entries_present] shows that after parsing every
      device of the list has an entry in each dictionary, so that no
      subscript of the generator raises [KeyError]. *)

From Stdlib Require Import ZArith String Ascii List Lia DecimalString.
From stdpp Require Import base option list gmap strings sorting.

Local Open Scope string_scope.
Local Open Scope Z_scope.

(** ** Characters and strings of the Python runtime *)

Module Py.

Definition ord (c : ascii) : Z := Z.of_N (N_of_ascii c).

Definition chr (n : Z) : ascii := ascii_of_N (Z.to_N n).

Definition dquote : ascii := chr 34.
Definition squote : ascii := chr 39.
Definition newline : ascii := chr 10.

Definition nl : string := String newline EmptyString.
Definition dq : string := String dquote EmptyString.

(** [str.isspace] on one code point: the characters that [str.strip()]
    removes, among them the next-line and the no-break space. *)
Definition isspace (c : ascii) : bool :=
  let n := ord c in
  ((9 <=? n) && (n <=? 13)) || ((28 <=? n) && (n <=? 32))
  || (n =? 133) || (n =? 160).

Definition is_decimal (c : ascii) : bool :=
  let n := ord c in (48 <=? n) && (n <=? 57).

Definition digit_value (c : ascii) : Z := ord c - 48.

(** [str.isdigit] on one code point: the decimal digits and the
    superscripts two, three and one. *)
Definition is_digit (c : ascii) : bool :=
  let n := ord c in
  is_decimal c || (n =? 178) || (n =? 179) || (n =? 185).

Fixpoint lstrip_with (p : ascii -> bool) (s : string) : string :=
  match s with
  | EmptyString => EmptyString
  | String c s' => if p c then lstrip_with p s' else s
  end.

Definition rstrip_with (p : ascii -> bool) (s : string) : string :=
  String.rev (lstrip_with p (String.rev s)).

Definition strip_with (p : ascii -> bool) (s : string) : string :=
  rstrip_with p (lstrip_with p s).

(** [s.strip()] *)
Definition strip (s : string) : string := strip_with isspace s.

Fixpoint mem_char (c : ascii) (chars : string) : bool :=
  match chars with
  | EmptyString => false
  | String d chars' => Ascii.eqb c d || mem_char c chars'
  end.

(** [s.strip(chars)] *)
Definition strip_chars (chars s : string) : string :=
  strip_with (fun c => mem_char c chars) s.

(** [s.split(sep)] for a separator of one character. *)
Fixpoint split (sep : ascii) (s : string) : list string :=
  match s with
  | EmptyString => [EmptyString]
  | String c s' =>
      if Ascii.eqb c sep then EmptyString :: split sep s'
      else match split sep s' with
           | h :: t => String c h :: t
           | [] => [String c EmptyString]
           end
  end.

(** [s.split(sep, 1)] when [sep] occurs in [s]; [None] when it does
    not (Python then returns the one-element list [[s]]). *)
Fixpoint split_once (sep : ascii) (s : string) : option (string * string) :=
  match s with
  | EmptyString => None
  | String c s' =>
      if Ascii.eqb c sep then Some (EmptyString, s')
      else match split_once sep s' with
           | Some (h, t) => Some (String c h, t)
           | None => None
           end
  end.

(** [s.startswith(p)] *)
Definition startswith (p s : string) : bool := String.prefix p s.

(** [sub in s] *)
Fixpoint contains (sub s : string) : bool :=
  String.prefix sub s ||
  match s with
  | EmptyString => false
  | String _ s' => contains sub s'
  end.

Fixpoint all_chars (p : ascii -> bool) (s : string) : bool :=
  match s with
  | EmptyString => true
  | String c s' => p c && all_chars p s'
  end.

(** [s.isdigit()] *)
Definition isdigit (s : string) : bool :=
  match s with
  | EmptyString => false
  | _ => all_chars is_digit s
  end.

(** Truth value of a string: [if s:] *)
Definition truthy (s : string) : bool :=
  match s with
  | EmptyString => false
  | _ => true
  end.

(** [str.lower] on one code point: the letters [A] to [Z] and the
    accented capitals, the multiplication sign between them apart. *)
Definition lower_char (c : ascii) : ascii :=
  let n := ord c in
  if ((65 <=? n) && (n <=? 90))
     || ((192 <=? n) && (n <=? 222) && negb (n =? 215))
  then chr (n + 32) else c.

Fixpoint lower (s : string) : string :=
  match s with
  | EmptyString => EmptyString
  | String c s' => String (lower_char c) (lower s')
  end.

(** [str(n)] and the [{n}] of an f-string. *)
Definition str (n : Z) : string := NilZero.string_of_int (Z.to_int n).

Fixpoint zeros (k : nat) : string :=
  match k with
  | O => EmptyString
  | S k' => String (chr 48) (zeros k')
  end.

(** [{n:04d}] for [n >= 0]. *)
Definition zfill4 (n : Z) : string :=
  let s := str n in zeros (4 - String.length s) ++ s.

(** *** [int(s)] for a string

    White space around the numeral is skipped; an optional sign is
    followed by decimal digits, where single underscores may separate
    digits. CPython refuses (with [ValueError]) a text of more than
    [int_max_str_digits] digits. The white space of [int] is not that
    of [str.strip]: the separators 28 to 31 are refused. *)

Definition int_max_str_digits : nat := 4300.

(** [digits_value acc prev s]: [prev] tells whether the previous
    character was a digit (an underscore must stand between digits). *)
Fixpoint digits_value (acc : Z) (prev : bool) (s : string) : option Z :=
  match s with
  | EmptyString => if prev then Some acc else None
  | String c s' =>
      if is_decimal c then digits_value (10 * acc + digit_value c) true s'
      else if Ascii.eqb c (chr 95) then
             if prev then digits_value acc false s' else None
           else None
  end.

Fixpoint count_chars (p : ascii -> bool) (s : string) : nat :=
  match s with
  | EmptyString => O
  | String c s' => (if p c then 1 else 0)%nat + count_chars p s'
  end.

Definition unsigned_int (s : string) : option Z :=
  if Nat.ltb int_max_str_digits (count_chars is_decimal s) then None
  else digits_value 0 false s.

Definition int_space (c : ascii) : bool :=
  let n := ord c in
  ((9 <=? n) && (n <=? 13)) || (n =? 32) || (n =? 133) || (n =? 160).

Definition int (s : string) : option Z :=
  match strip_with int_space s with
  | EmptyString => None
  | String c s' =>
      if Ascii.eqb c (chr 45) then Z.opp <$> unsigned_int s'
      else if Ascii.eqb c (chr 43) then unsigned_int s'
      else unsigned_int (String c s')
  end.

Definition hex_value (c : ascii) : Z :=
  let n := ord c in
  if (48 <=? n) && (n <=? 57) then n - 48
  else if (97 <=? n) && (n <=? 102) then n - 87
  else if (65 <=? n) && (n <=? 70) then n - 55
  else 0.

Fixpoint int16_go (acc : Z) (s : string) : Z :=
  match s with
  | EmptyString => acc
  | String c s' => int16_go (16 * acc + hex_value c) s'
  end.

(** [int(s, 16)] on a text of hexadecimal digits. *)
Definition int16 (s : string) : Z := int16_go 0 s.

(** [s[:k]] *)
Definition take (k : nat) (s : string) : string := String.substring 0 k s.

End Py.

(** ** MD5 (RFC 1321), the digest behind [hashlib.md5]

    Words are 32-bit integers held in [Z]; every addition is reduced
    modulo [2^32]. *)

Module MD5.

Definition mask32 : Z := 4294967295.

Definition add32 (x y : Z) : Z := Z.land (x + y) mask32.

Definition not32 (x : Z) : Z := Z.lxor x mask32.

Definition rotl32 (x s : Z) : Z :=
  Z.lor (Z.land (Z.shiftl x s) mask32) (Z.shiftr x (32 - s)).

Definition K : list Z :=
  [3614090360; 3905402710; 606105819; 3250441966; 4118548399; 1200080426;
   2821735955; 4249261313; 1770035416; 2336552879; 4294925233; 2304563134;
   1804603682; 4254626195; 2792965006; 1236535329; 4129170786; 3225465664;
   643717713; 3921069994; 3593408605; 38016083; 3634488961; 3889429448;
   568446438; 3275163606; 4107603335; 1163531501; 2850285829; 4243563512;
   1735328473; 2368359562; 4294588738; 2272392833; 1839030562; 4259657740;
   2763975236; 1272893353; 4139469664; 3200236656; 681279174; 3936430074;
   3572445317; 76029189; 3654602809; 3873151461; 530742520; 3299628645;
   4096336452; 1126891415; 2878612391; 4237533241; 1700485571; 2399980690;
   4293915773; 2240044497; 1873313359; 4264355552; 2734768916; 1309151649;
   4149444226; 3174756917; 718787259; 3951481745].

Definition S : list Z :=
  [7; 12; 17; 22; 7; 12; 17; 22; 7; 12; 17; 22; 7; 12; 17; 22;
   5; 9; 14; 20; 5; 9; 14; 20; 5; 9; 14; 20; 5; 9; 14; 20;
   4; 11; 16; 23; 4; 11; 16; 23; 4; 11; 16; 23; 4; 11; 16; 23;
   6; 10; 15; 21; 6; 10; 15; 21; 6; 10; 15; 21; 6; 10; 15; 21].

Record state := State { sA : Z; sB : Z; sC : Z; sD : Z }.

Definition init : state :=
  State 1732584193 4023233417 2562383102 271733878.

(** Round [i] of the compression function on the 16 words [M]. *)
Definition round (M : list Z) (st : state) (i : nat) : state :=
  let '(State a b c d) := st in
  let zi := Z.of_nat i in
  let '(f, g) :=
    if (i <? 16)%nat then
      (Z.lor (Z.land b c) (Z.land (not32 b) d), zi)
    else if (i <? 32)%nat then
      (Z.lor (Z.land d b) (Z.land (not32 d) c), (5 * zi + 1) mod 16)
    else if (i <? 48)%nat then
      (Z.lxor (Z.lxor b c) d, (3 * zi + 5) mod 16)
    else
      (Z.lxor c (Z.lor b (not32 d)), (7 * zi) mod 16) in
  let f' := add32 (add32 (add32 f a) (nth i K 0)) (nth (Z.to_nat g) M 0) in
  State d (add32 b (rotl32 f' (nth i S 0))) b c.

Definition compress (st : state) (M : list Z) : state :=
  let '(State a b c d) := fold_left (round M) (seq 0 64) st in
  State (add32 (sA st) a) (add32 (sB st) b)
        (add32 (sC st) c) (add32 (sD st) d).

(** The four bytes of a word, least significant first. *)
Definition le_bytes (w : Z) : list Z :=
  [Z.land w 255; Z.land (Z.shiftr w 8) 255;
   Z.land (Z.shiftr w 16) 255; Z.land (Z.shiftr w 24) 255].

Definition le_word (b0 b1 b2 b3 : Z) : Z :=
  b0 + 256 * b1 + 65536 * b2 + 16777216 * b3.

Fixpoint words (bytes : list Z) : list Z :=
  match bytes with
  | b0 :: b1 :: b2 :: b3 :: rest => le_word b0 b1 b2 b3 :: words rest
  | _ => []
  end.

Fixpoint chunks (fuel : nat) (ws : list Z) : list (list Z) :=
  match fuel with
  | O => []
  | Datatypes.S fuel' =>
      match ws with
      | [] => []
      | _ => firstn 16 ws :: chunks fuel' (skipn 16 ws)
      end
  end.

(** A one bit, zero bits up to 56 modulo 64, then the bit length of
    the message on 64 bits, least significant byte first. *)
Definition pad (msg : list Z) : list Z :=
  let len := Z.of_nat (length msg) in
  let zeros := Z.to_nat ((55 - len) mod 64) in
  let bits := 8 * len in
  msg ++ [128] ++ repeat 0 zeros
      ++ le_bytes bits ++ le_bytes (Z.shiftr bits 32).

Definition digest (msg : list Z) : list Z :=
  let ws := words (pad msg) in
  let '(State a b c d) := fold_left compress (chunks (length ws) ws) init in
  le_bytes a ++ le_bytes b ++ le_bytes c ++ le_bytes d.

Definition hex_char (n : Z) : ascii :=
  if n <? 10 then Py.chr (48 + n) else Py.chr (87 + n).

Definition hex_byte (b : Z) : string :=
  String (hex_char (b / 16)) (String (hex_char (b mod 16)) EmptyString).

Fixpoint hex (bytes : list Z) : string :=
  match bytes with
  | [] => EmptyString
  | b :: rest => (hex_byte b ++ hex rest)%string
  end.

End MD5.

(** The UTF-8 bytes of one code point: itself below 128, two bytes
    from there on. *)
Definition utf8 (c : ascii) : list Z :=
  let n := Py.ord c in
  if n <? 128 then [n] else [192 + n / 64; 128 + n mod 64].

(** [s.encode()] *)
Definition encode (s : string) : list Z :=
  flat_map utf8 (list_ascii_of_string s).

(** [hashlib.md5(data).hexdigest()] *)
Definition md5_hexdigest (data : list Z) : string :=
  MD5.hex (MD5.digest data).

(** ** Configuration *)

Record Config := mkConfig {
  ISIS_AREA : string;
  ISIS_PROCESS : string;
  MGMT_SUBNET : string;
  PTP_SUBNET : string;
  MULTI_SUBNET : string;
  DNS_SERVER : string;
  ROUTER_PATTERNS : string;
  PC_PATTERNS : string;
  MANAGER_PATTERNS : string
}.

Definition DEFAULT_CONFIG : Config := {|
  ISIS_AREA := "0001";
  ISIS_PROCESS := "MAIN";
  MGMT_SUBNET := "192.168.10";
  PTP_SUBNET := "10.0";
  MULTI_SUBNET := "10";
  DNS_SERVER := "1.1.1.1";
  ROUTER_PATTERNS := "frr|FRR|quagga|vyos|router";
  PC_PATTERNS := "alpine|ubuntu|debian|pc|client|workstation";
  MANAGER_PATTERNS := "zabbix|snmp|manager|monitor|nms"
|}.

(** [re.search(pattern, text, re.IGNORECASE)] for a pattern that is an
    alternation of literal words ([plain_pattern] below): some word
    occurs in the text, letter case aside. A pattern with other
    special characters of [re] is read as if they were literal. *)
Definition re_search_ignorecase (pattern text : string) : bool :=
  existsb (fun word => Py.contains (Py.lower word) (Py.lower text))
          (Py.split "|" pattern).

(** [re.match(r'^([^[]+)\[([^]]+)\]$', left)] and its two groups: the
    device is what stands before the first opening bracket, the
    property what stands between it and the closing bracket that ends
    the text ([$] also matches before one final newline). *)
Definition match_device_property (left_ : string) : option (string * string) :=
  match Py.split_once "[" left_ with
  | None => None
  | Some (device, rest) =>
      match Py.split_once "]" rest with
      | None => None
      | Some (property_name, tail) =>
          if Py.truthy device && Py.truthy property_name
             && (String.eqb tail "" || String.eqb tail Py.nl)
          then Some (device, property_name)
          else None
      end
  end.

(** ** The generator object *)

Record Generator := mkGenerator {
  config : Config;
  devices : list string;
  device_networks : gmap string (list string);
  device_images : gmap string string;
  device_types : gmap string string
}.

(** [SimpleISISGenerator.__init__], with the configuration in force
    once the configuration file and the command line are read. *)
Definition new_generator (cfg : Config) : Generator :=
  mkGenerator cfg [] ∅ ∅ ∅.

Definition set_networks (self : Generator) (m : gmap string (list string)) :=
  mkGenerator (config self) (devices self) m
              (device_images self) (device_types self).

Definition set_image_type (self : Generator) (device image type : string) :=
  mkGenerator (config self) (devices self) (device_networks self)
              (<[device := image]> (device_images self))
              (<[device := type]> (device_types self)).

Definition set_devices (self : Generator) (l : list string) :=
  mkGenerator (config self) l (device_networks self)
              (device_images self) (device_types self).

Definition detect_device_type (self : Generator) (image : string) : string :=
  let router_patterns := ROUTER_PATTERNS (config self) in
  let pc_patterns := PC_PATTERNS (config self) in
  let manager_patterns := MANAGER_PATTERNS (config self) in
  if re_search_ignorecase router_patterns image then "router"
  else if re_search_ignorecase manager_patterns image then "manager"
  else if re_search_ignorecase pc_patterns image then "pc"
  else "generic".

(** The characters given to [strip] for the quotes around a value. *)
Definition quotes : string := String Py.dquote (String Py.squote "").

(** A line of [lab.conf] that states a fact: the device, the property
    and the value, as the loop of [parse_lab_conf] reads them. Lines
    that are empty, comments, [LAB_] directives, without [=] or with
    another left_-hand side state nothing. *)
Definition read_fact (line : string) : option (string * string * string) :=
  let line := Py.strip line in
  if negb (Py.truthy line) || Py.startswith "#" line
     || Py.startswith "LAB_" line
  then None
  else
    match Py.split_once "=" line with
    | None => None
    | Some (left_, right_) =>
        let right_ := Py.strip_chars quotes (Py.strip right_) in
        match match_device_property left_ with
        | None => None
        | Some (device, property_name) => Some (device, property_name, right_)
        end
    end.

(** What the loop body does with one fact; [seen] is the local set
    [devices]. *)
Definition record_fact (fact : string * string * string)
    (st : Generator * gset string) : Generator * gset string :=
  let '(device, property_name, right_) := fact in
  let '(self, seen) := st in
  let seen := {[device]} ∪ seen in
  if String.eqb property_name "image" then
    (set_image_type self device right_ (detect_device_type self right_), seen)
  else if Py.isdigit property_name then
    let known := default [] (device_networks self !! device) in
    (set_networks self
       (<[device := (known ++ [(property_name ++ ":" ++ right_)%string])%list]>
          (device_networks self)),
     seen)
  else (self, seen).

Definition parse_line (st : Generator * gset string) (line : string)
    : Generator * gset string :=
  match read_fact line with
  | None => st
  | Some fact => record_fact fact st
  end.

(** [sorted(list(devices))] *)
Definition sorted (l : list string) : list string :=
  merge_sort String.le l.

(** The body of the closing loop of [parse_lab_conf]. *)
Definition fill_defaults (self : Generator) (device : string) : Generator :=
  let self :=
    match device_networks self !! device with
    | None => set_networks self (<[device := []]> (device_networks self))
    | Some _ => self
    end in
  match device_images self !! device with
  | None => set_image_type self device "unknown" "generic"
  | Some _ => self
  end.

(** The scanning loop of [parse_lab_conf]: the generator and the local
    set [devices] once every line is read. *)
Definition scan_lines (self : Generator) (content : string)
    : Generator * gset string :=
  fold_left parse_line (Py.split Py.newline content) (self, ∅).

(** The end of [parse_lab_conf], where [listed] is [list(devices)]:
    the names of the set, in the order its iteration yields them. *)
Definition finish_parse (self : Generator) (listed : list string)
    : Generator :=
  let self := set_devices self (sorted listed) in
  fold_left fill_defaults (devices self) self.

(** [parse_lab_conf], from the text of the file. *)
Definition parse_lab_conf (self : Generator) (content : string) : Generator :=
  let '(self, seen) := scan_lines self content in
  finish_parse self (elements seen).

(** ** Address and role resolution *)

Definition is_management_network (self : Generator) (network_name : string)
    : bool :=
  let '(has_manager, has_router) :=
    fold_left
      (fun (flags : bool * bool) device =>
         let '(has_manager, has_router) := flags in
         let networks := device_networks self !!! device in
         if existsb (fun net => Py.contains network_name net) networks then
           let device_type := device_types self !!! device in
           if String.eqb device_type "manager" then (true, has_router)
           else if String.eqb device_type "router" then (has_manager, true)
           else (has_manager, has_router)
         else (has_manager, has_router))
      (devices self) (false, false) in
  has_manager && has_router.

(** The [try]/[except ValueError] of [generate_ip_for_network]. *)
Definition subnet_num (network_name : string) : Z :=
  match Py.int network_name with
  | Some subnet_num => (subnet_num mod 250) + 1
  | None =>
      let hash_hex := md5_hexdigest (encode network_name) in
      (Py.int16 (Py.take 4 hash_hex) mod 250) + 1
  end.

Definition generate_ip_for_network (self : Generator)
    (network_name : string) (device_index total_devices : Z) : string :=
  if is_management_network self network_name then
    MGMT_SUBNET (config self) ++ "." ++ Py.str (10 + device_index) ++ "/24"
  else
    let subnet_num := subnet_num network_name in
    if total_devices =? 2 then
      PTP_SUBNET (config self) ++ "." ++ Py.str subnet_num ++ "."
        ++ Py.str device_index ++ "/30"
    else
      MULTI_SUBNET (config self) ++ "." ++ Py.str subnet_num ++ ".0."
        ++ Py.str (device_index + 1) ++ "/24".

Definition is_external_network (self : Generator) (network_name : string)
    (frr_routers : list string) : bool :=
  existsb
    (fun device =>
       let networks := device_networks self !!! device in
       existsb (fun net => Py.contains network_name net) networks
       && negb (bool_decide (device ∈ frr_routers)))
    (devices self).

Definition find_router_on_network (self : Generator) (network_name : string)
    (frr_routers : list string) : option string :=
  find
    (fun router =>
       existsb (fun net => Py.contains network_name net)
               (device_networks self !!! router))
    frr_routers.

(** The counting loop of [get_router_ip_on_network]:
    [(router_position, device_count)]. *)
Definition router_position_count (self : Generator)
    (router network_name : string) : Z * Z :=
  fold_left
    (fun (pc : Z * Z) device =>
       let '(router_position, device_count) := pc in
       if existsb (fun net => Py.contains network_name net)
                  (device_networks self !!! device)
       then
         let device_count := device_count + 1 in
         if String.eqb device router then (device_count, device_count)
         else (router_position, device_count)
       else (router_position, device_count))
    (devices self) (0, 0).

(** [text.split('/')[0]] *)
Definition before_slash (text : string) : string :=
  hd "" (Py.split "/" text).

Definition get_router_ip_on_network (self : Generator)
    (router network_name : string) (frr_routers : list string)
    : option string :=
  let '(router_position, device_count) :=
    router_position_count self router network_name in
  if 0 <? router_position then
    let router_ip :=
      generate_ip_for_network self network_name router_position device_count in
    Some (before_slash router_ip)
  else None.

(** ** Rendering of the start-up scripts *)

(** The text made of the given lines, each closed by a newline. *)
Fixpoint lines (l : list string) : string :=
  match l with
  | [] => ""
  | x :: l' => x ++ Py.nl ++ lines l'
  end.

(** [echo "text"] *)
Definition echo (text : string) : string :=
  "echo " ++ Py.dq ++ text ++ Py.dq.

(** The guard and the [split(':', 1)] that open both interface loops:
    [None] where the loop body says [continue]. *)
Definition split_network_info (network_info : string)
    : option (string * string) :=
  if negb (Py.truthy network_info) then None
  else Py.split_once ":" network_info.

(** The counting loop of [generate_isis_config]:
    [(device_position, device_count)]. *)
Definition isis_position_count (self : Generator)
    (router_name network_name : string) : Z * Z :=
  fold_left
    (fun (pc : Z * Z) device =>
       let '(device_position, device_count) := pc in
       if existsb (fun net => Py.contains network_name net)
                  (device_networks self !!! device)
       then
         let device_count := device_count + 1 in
         if String.eqb device router_name then (device_count, device_count)
         else (device_position, device_count)
       else (device_position, device_count))
    (devices self) (0, 0).

(** The counting loop of [generate_basic_config]. *)
Definition basic_position_count (self : Generator)
    (device_name network_name : string) : Z * Z :=
  fold_left
    (fun (pc : Z * Z) device =>
       let '(device_position, device_count) := pc in
       if existsb (fun net => Py.contains network_name net)
                  (device_networks self !!! device)
       then
         let device_count := device_count + 1 in
         if String.eqb device device_name then (device_count, device_count)
         else (device_position, device_count)
       else (device_position, device_count))
    (devices self) (0, 0).

(** The address a router gives to its interface on [network_name]. *)
Definition isis_ip_addr (self : Generator) (router_name network_name : string)
    : string :=
  let '(device_position, device_count) :=
    isis_position_count self router_name network_name in
  generate_ip_for_network self network_name device_position device_count.

(** The address another device gives to its interface. *)
Definition basic_ip_addr (self : Generator) (device_name network_name : string)
    : string :=
  let '(device_position, device_count) :=
    basic_position_count self device_name network_name in
  generate_ip_for_network self network_name device_position device_count.

(** One turn of the first interface loop of [generate_isis_config], on
    [(content, external_interface)]. *)
Definition isis_interface (self : Generator) (router_name : string)
    (frr_routers : list string) (st : string * string)
    (network_info : string) : string * string :=
  let '(content, external_interface) := st in
  match split_network_info network_info with
  | None => st
  | Some (if_num, network_name) =>
      let ip_addr := isis_ip_addr self router_name network_name in
      let is_external := is_external_network self network_name frr_routers in
      let external_interface :=
        if is_external && negb (Py.truthy external_interface)
        then "eth" ++ if_num else external_interface in
      (content ++ lines [
         "# Configure interface eth" ++ if_num;
         echo ("Configuring eth" ++ if_num ++ " with IP " ++ ip_addr
               ++ " on network " ++ network_name);
         "ip addr add " ++ ip_addr ++ " dev eth" ++ if_num;
         "ip link set eth" ++ if_num ++ " up";
         ""],
       external_interface)
  end.

(** One turn of the second interface loop of [generate_isis_config]. *)
Definition isis_stanza (self : Generator) (content network_info : string)
    : string :=
  match split_network_info network_info with
  | None => content
  | Some (if_num, network_name) =>
      content ++ lines [
        "interface eth" ++ if_num;
        " ip router isis " ++ ISIS_PROCESS (config self);
        "exit"]
  end.

(** The text that [generate_isis_config] writes. *)
Definition isis_content (self : Generator) (router_name : string)
    (router_index : Z) (frr_routers : list string) : string :=
  let networks := device_networks self !!! router_name in
  let content := lines [
    "#!/bin/bash";
    "";
    "# Startup configuration for " ++ router_name;
    "# Generated by Kathara ISIS Generator - Simple & Working Version";
    "# Device image: " ++ device_images self !!! router_name;
    "";
    echo ("Starting configuration for " ++ router_name ++ "...");
    "";
    "# Wait for interfaces to be ready";
    "sleep 5";
    ""] in
  let '(content, external_interface) :=
    fold_left (isis_interface self router_name frr_routers) networks
              (content, "") in
  let content := content ++ lines [
    "# Enable IP forwarding";
    echo "Enabling IP forwarding...";
    "sysctl -w net.ipv4.ip_forward=1";
    ""] in
  let content :=
    if Py.truthy external_interface then
      content ++ lines [
        "# Configure NAT for external connectivity";
        echo ("Configuring NAT on " ++ external_interface ++ "...");
        "iptables -t nat -A POSTROUTING -o " ++ external_interface
          ++ " -j MASQUERADE";
        ""]
    else content in
  let content := content ++ lines [
    "# Enable ISIS daemon in FRR";
    echo "Enabling ISIS daemon...";
    "sed -i 's/isisd=no/isisd=yes/' /etc/frr/daemons";
    "";
    "# Start FRR daemons";
    echo "Starting FRR daemons...";
    "/usr/lib/frr/frrinit.sh start";
    "";
    "# Wait for FRR to start";
    "sleep 8";
    "";
    "# Restart FRR to ensure isisd is loaded";
    echo "Restarting FRR with ISIS enabled...";
    "/usr/lib/frr/frrinit.sh restart";
    "";
    "# Wait for restart";
    "sleep 5";
    "";
    "# Check if isisd is running, start manually if needed";
    "if ! pgrep isisd > /dev/null; then";
    "    " ++ echo "Starting isisd manually...";
    "    /usr/lib/frr/isisd -d";
    "    sleep 3";
    "fi";
    "";
    "# Configure FRR ISIS via vtysh";
    echo "Configuring ISIS routing...";
    "vtysh << 'FRRCMD'";
    "configure terminal"] in
  let system_id := "0000.0000." ++ Py.zfill4 (router_index + 1) in
  let net_address :=
    "49." ++ ISIS_AREA (config self) ++ "." ++ system_id ++ ".00" in
  let content := content ++ lines [
    "router isis " ++ ISIS_PROCESS (config self);
    " net " ++ net_address;
    " is-type level-2-only";
    " log-adjacency-changes";
    " redistribute connected level-2";
    "exit"] in
  let content := fold_left (isis_stanza self) networks content in
  content ++ lines [
    "write";
    "exit";
    "FRRCMD";
    "";
    "# Set DNS resolver";
    echo ("nameserver " ++ DNS_SERVER (config self)) ++ " > /etc/resolv.conf";
    "";
    echo ("Configuration completed for " ++ router_name);
    echo ("Device " ++ router_name ++ " is ready!");
    "";
    "# Keep container running";
    "tail -f /dev/null"].

(** One turn of the interface loop of [generate_basic_config], on
    [(content, gateways)]. *)
Definition basic_interface (self : Generator) (device_name : string)
    (frr_routers : list string) (st : string * list string)
    (network_info : string) : string * list string :=
  let '(content, gateways) := st in
  match split_network_info network_info with
  | None => st
  | Some (if_num, network_name) =>
      let ip_addr := basic_ip_addr self device_name network_name in
      let content := content ++ lines [
        "# Configure interface eth" ++ if_num;
        echo ("Configuring eth" ++ if_num ++ " with IP " ++ ip_addr);
        "ip addr add " ++ ip_addr ++ " dev eth" ++ if_num;
        "ip link set eth" ++ if_num ++ " up";
        ""] in
      let gateways :=
        match find_router_on_network self network_name frr_routers with
        | Some router =>
            if Py.truthy router then
              match get_router_ip_on_network self router network_name
                      frr_routers with
              | Some router_ip =>
                  if Py.truthy router_ip then (gateways ++ [router_ip])%list
                  else gateways
              | None => gateways
              end
            else gateways
        | None => gateways
        end in
      (content, gateways)
  end.

(** The gateways gathered by the interface loop of
    [generate_basic_config]. *)
Definition basic_gateways (self : Generator) (device_name : string)
    (frr_routers : list string) : list string :=
  snd (fold_left (basic_interface self device_name frr_routers)
                 (device_networks self !!! device_name) ("", [])).

(** The text that [generate_basic_config] writes. *)
Definition basic_content (self : Generator) (device_name : string)
    (frr_routers : list string) : string :=
  let networks := device_networks self !!! device_name in
  let device_type := device_types self !!! device_name in
  let content := lines [
    "#!/bin/bash";
    "";
    "# Startup configuration for " ++ device_name;
    "# Generated by Kathara ISIS Generator - Simple Version";
    "# Device type: " ++ device_type;
    "# Device image: " ++ device_images self !!! device_name;
    "";
    echo ("Starting configuration for " ++ device_name ++ "...");
    "";
    "# Wait for interfaces to be ready";
    "sleep 3";
    ""] in
  let '(content, gateways) :=
    fold_left (basic_interface self device_name frr_routers) networks
              (content, []) in
  let content :=
    match gateways with
    | gateway :: _ =>
        content ++ lines [
          "# Remove any existing default routes";
          "ip route del default || true";
          "";
          "# Add default route with higher priority than Docker's default";
          echo ("Adding default route via " ++ gateway);
          "ip route add default via " ++ gateway ++ " metric 100";
          "";
          "# Ensure this route persists and has priority";
          "sleep 2";
          "ip route del default dev eth1 || true  # Remove Docker's default route if present";
          ""]
    | [] => content
    end in
  content ++ lines [
    "# Set DNS resolver";
    echo ("nameserver " ++ DNS_SERVER (config self)) ++ " > /etc/resolv.conf";
    "";
    echo ("Configuration completed for " ++ device_name);
    "";
    "# Keep container running";
    "tail -f /dev/null"].

(** ** The output directory and the run *)

(** [f"{device}.startup"] *)
Definition startup_file (device : string) : string := device ++ ".startup".

(** What the operating system makes of the file names a run uses. A
    name stands for at most one file, and two names may stand for the
    same file, as [./R1.startup] and [R1.startup] do; a name whose
    directory is missing, or that holds a NUL, stands for none.
    [open(filename, 'w')] may be refused, and so may [os.chmod]. The
    files themselves are a finite map from files to their contents. *)
Record Directory := mkDirectory {
  file_of : string → option string;
  may_open : string → bool;
  may_chmod : string → bool
}.

(** [os.path.isfile(filename)] *)
Definition isfile (dir : Directory) (fs : gmap string string)
    (filename : string) : bool :=
  match file_of dir filename with
  | Some file => bool_decide (is_Some (fs !! file))
  | None => false
  end.

(** [safe_write_file(filename, content, executable)]. The result is
    [Some 1] when the [except] branch calls [sys.exit(1)], together
    with the files as they are then: untouched when [open] raises,
    written when only [os.chmod] raises. *)
Definition safe_write_file (dir : Directory) (filename content : string)
    (executable : bool) (fs : gmap string string)
    : option Z * gmap string string :=
  match file_of dir filename with
  | Some file =>
      if may_open dir filename then
        let fs := <[file := content]> fs in
        if negb executable || may_chmod dir filename then (None, fs)
        else (Some 1, fs)
      else (Some 1, fs)
  | None => (Some 1, fs)
  end.

Definition generate_isis_config (dir : Directory) (self : Generator)
    (router_name : string) (router_index : Z) (frr_routers : list string)
    (fs : gmap string string) : option Z * gmap string string :=
  safe_write_file dir (startup_file router_name)
    (isis_content self router_name router_index frr_routers) true fs.

Definition generate_basic_config (dir : Directory) (self : Generator)
    (device_name : string) (frr_routers : list string)
    (fs : gmap string string) : option Z * gmap string string :=
  if isfile dir fs (startup_file device_name) then (None, fs)
  else safe_write_file dir (startup_file device_name)
         (basic_content self device_name frr_routers) true fs.

(** [identify_frr_routers]: [inl code] stands for [sys.exit(code)]. *)
Definition identify_frr_routers (self : Generator) : Z + list string :=
  let frr_routers :=
    List.filter
      (fun device => String.eqb (device_types self !!! device) "router")
      (devices self) in
  match frr_routers with
  | [] => inl 0
  | _ => inr frr_routers
  end.

(** [enumerate(l)] *)
Definition enumerate (l : list string) : list (Z * string) :=
  imap (fun i x => (Z.of_nat i, x)) l.

(** The next statement of a run, which is not reached once the process
    has exited. *)
Definition and_then
    (step : gmap string string → option Z * gmap string string)
    (st : option Z * gmap string string) : option Z * gmap string string :=
  match st.1 with
  | Some _ => st
  | None => step st.2
  end.

(** The first loop of [run], over [enumerate(frr_routers)]. *)
Definition write_routers (dir : Directory) (self : Generator)
    (frr_routers : list string) (numbered : list (Z * string))
    (st : option Z * gmap string string) : option Z * gmap string string :=
  fold_left
    (fun st (ir : Z * string) =>
       and_then (generate_isis_config dir self ir.2 ir.1 frr_routers) st)
    numbered st.

(** The second loop of [run], over [self.devices]. *)
Definition write_others (dir : Directory) (self : Generator)
    (frr_routers : list string) (l : list string)
    (st : option Z * gmap string string) : option Z * gmap string string :=
  fold_left
    (fun st device =>
       if bool_decide (device ∈ frr_routers) then st
       else and_then (generate_basic_config dir self device frr_routers) st)
    l st.

(** [run], from the moment the configuration is settled. [lab_conf] is
    the text of the file named on the command line, [None] when there
    is no such file. The result is the exit code of the process and
    the files it leaves. *)
Definition run (dir : Directory) (cfg : Config) (lab_conf : option string)
    (fs : gmap string string) : Z * gmap string string :=
  match lab_conf with
  | None => (1, fs)
  | Some content =>
      let self := parse_lab_conf (new_generator cfg) content in
      match identify_frr_routers self with
      | inl code => (code, fs)
      | inr frr_routers =>
          let st :=
            write_routers dir self frr_routers (enumerate frr_routers)
                          (None, fs) in
          let st := write_others dir self frr_routers (devices self) st in
          (default 0 st.1, st.2)
      end
  end.

(** A directory without subdirectories in which every file may be
    written: a name stands for itself, unless it holds a slash or a
    NUL. *)
Definition flat_directory : Directory := {|
  file_of name :=
    if Py.mem_char "/" name || Py.mem_char (Py.chr 0) name then None
    else Some name;
  may_open _ := true;
  may_chmod _ := true
|}.

(** The same directory, where [./name] is one more name of the file
    [name]. *)
Definition dotted_directory : Directory := {|
  file_of name :=
    match name with
    | String "." (String "/" rest) => file_of flat_directory rest
    | _ => file_of flat_directory name
    end;
  may_open _ := true;
  may_chmod _ := true
|}.

(** A directory mounted without permission bits: files are written,
    [os.chmod] is refused. *)
Definition chmodless_directory : Directory := {|
  file_of := file_of flat_directory;
  may_open _ := true;
  may_chmod _ := false
|}.

(** The input of the scenario with one router and one host on [netA]. *)
Definition scenario_netA : string :=
  lines [
    "R1[image]=" ++ Py.dq ++ "frr" ++ Py.dq;
    "PC1[image]=" ++ Py.dq ++ "alpine" ++ Py.dq;
    "R1[0]=" ++ Py.dq ++ "netA" ++ Py.dq;
    "PC1[0]=" ++ Py.dq ++ "netA" ++ Py.dq].


(** ** Notions used in the statements *)

(** The first 16 bits of a digest read as an unsigned integer, most
    significant byte first. *)
Definition first16 (digest : list Z) : Z :=
  match digest with
  | b0 :: b1 :: _ => 256 * b0 + b1
  | _ => 0
  end.

(** The facts of a description, in the order of its lines. *)
Definition facts (content : string) : list (string * string * string) :=
  omap read_fact (Py.split Py.newline content).

(** The scanning loop, run over facts. *)
Definition record_facts (fs : list (string * string * string))
    (st : Generator * gset string) : Generator * gset string :=
  fold_left (fun st fact => record_fact fact st) fs st.

Definition fact_device (fact : string * string * string) : string :=
  fact.1.1.

Definition fact_property (fact : string * string * string) : string :=
  fact.1.2.

(** The attachment string recorded for an interface fact. *)
Definition attachment (fact : string * string * string) : string :=
  fact.1.2 ++ ":" ++ fact.2.

(** The interface facts of one device. *)
Definition interface_fact_of (device : string)
    (fact : string * string * string) : bool :=
  String.eqb (fact_device fact) device && Py.isdigit (fact_property fact).

Definition image_fact_of (device : string)
    (fact : string * string * string) : bool :=
  String.eqb (fact_device fact) device
  && String.eqb (fact_property fact) "image".

(** The interface index and the network name of an attachment string. *)
Definition attachment_index (net : string) : string :=
  match Py.split_once ":" net with
  | Some (if_num, _) => if_num
  | None => net
  end.

Definition attachment_network (net : string) : string :=
  match Py.split_once ":" net with
  | Some (_, network_name) => network_name
  | None => ""
  end.

(** A device is on a network, the way every loop of the generator
    tests it: some attachment string of the device contains the name. *)
Definition on_network (self : Generator) (network_name device : string)
    : bool :=
  existsb (fun net => Py.contains network_name net)
          (device_networks self !!! device).

(** Membership as the specification words it: some interface of the
    device has exactly this network name. *)
Definition has_interface_on (self : Generator) (network_name device : string)
    : bool :=
  existsb (fun net => String.eqb (attachment_network net) network_name)
          (device_networks self !!! device).

Definition has_role (self : Generator) (role device : string) : bool :=
  String.eqb (device_types self !!! device) role.

(** The classification of a network as the specification words it:
    among the devices with an interface on exactly this name there are
    a manager and a router. *)
Definition management_by_name (self : Generator) (network_name : string)
    : bool :=
  existsb (fun device => has_interface_on self network_name device
                         && has_role self "manager" device) (devices self)
  && existsb (fun device => has_interface_on self network_name device
                            && has_role self "router" device) (devices self).

(** The devices on a network, in the order of [self.devices]. *)
Definition devices_on_network (self : Generator) (network_name : string)
    : list string :=
  List.filter (on_network self network_name) (devices self).

(** The rank of [device] in [l], counted from 1; 0 when it is absent. *)
Fixpoint rank (device : string) (l : list string) : Z :=
  match l with
  | [] => 0
  | x :: l' =>
      if String.eqb x device then 1
      else if rank device l' =? 0 then 0
      else rank device l' + 1
  end.

(** The routers of a topology, in the order of [self.devices]. *)
Definition routers_of (self : Generator) : list string :=
  List.filter (has_role self "router") (devices self).

(** The topology of the scenario, under the default configuration. *)
Definition topology_netA : Generator :=
  parse_lab_conf (new_generator DEFAULT_CONFIG) scenario_netA.

(** Two networks whose names are [1] and [10]: a router on the first,
    a manager on the second. *)
Definition scenario_one_ten : string :=
  lines [
    "R1[image]=frr";
    "M1[image]=zabbix";
    "R1[0]=1";
    "M1[0]=10"].

Definition topology_one_ten : Generator :=
  parse_lab_conf (new_generator DEFAULT_CONFIG) scenario_one_ten.

(** Interface 0 of [R1] declared twice. *)
Definition scenario_twice : string :=
  lines [
    "R1[image]=frr";
    "R1[0]=netA";
    "R1[0]=netB"].

Definition topology_twice : Generator :=
  parse_lab_conf (new_generator DEFAULT_CONFIG) scenario_twice.

(** A campus: a management network with a router and a manager, and
    a network shared by three devices. *)
Definition scenario_campus : string :=
  lines [
    "R1[image]=frr";
    "R2[image]=frr";
    "M1[image]=zabbix";
    "PC1[image]=alpine";
    "R1[0]=mgmt";
    "M1[0]=mgmt";
    "R1[1]=lan";
    "R2[0]=lan";
    "PC1[0]=lan"].

Definition topology_campus : Generator :=
  parse_lab_conf (new_generator DEFAULT_CONFIG) scenario_campus.

(** A router on [wlan] and a host on [lan]. *)
Definition scenario_wlan : string :=
  lines [
    "R1[image]=frr";
    "PC1[image]=alpine";
    "R1[0]=wlan";
    "PC1[0]=lan"].

Definition topology_wlan : Generator :=
  parse_lab_conf (new_generator DEFAULT_CONFIG) scenario_wlan.

(** A description without any router. *)
Definition scenario_hosts : string :=
  lines [
    "PC1[image]=alpine";
    "PC2[image]=alpine";
    "PC1[0]=lan";
    "PC2[0]=lan";
    "SW1[note]=spare"].

Definition topology_hosts : Generator :=
  parse_lab_conf (new_generator DEFAULT_CONFIG) scenario_hosts.

(** ** The configuration file and the command line *)

(** [DEFAULT_CONFIG] as the dictionary it is. *)
Definition default_config_dict : gmap string string :=
  list_to_map [
    ("ISIS_AREA", "0001");
    ("ISIS_PROCESS", "MAIN");
    ("MGMT_SUBNET", "192.168.10");
    ("PTP_SUBNET", "10.0");
    ("MULTI_SUBNET", "10");
    ("DNS_SERVER", "1.1.1.1");
    ("ROUTER_PATTERNS", "frr|FRR|quagga|vyos|router");
    ("PC_PATTERNS", "alpine|ubuntu|debian|pc|client|workstation");
    ("MANAGER_PATTERNS", "zabbix|snmp|manager|monitor|nms")].

(** The values the generator reads from [self.config]. *)
Definition config_of_dict (d : gmap string string) : Config := {|
  ISIS_AREA := d !!! "ISIS_AREA";
  ISIS_PROCESS := d !!! "ISIS_PROCESS";
  MGMT_SUBNET := d !!! "MGMT_SUBNET";
  PTP_SUBNET := d !!! "PTP_SUBNET";
  MULTI_SUBNET := d !!! "MULTI_SUBNET";
  DNS_SERVER := d !!! "DNS_SERVER";
  ROUTER_PATTERNS := d !!! "ROUTER_PATTERNS";
  PC_PATTERNS := d !!! "PC_PATTERNS";
  MANAGER_PATTERNS := d !!! "MANAGER_PATTERNS"
|}.

(** A line of the configuration file that assigns a key: the key and
    the value, as the loop of [load_config_file] stores them. *)
Definition read_assignment (line : string) : option (string * string) :=
  let line := Py.strip line in
  if Py.truthy line && negb (Py.startswith "#" line) then
    match Py.split_once "=" line with
    | None => None
    | Some (key, value) =>
        Some (Py.strip key, Py.strip_chars quotes (Py.strip value))
    end
  else None.

Definition load_config_line (config : gmap string string) (line : string)
    : gmap string string :=
  match read_assignment line with
  | None => config
  | Some (key, value) => <[key := value]> config
  end.

(** [load_config_file]: [file] is the text of the configuration file,
    [None] when no file is named or the name is not the name of a
    file; nothing is loaded then. *)
Definition load_config_file (config : gmap string string)
    (file : option string) : gmap string string :=
  match file with
  | None => config
  | Some content =>
      fold_left load_config_line (Py.split Py.newline content) config
  end.

(** The options of the command line that [run] reads. *)
Record Args := mkArgs {
  arg_isis_area : option string;
  arg_isis_process : option string;
  arg_mgmt_subnet : option string;
  arg_ptp_subnet : option string;
  arg_multi_subnet : option string;
  arg_dns_server : option string
}.

(** [if arg: self.config[key] = arg] *)
Definition override (key : string) (arg : option string)
    (config : gmap string string) : gmap string string :=
  match arg with
  | Some value => if Py.truthy value then <[key := value]> config else config
  | None => config
  end.

Definition override_with_args (args : Args) (config : gmap string string)
    : gmap string string :=
  let config := override "ISIS_AREA" (arg_isis_area args) config in
  let config := override "ISIS_PROCESS" (arg_isis_process args) config in
  let config := override "MGMT_SUBNET" (arg_mgmt_subnet args) config in
  let config := override "PTP_SUBNET" (arg_ptp_subnet args) config in
  let config := override "MULTI_SUBNET" (arg_multi_subnet args) config in
  override "DNS_SERVER" (arg_dns_server args) config.

(** The configuration in force when [run] starts to parse. *)
Definition settled_config (args : Args) (config_file : option string)
    : gmap string string :=
  override_with_args args (load_config_file default_config_dict config_file).

(** [run], from its first line. *)
Definition run_with_args (dir : Directory) (args : Args)
    (config_file lab_conf : option string) (fs : gmap string string)
    : Z * gmap string string :=
  run dir (config_of_dict (settled_config args config_file)) lab_conf fs.

(** The assignments of a configuration file, in the order of its
    lines. *)
Definition assignments (content : string) : list (string * string) :=
  omap read_assignment (Py.split Py.newline content).

(** The value of the last pair with the given key. *)
Fixpoint last_value (key : string) (l : list (string * string))
    : option string :=
  match l with
  | [] => None
  | (k, v) :: l' =>
      match last_value key l' with
      | Some v' => Some v'
      | None => if String.eqb k key then Some v else None
      end
  end.

(** The option of the command line that overrides a key, if any. *)
Definition arg_of (args : Args) (key : string) : option string :=
  if String.eqb key "ISIS_AREA" then arg_isis_area args
  else if String.eqb key "ISIS_PROCESS" then arg_isis_process args
  else if String.eqb key "MGMT_SUBNET" then arg_mgmt_subnet args
  else if String.eqb key "PTP_SUBNET" then arg_ptp_subnet args
  else if String.eqb key "MULTI_SUBNET" then arg_multi_subnet args
  else if String.eqb key "DNS_SERVER" then arg_dns_server args
  else None.

(** The value the command line gives to a key: an option that is
    present and not empty. *)
Definition cli_value (args : Args) (key : string) : option string :=
  match arg_of args key with
  | Some value => if Py.truthy value then Some value else None
  | None => None
  end.

(** The value the configuration file gives to a key. *)
Definition file_value (config_file : option string) (key : string)
    : option string :=
  match config_file with
  | Some content => last_value key (assignments content)
  | None => None
  end.

(** A file and a command line used in examples. *)
Definition sample_config_file : string :=
  lines [
    "# addressing";
    "PTP_SUBNET = '172.16'";
    "DNS_SERVER=9.9.9.9";
    "PTP_SUBNET=10.9";
    "not an assignment"].

Definition sample_args : Args :=
  mkArgs None None None None (Some "") (Some "8.8.8.8").

(** ** Strings: notions used in the statements *)

(** The text without the characters of its end that satisfy [p], by
    recursion on the text. *)
Fixpoint rstrip_rec (p : ascii → bool) (s : string) : string :=
  match s with
  | EmptyString => EmptyString
  | String c s' =>
      match rstrip_rec p s' with
      | EmptyString => if p c then EmptyString else String c EmptyString
      | r => String c r
      end
  end.

(** No character of the text satisfies [p]. *)
Definition free_of (p : ascii → bool) (s : string) : bool :=
  Py.all_chars (fun c => negb (p c)) s.

Definition is_char (c : ascii) : ascii → bool := fun d => Ascii.eqb d c.

(** The first character of a text is not white space (an empty text
    has none). *)
Definition head_not_space (s : string) : Prop :=
  match s with
  | EmptyString => True
  | String c _ => Py.isspace c = false
  end.

(** The image declared last for a device, if any. *)
Fixpoint last_image (device : string)
    (fs : list (string * string * string)) : option string :=
  match fs with
  | [] => None
  | fact :: fs' =>
      match last_image device fs' with
      | Some image => Some image
      | None => if image_fact_of device fact then Some fact.2 else None
      end
  end.

Definition is_role (type : string) : Prop :=
  type = "router" ∨ type = "manager" ∨ type = "pc" ∨ type = "generic".

(** The value of a decimal numeral read from its first digit on, as
    [int] accumulates it. *)
Fixpoint uint_value (d : Decimal.uint) (acc : Z) : Z :=
  match d with
  | Decimal.Nil => acc
  | Decimal.D0 d => uint_value d (10 * acc + 0)
  | Decimal.D1 d => uint_value d (10 * acc + 1)
  | Decimal.D2 d => uint_value d (10 * acc + 2)
  | Decimal.D3 d => uint_value d (10 * acc + 3)
  | Decimal.D4 d => uint_value d (10 * acc + 4)
  | Decimal.D5 d => uint_value d (10 * acc + 5)
  | Decimal.D6 d => uint_value d (10 * acc + 6)
  | Decimal.D7 d => uint_value d (10 * acc + 7)
  | Decimal.D8 d => uint_value d (10 * acc + 8)
  | Decimal.D9 d => uint_value d (10 * acc + 9)
  end.

(** A character of a decimal numeral: a digit or the minus sign. *)
Definition is_numeral_char (c : ascii) : bool :=
  Py.is_decimal c || Ascii.eqb c "-".

(** ** Rendering: notions used in the statements *)

(** The network of an attachment string is external. *)
Definition attachment_is_external (self : Generator)
    (frr_routers : list string) (network_info : string) : bool :=
  match split_network_info network_info with
  | Some (_, network_name) =>
      is_external_network self network_name frr_routers
  | None => false
  end.

(** The interface named by an attachment string. *)
Definition attachment_interface (network_info : string) : string :=
  match split_network_info network_info with
  | Some (if_num, _) => "eth" ++ if_num
  | None => ""
  end.

(** The gateway that one attachment of a device contributes: the
    address of the first router on its network, when there is one. *)
Definition gateway_of (self : Generator) (frr_routers : list string)
    (network_info : string) : option string :=
  match split_network_info network_info with
  | Some (_, network_name) =>
      match find_router_on_network self network_name frr_routers with
      | Some router =>
          if Py.truthy router then
            match get_router_ip_on_network self router network_name
                    frr_routers with
            | Some router_ip =>
                if Py.truthy router_ip then Some router_ip else None
            | None => None
            end
          else None
      | None => None
      end
  | None => None
  end.

(** A name the run can write: it stands for a file, and neither
    [open] nor [os.chmod] is refused. *)
Definition can_write (dir : Directory) (name : string) : bool :=
  match file_of dir name with
  | Some _ => may_open dir name && may_chmod dir name
  | None => false
  end.

(** Writing under the name changes the file [f]. *)
Definition writes_to (dir : Directory) (name f : string) : bool :=
  bool_decide (file_of dir name = Some f) && may_open dir name.

(** A device that is not a router and whose start-up name stands for
    the file [f]. *)
Definition other_device_of (dir : Directory) (frr_routers : list string)
    (f device : string) : bool :=
  negb (bool_decide (device ∈ frr_routers))
  && bool_decide (file_of dir (startup_file device) = Some f).

(** A pattern without any special character of [re] other than the
    bar: an alternation of literal words. [re.compile] accepts it, and
    [re_search_ignorecase] is exact on it. *)
Definition plain_pattern (pattern : string) : bool :=
  Py.all_chars (fun c => negb (Py.mem_char c "\.^$*+?{}[]()")) pattern.

Definition plain_patterns (cfg : Config) : bool :=
  plain_pattern (ROUTER_PATTERNS cfg) && plain_pattern (PC_PATTERNS cfg)
  && plain_pattern (MANAGER_PATTERNS cfg).

(** The text begins with [p], ends with [p], holds [p]. *)
Definition begins_with (p s : string) : Prop := ∃ rest, s = p ++ rest.

Definition ends_with (p s : string) : Prop := ∃ init, s = init ++ p.

Definition holds (p s : string) : Prop :=
  ∃ before after, s = before ++ p ++ after.



(** The network entity title of the router with the given index, and
    the line of the script that declares it. *)
Definition net_address (cfg : Config) (router_index : Z) : string :=
  "49." ++ ISIS_AREA cfg ++ "."
    ++ ("0000.0000." ++ Py.zfill4 (router_index + 1)) ++ ".00".

Definition net_line (cfg : Config) (router_index : Z) : string :=
  " net " ++ net_address cfg router_index.

(** The line that adds the default route through a gateway. *)
Definition default_route_line (gateway : string) : string :=
  "ip route add default via " ++ gateway ++ " metric 100".

(** * Properties *)

(** ** The digest agrees with the test suite of RFC 1321 *)

Example md5_empty :
  md5_hexdigest (encode "") = "d41d8cd98f00b204e9800998ecf8427e".
Proof. vm_compute. reflexivity. Qed.

Example md5_abc :
  md5_hexdigest (encode "abc") = "900150983cd24fb0d6963f7d28e17f72".
Proof. vm_compute. reflexivity. Qed.

Example md5_message_digest :
  md5_hexdigest (encode "message digest")
  = "f96b697d7cb7938d525a2f31aaf161d0".
Proof. vm_compute. reflexivity. Qed.

Example md5_eighty_digits :
  md5_hexdigest (encode
    "12345678901234567890123456789012345678901234567890123456789012345678901234567890")
  = "57edf4a22be3c955ac49da2e2107b67a".
Proof. vm_compute. reflexivity. Qed.

Example md5_netA :
  md5_hexdigest (encode "netA") = "dafb616f345257c8ef867ca3d10eea86".
Proof. vm_compute. reflexivity. Qed.

(** Above 127 a code point is encoded on two bytes: [é], then [ÿ]
    followed by the control character 128. *)
Example md5_e_acute :
  encode (String (Py.chr 233) "") = [195; 169]
  ∧ md5_hexdigest (encode (String (Py.chr 233) ""))
    = "66ddcd97cfdeabb2f6fb8a999b4bc76f".
Proof. split; vm_compute; reflexivity. Qed.

Example md5_two_bytes_each :
  encode (String (Py.chr 255) (String (Py.chr 128) ""))
  = [195; 191; 194; 128]
  ∧ md5_hexdigest (encode (String (Py.chr 255) (String (Py.chr 128) "")))
    = "0d5b834db15223d4c98a188d6ab44a1c".
Proof. split; vm_compute; reflexivity. Qed.

(** ** Reading the first 16 bits off the hexadecimal digest *)

Section Hexadecimal.

Lemma hex_value_hex_char (n : Z) :
  0 <= n < 16 → Py.hex_value (MD5.hex_char n) = n.
Proof.
  intros Hn.
  assert (Hcases : n = 0 ∨ n = 1 ∨ n = 2 ∨ n = 3 ∨ n = 4 ∨ n = 5 ∨ n = 6
                   ∨ n = 7 ∨ n = 8 ∨ n = 9 ∨ n = 10 ∨ n = 11 ∨ n = 12
                   ∨ n = 13 ∨ n = 14 ∨ n = 15) by lia.
  repeat (destruct Hcases as [-> | Hcases]; [reflexivity |]).
  subst n. reflexivity.
Qed.

Lemma int16_go_hex_byte (acc b : Z) (s : string) :
  0 <= b < 256 →
  Py.int16_go acc (MD5.hex_byte b ++ s) = Py.int16_go (256 * acc + b) s.
Proof.
  intros Hb. unfold MD5.hex_byte. simpl.
  rewrite !hex_value_hex_char.
  - f_equal. pose proof (Z.div_mod b 16). lia.
  - apply Z.mod_pos_bound. lia.
  - split; [apply Z.div_pos; lia | apply Z.div_lt_upper_bound; lia].
Qed.

Lemma land_255_bound (x : Z) : 0 <= Z.land x 255 < 256.
Proof.
  change 255 with (Z.ones 8). rewrite Z.land_ones by lia.
  apply Z.mod_pos_bound. lia.
Qed.

Lemma take4_two_bytes (b0 b1 : Z) (s : string) :
  Py.take 4 (MD5.hex_byte b0 ++ MD5.hex_byte b1 ++ s)
  = MD5.hex_byte b0 ++ MD5.hex_byte b1 ++ "".
Proof.
  unfold Py.take, MD5.hex_byte. cbn. by destruct s.
Qed.

(** The digest is made of 16 bytes. *)
Lemma digest_bytes (data : list Z) :
  ∃ a b c d, MD5.digest data
    = (MD5.le_bytes a ++ MD5.le_bytes b ++ MD5.le_bytes c ++ MD5.le_bytes d)%list.
Proof.
  unfold MD5.digest.
  destruct (fold_left _ _ _) as [a b c d]. by exists a, b, c, d.
Qed.

Lemma int16_hexdigest (data : list Z) :
  Py.int16 (Py.take 4 (md5_hexdigest data)) = first16 (MD5.digest data).
Proof.
  unfold md5_hexdigest.
  destruct (digest_bytes data) as (a & b & c & d & ->).
  cbn [MD5.le_bytes app MD5.hex first16].
  rewrite take4_two_bytes. unfold Py.int16.
  rewrite !int16_go_hex_byte by apply land_255_bound.
  simpl. lia.
Qed.

End Hexadecimal.

(** ** Management networks *)

Section Management.

Variable self : Generator.
Variable network_name : string.

Lemma is_management_network_existsb :
  is_management_network self network_name
  = existsb (fun device => on_network self network_name device
                           && has_role self "manager" device) (devices self)
    && existsb (fun device => on_network self network_name device
                              && has_role self "router" device) (devices self).
Proof.
  unfold is_management_network.
  match goal with |- context [fold_left ?f _ _] => set (step := f) end.
  assert (Hfold : ∀ l has_manager has_router,
    fold_left step l (has_manager, has_router)
    = (has_manager
       || existsb (fun device => on_network self network_name device
                                 && has_role self "manager" device) l,
       has_router
       || existsb (fun device => on_network self network_name device
                                 && has_role self "router" device) l)).
  { induction l as [|device l IH]; intros has_manager has_router.
    - simpl. by rewrite !orb_false_r.
    - cbn [fold_left existsb]. unfold step at 2.
      unfold on_network at 1 3, has_role at 1 3.
      destruct (existsb _ (device_networks self !!! device)); simpl.
      + destruct (String.eqb_spec (device_types self !!! device) "manager")
          as [Hm | Hm].
        * rewrite IH, Hm. simpl. by rewrite orb_true_r.
        * destruct (String.eqb (device_types self !!! device) "router");
            rewrite IH; simpl; by rewrite ?orb_true_r.
      + by rewrite IH. }
  rewrite Hfold. reflexivity.
Qed.

End Management.

Lemma existsb_elem_of {A} (f : A → bool) (l : list A) :
  existsb f l = true ↔ ∃ x, x ∈ l ∧ f x = true.
Proof.
  rewrite existsb_exists. setoid_rewrite list_elem_of_In. reflexivity.
Qed.

Lemma existsb_false_elem_of {A} (f : A → bool) (l : list A) :
  existsb f l = false ↔ ∀ x, x ∈ l → f x = false.
Proof.
  induction l as [|a l IH]; simpl.
  - split; [intros _ x Hx; inversion Hx | done].
  - rewrite orb_false_iff, IH. split.
    + intros [Ha Hl] x Hx. apply elem_of_cons in Hx as [-> | Hx]; auto.
    + intros H. split; [apply H; left | intros x Hx; apply H; by right].
Qed.

(** What the code computes: a network is management exactly when, among
    the devices with an attachment string that contains its name, there
    are a manager and a router; with no such device it is not. *)
Theorem management_network_iff (self : Generator) (network_name : string) :
  (is_management_network self network_name = true ↔
     (∃ m, m ∈ devices self ∧ on_network self network_name m = true
           ∧ device_types self !!! m = "manager")
     ∧ (∃ r, r ∈ devices self ∧ on_network self network_name r = true
             ∧ device_types self !!! r = "router"))
  ∧ ((∀ d, d ∈ devices self → on_network self network_name d = false) →
     is_management_network self network_name = false).
Proof.
  rewrite is_management_network_existsb. split.
  - rewrite andb_true_iff, !existsb_elem_of. unfold has_role.
    split.
    + intros [(m & Hm & Hmt) (r & Hr & Hrt)].
      apply andb_true_iff in Hmt as [Hm1 Hm2], Hrt as [Hr1 Hr2].
      apply String.eqb_eq in Hm2, Hr2. split; eauto.
    + intros [(m & Hm & Hm1 & Hm2) (r & Hr & Hr1 & Hr2)]. split.
      * exists m. by rewrite Hm1, Hm2.
      * exists r. by rewrite Hr1, Hr2.
  - intros Hnone. apply andb_false_iff. left.
    apply existsb_false_elem_of. intros d Hd. by rewrite (Hnone d Hd).
Qed.

Lemma devices_topology_hosts :
  devices topology_hosts = ["PC1"; "PC2"; "SW1"].
Proof. vm_compute. reflexivity. Qed.

Lemma management_network_iff_witness :
  is_management_network topology_hosts "wan" = false.
Proof.
  apply (proj2 (management_network_iff topology_hosts "wan")).
  intros d Hd. rewrite devices_topology_hosts in Hd.
  repeat (apply elem_of_cons in Hd as [-> | Hd]; [vm_compute; reflexivity |]).
  inversion Hd.
Defined.

(** C2, at the input where the code departs from it: with a router on
    network [1] and a manager on network [10], the code calls network
    [1] a management network, although no manager has an interface on
    a network of that name. The attachment string [0:10] of the manager
    contains the text [1]. *)
Lemma management_by_name_differs :
  is_management_network topology_one_ten "1" = true
  ∧ management_by_name topology_one_ten "1" = false.
Proof. split; vm_compute; reflexivity. Qed.

(** ** Subnet numbers and addresses *)

Lemma subnet_num_range (network_name : string) :
  1 <= subnet_num network_name <= 250.
Proof.
  unfold subnet_num.
  destruct (Py.int network_name) as [n|].
  - pose proof (Z.mod_pos_bound n 250). lia.
  - pose proof (Z.mod_pos_bound
      (Py.int16 (Py.take 4 (md5_hexdigest (encode network_name)))) 250). lia.
Qed.

(** The separators 28 to 31 are white space for [str.strip] and not
    for [int]: a name that begins with one does not read as an integer
    and goes through the digest. The next-line character is white
    space for both. *)
Example int_of_separated_numeral :
  Py.int (String (Py.chr 28) "12") = None
  ∧ Py.strip (String (Py.chr 28) "12") = "12"
  ∧ subnet_num (String (Py.chr 28) "12") = 120
  ∧ Py.int (String (Py.chr 133) "12") = Some 12
  ∧ Py.int " +1_2 " = Some 12.
Proof. repeat split; vm_compute; reflexivity. Qed.

(** C1: the subnet number of a network name. On a network that is not
    a management network the address is made of a configured prefix,
    the position and one number between 1 and 250 that the name alone
    decides: neither the topology, nor the position, nor the count has
    a part in it. When the name reads as an integer [n], the number is
    [(n mod 250) + 1]; otherwise it is the first 16 bits of the MD5
    digest of the UTF-8 bytes of the name, modulo 250, plus 1. *)
Theorem subnet_number_of_name (network_name : string) :
  ∃ number,
    1 <= number <= 250
    ∧ (∀ n, Py.int network_name = Some n → number = n mod 250 + 1)
    ∧ (Py.int network_name = None →
       number = first16 (MD5.digest (encode network_name)) mod 250 + 1)
    ∧ ∀ self device_index total_devices,
        is_management_network self network_name = false →
        generate_ip_for_network self network_name device_index total_devices
        = if total_devices =? 2
          then PTP_SUBNET (config self) ++ "." ++ Py.str number ++ "."
                 ++ Py.str device_index ++ "/30"
          else MULTI_SUBNET (config self) ++ "." ++ Py.str number ++ ".0."
                 ++ Py.str (device_index + 1) ++ "/24".
Proof.
  exists (subnet_num network_name).
  split; [apply subnet_num_range|]. split; [|split].
  - intros n Hn. unfold subnet_num. by rewrite Hn.
  - intros Hn. unfold subnet_num. rewrite Hn. by rewrite int16_hexdigest.
  - intros self device_index total_devices Hm.
    unfold generate_ip_for_network. by rewrite Hm.
Qed.

Lemma subnet_number_of_name_witness :
  generate_ip_for_network topology_netA "12" 1 2 = "10.0.13.1/30"
  ∧ generate_ip_for_network topology_netA "netA" 1 3
    = "10." ++ Py.str (56059 mod 250 + 1) ++ ".0.2/24".
Proof.
  split.
  - destruct (subnet_number_of_name "12") as (number & _ & Hint & _ & Haddr).
    rewrite Haddr by (vm_compute; reflexivity).
    by rewrite (Hint 12 eq_refl).
  - destruct (subnet_number_of_name "netA")
      as (number & _ & _ & Hhash & Haddr).
    rewrite Haddr by (vm_compute; reflexivity).
    by rewrite (Hhash eq_refl).
Defined.

(** C3: the three shapes of an address. On a management network it is
    the management prefix and host [10 + position], on 24 bits; on any
    other network with exactly two devices it is the point-to-point
    prefix, the subnet number and the position, on 30 bits; otherwise
    it is the multi-access prefix, the subnet number, [0] and
    [position + 1], on 24 bits. *)
Theorem generate_address_cases (self : Generator) (network_name : string)
    (device_index total_devices : Z) :
  (is_management_network self network_name = true →
   generate_ip_for_network self network_name device_index total_devices
   = MGMT_SUBNET (config self) ++ "." ++ Py.str (10 + device_index) ++ "/24")
  ∧ (is_management_network self network_name = false →
     total_devices = 2 →
     generate_ip_for_network self network_name device_index total_devices
     = PTP_SUBNET (config self) ++ "." ++ Py.str (subnet_num network_name)
       ++ "." ++ Py.str device_index ++ "/30")
  ∧ (is_management_network self network_name = false →
     total_devices ≠ 2 →
     generate_ip_for_network self network_name device_index total_devices
     = MULTI_SUBNET (config self) ++ "." ++ Py.str (subnet_num network_name)
       ++ ".0." ++ Py.str (device_index + 1) ++ "/24").
Proof.
  unfold generate_ip_for_network. repeat split.
  - by intros ->.
  - intros -> ->. reflexivity.
  - intros -> Hne. by rewrite (proj2 (Z.eqb_neq _ _) Hne).
Qed.

Lemma generate_address_cases_witness :
  generate_ip_for_network topology_netA "netA" 1 2 = "10.0.60.1/30"
  ∧ generate_ip_for_network topology_campus "mgmt" 1 2 = "192.168.10.11/24"
  ∧ generate_ip_for_network topology_campus "lan" 3 3
    = "10." ++ Py.str (subnet_num "lan") ++ ".0.4/24".
Proof.
  split; [|split].
  - rewrite (proj1 (proj2 (generate_address_cases topology_netA "netA" 1 2)));
      [vm_compute; reflexivity | vm_compute; reflexivity | reflexivity].
  - rewrite (proj1 (generate_address_cases topology_campus "mgmt" 1 2));
      vm_compute; reflexivity.
  - rewrite (proj2 (proj2 (generate_address_cases topology_campus "lan" 3 3)));
      [vm_compute; reflexivity | vm_compute; reflexivity | lia].
Defined.

(** ** The scanning loop, fact by fact *)

Section Scanning.

Implicit Types (self : Generator) (seen : gset string).
Implicit Types (fact : string * string * string).
Implicit Types (fs : list (string * string * string)).

Lemma fold_parse_line (ls : list string) (st : Generator * gset string) :
  fold_left parse_line ls st = record_facts (omap read_fact ls) st.
Proof.
  revert st. induction ls as [|line ls IH]; intros st; [done|].
  cbn [fold_left]. rewrite IH. unfold parse_line.
  change (omap read_fact (line :: ls)) with
    (match read_fact line with
     | Some fact => fact :: omap read_fact ls
     | None => omap read_fact ls
     end).
  by destruct (read_fact line).
Qed.

Lemma scan_lines_facts self content :
  scan_lines self content = record_facts (facts content) (self, ∅).
Proof. apply fold_parse_line. Qed.

Lemma isdigit_image : Py.isdigit "image" = false.
Proof. reflexivity. Qed.

(** The three outcomes of [record_fact]. *)
Lemma record_fact_image self seen device value :
  record_fact (device, "image", value) (self, seen)
  = (set_image_type self device value (detect_device_type self value),
     {[device]} ∪ seen).
Proof. reflexivity. Qed.

Lemma record_fact_interface self seen device property_name value :
  Py.isdigit property_name = true →
  record_fact (device, property_name, value) (self, seen)
  = (set_networks self
       (<[device := (default [] (device_networks self !! device)
                     ++ [attachment (device, property_name, value)])%list]>
          (device_networks self)),
     {[device]} ∪ seen).
Proof.
  intros Hd. unfold record_fact.
  destruct (String.eqb_spec property_name "image") as [-> | _];
    [discriminate|].
  by rewrite Hd.
Qed.

Lemma record_fact_other self seen device property_name value :
  property_name ≠ "image" →
  Py.isdigit property_name = false →
  record_fact (device, property_name, value) (self, seen)
  = (self, {[device]} ∪ seen).
Proof.
  intros Hi Hd. unfold record_fact.
  destruct (String.eqb_spec property_name "image"); [done|].
  by rewrite Hd.
Qed.

Lemma record_fact_seen fact self seen :
  (record_fact fact (self, seen)).2 = {[fact_device fact]} ∪ seen.
Proof.
  destruct fact as [[device property_name] value]. unfold record_fact.
  destruct (String.eqb _ _); [done|]. by destruct (Py.isdigit _).
Qed.

Lemma record_fact_networks fact self seen d :
  default [] (device_networks (record_fact fact (self, seen)).1 !! d)
  = (default [] (device_networks self !! d)
     ++ (if interface_fact_of d fact then [attachment fact] else []))%list.
Proof.
  destruct fact as [[device property_name] value].
  unfold interface_fact_of, fact_device, fact_property. cbn [fst snd].
  destruct (Py.isdigit property_name) eqn:Hd.
  - rewrite record_fact_interface by done. cbn [fst device_networks set_networks].
    destruct (String.eqb_spec device d) as [-> | Hne]; cbn [andb].
    + by rewrite lookup_insert_eq.
    + rewrite lookup_insert_ne by done. by rewrite app_nil_r.
  - rewrite andb_false_r, app_nil_r. unfold record_fact.
    destruct (String.eqb _ _); [done|]. by rewrite Hd.
Qed.

Lemma record_fact_images fact self seen d :
  image_fact_of d fact = false →
  device_images (record_fact fact (self, seen)).1 !! d
  = device_images self !! d
  ∧ device_types (record_fact fact (self, seen)).1 !! d
    = device_types self !! d.
Proof.
  destruct fact as [[device property_name] value].
  unfold image_fact_of, fact_device, fact_property. cbn [fst snd].
  intros Hno. unfold record_fact.
  destruct (String.eqb_spec property_name "image") as [-> | _].
  - rewrite andb_true_r in Hno. apply String.eqb_neq in Hno.
    cbn. by rewrite !lookup_insert_ne.
  - by destruct (Py.isdigit _).
Qed.

Lemma record_fact_config fact self seen :
  config (record_fact fact (self, seen)).1 = config self ∧
  devices (record_fact fact (self, seen)).1 = devices self.
Proof.
  destruct fact as [[device property_name] value]. unfold record_fact.
  destruct (String.eqb _ _); [done|]. by destruct (Py.isdigit _).
Qed.

Lemma record_facts_seen fs self seen :
  (record_facts fs (self, seen)).2
  = seen ∪ list_to_set (map fact_device fs).
Proof.
  revert self seen. induction fs as [|fact fs IH]; intros self seen.
  - cbn. by rewrite (right_id_L ∅ (∪)).
  - cbn [record_facts fold_left].
    destruct (record_fact fact (self, seen)) as [self' seen'] eqn:Hstep.
    fold (record_facts fs (self', seen')). rewrite IH.
    pose proof (record_fact_seen fact self seen) as Hs.
    rewrite Hstep in Hs. cbn in Hs. subst seen'. cbn [map list_to_set].
    by rewrite (comm_L (∪) {[fact_device fact]} seen), (assoc_L (∪)).
Qed.

Lemma record_facts_networks fs self seen d :
  default [] (device_networks (record_facts fs (self, seen)).1 !! d)
  = (default [] (device_networks self !! d)
     ++ map attachment (List.filter (interface_fact_of d) fs))%list.
Proof.
  revert self seen. induction fs as [|fact fs IH]; intros self seen.
  - cbn. by rewrite app_nil_r.
  - cbn [record_facts fold_left].
    destruct (record_fact fact (self, seen)) as [self' seen'] eqn:Hstep.
    fold (record_facts fs (self', seen')). rewrite IH.
    pose proof (record_fact_networks fact self seen d) as Hn.
    rewrite Hstep in Hn. cbn [fst] in Hn. rewrite Hn.
    cbn [List.filter]. destruct (interface_fact_of d fact); cbn [map].
    + by rewrite <- app_assoc.
    + by rewrite app_nil_r.
Qed.

Lemma record_facts_images fs self seen d :
  List.filter (image_fact_of d) fs = [] →
  device_images (record_facts fs (self, seen)).1 !! d
  = device_images self !! d
  ∧ device_types (record_facts fs (self, seen)).1 !! d
    = device_types self !! d.
Proof.
  revert self seen. induction fs as [|fact fs IH]; intros self seen Hno.
  - done.
  - cbn [List.filter] in Hno.
    destruct (image_fact_of d fact) eqn:Hfact; [discriminate|].
    cbn [record_facts fold_left].
    destruct (record_fact fact (self, seen)) as [self' seen'] eqn:Hstep.
    fold (record_facts fs (self', seen')).
    destruct (IH self' seen' Hno) as [-> ->].
    pose proof (record_fact_images fact self seen d Hfact) as Hi.
    by rewrite Hstep in Hi.
Qed.

Lemma record_facts_config fs self seen :
  config (record_facts fs (self, seen)).1 = config self.
Proof.
  revert self seen. induction fs as [|fact fs IH]; intros self seen; [done|].
  cbn [record_facts fold_left].
  destruct (record_fact fact (self, seen)) as [self' seen'] eqn:Hstep.
  fold (record_facts fs (self', seen')). rewrite IH.
  pose proof (record_fact_config fact self seen) as [Hc _].
  by rewrite Hstep in Hc.
Qed.

End Scanning.

(** ** The closing loop of the parser *)

Section Defaults.

Implicit Types (self : Generator) (l : list string) (d : string).

Lemma fill_defaults_frame self device :
  config (fill_defaults self device) = config self
  ∧ devices (fill_defaults self device) = devices self.
Proof.
  unfold fill_defaults.
  destruct (device_networks self !! device);
    cbn; by destruct (device_images self !! device).
Qed.

Lemma fill_defaults_networks self device d :
  device_networks (fill_defaults self device) !! d
  = match device_networks self !! d with
    | Some nets => Some nets
    | None => if decide (d = device) then Some [] else None
    end.
Proof.
  unfold fill_defaults.
  assert (Hnet : ∀ g, device_networks
            match device_images g !! device with
            | Some _ => g
            | None => set_image_type g device "unknown" "generic"
            end = device_networks g).
  { intros g. by destruct (device_images g !! device). }
  rewrite Hnet.
  destruct (device_networks self !! device) as [nets|] eqn:Hdev.
  - destruct (decide (d = device)) as [-> | Hne]; [by rewrite Hdev|].
    by destruct (device_networks self !! d).
  - cbn. destruct (decide (d = device)) as [-> | Hne].
    + by rewrite lookup_insert_eq, Hdev.
    + rewrite lookup_insert_ne by done.
      by destruct (device_networks self !! d).
Qed.

Lemma fill_defaults_images self device d :
  device_images (fill_defaults self device) !! d
  = match device_images self !! d with
    | Some image => Some image
    | None => if decide (d = device) then Some "unknown" else None
    end
  ∧ device_types (fill_defaults self device) !! d
    = match device_images self !! d with
      | Some _ => device_types self !! d
      | None => if decide (d = device) then Some "generic"
                else device_types self !! d
      end.
Proof.
  unfold fill_defaults.
  set (g := match device_networks self !! device with
            | Some _ => self
            | None => _
            end).
  assert (Hi : device_images g = device_images self
               ∧ device_types g = device_types self).
  { subst g. by destruct (device_networks self !! device). }
  destruct Hi as [Hi Ht].
  destruct (device_images g !! device) as [image|] eqn:Hdev;
    rewrite Hi in Hdev.
  - rewrite Hi, Ht.
    destruct (decide (d = device)) as [-> | Hne]; [by rewrite Hdev|].
    by destruct (device_images self !! d).
  - cbn. rewrite Hi, Ht. destruct (decide (d = device)) as [-> | Hne].
    + by rewrite !lookup_insert_eq, Hdev.
    + rewrite !lookup_insert_ne by done.
      by destruct (device_images self !! d).
Qed.

Lemma fold_fill_defaults_frame l self :
  config (fold_left fill_defaults l self) = config self
  ∧ devices (fold_left fill_defaults l self) = devices self.
Proof.
  revert self. induction l as [|device l IH]; intros self; [done|].
  cbn [fold_left]. destruct (IH (fill_defaults self device)) as [-> ->].
  apply fill_defaults_frame.
Qed.

Lemma fold_fill_defaults_networks l self d :
  device_networks (fold_left fill_defaults l self) !! d
  = match device_networks self !! d with
    | Some nets => Some nets
    | None => if decide (d ∈ l) then Some [] else None
    end.
Proof.
  revert self. induction l as [|device l IH]; intros self.
  - cbn. destruct (device_networks self !! d); [done|].
    by rewrite decide_False by apply not_elem_of_nil.
  - cbn [fold_left]. rewrite IH, fill_defaults_networks.
    destruct (device_networks self !! d) as [nets|]; [done|].
    destruct (decide (d = device)) as [-> | Hne].
    + by rewrite decide_True by (apply elem_of_cons; by left).
    + destruct (decide (d ∈ l)) as [Hin | Hout].
      * by rewrite decide_True by (apply elem_of_cons; by right).
      * rewrite decide_False; [done|].
        intros [? | ?]%elem_of_cons; done.
Qed.

Lemma fold_fill_defaults_images l self d :
  device_images (fold_left fill_defaults l self) !! d
  = match device_images self !! d with
    | Some image => Some image
    | None => if decide (d ∈ l) then Some "unknown" else None
    end
  ∧ device_types (fold_left fill_defaults l self) !! d
    = match device_images self !! d with
      | Some _ => device_types self !! d
      | None => if decide (d ∈ l) then Some "generic"
                else device_types self !! d
      end.
Proof.
  revert self. induction l as [|device l IH]; intros self.
  - cbn. destruct (device_images self !! d); [done|].
    by rewrite !decide_False by apply not_elem_of_nil.
  - cbn [fold_left].
    destruct (IH (fill_defaults self device)) as [-> ->].
    destruct (fill_defaults_images self device d) as [-> ->].
    destruct (device_images self !! d) as [image|]; [done|].
    destruct (decide (d = device)) as [-> | Hne].
    + by rewrite !decide_True by (apply elem_of_cons; by left).
    + destruct (decide (d ∈ l)) as [Hin | Hout].
      * by rewrite !decide_True by (apply elem_of_cons; by right).
      * rewrite !decide_False; [done| |];
          intros [? | ?]%elem_of_cons; done.
Qed.

End Defaults.

(** ** What the parser leaves in the generator *)

Section Parsed.

Variable cfg : Config.
Variable content : string.

Let self := parse_lab_conf (new_generator cfg) content.

Lemma parse_lab_conf_unfold :
  self = finish_parse (record_facts (facts content) (new_generator cfg, ∅)).1
           (elements (list_to_set (map fact_device (facts content))
                      : gset string)).
Proof.
  subst self. unfold parse_lab_conf. rewrite scan_lines_facts.
  pose proof (record_facts_seen (facts content) (new_generator cfg) ∅) as Hs.
  destruct (record_facts _ _) as [g seen]. cbn in Hs. subst seen.
  by rewrite (left_id_L ∅ (∪)).
Qed.

Lemma parsed_devices_sorted :
  devices self
  = sorted (elements (list_to_set (map fact_device (facts content))
                      : gset string)).
Proof.
  rewrite parse_lab_conf_unfold. unfold finish_parse.
  by rewrite (proj2 (fold_fill_defaults_frame _ _)).
Qed.

Lemma parsed_config : config self = cfg.
Proof.
  rewrite parse_lab_conf_unfold. unfold finish_parse.
  rewrite (proj1 (fold_fill_defaults_frame _ _)). cbn.
  by rewrite record_facts_config.
Qed.

Lemma parsed_devices_elem (d : string) :
  d ∈ devices self ↔ ∃ fact, fact ∈ facts content ∧ fact_device fact = d.
Proof.
  rewrite parsed_devices_sorted. unfold sorted.
  rewrite merge_sort_Permutation, elem_of_elements, elem_of_list_to_set.
  rewrite list_elem_of_fmap. naive_solver.
Qed.

Lemma parsed_devices_NoDup : NoDup (devices self).
Proof.
  rewrite parsed_devices_sorted. unfold sorted.
  rewrite merge_sort_Permutation. apply NoDup_elements.
Qed.

Lemma parsed_devices_StronglySorted : StronglySorted String.le (devices self).
Proof.
  rewrite parsed_devices_sorted. apply StronglySorted_merge_sort; apply _.
Qed.

Lemma parsed_networks (d : string) :
  device_networks self !!! d
  = map attachment (List.filter (interface_fact_of d) (facts content)).
Proof.
  rewrite lookup_total_alt.
  pose proof (record_facts_networks (facts content) (new_generator cfg) ∅ d)
    as Hn.
  cbn [new_generator device_networks] in Hn.
  rewrite lookup_empty in Hn. cbn [default app] in Hn.
  rewrite parse_lab_conf_unfold. unfold finish_parse.
  rewrite fold_fill_defaults_networks. cbn [device_networks set_devices].
  destruct (device_networks (record_facts _ _).1 !! d) as [nets|].
  - exact Hn.
  - cbn in Hn. rewrite <- Hn. by destruct (decide _).
Qed.

Lemma parsed_networks_present (d : string) :
  d ∈ devices self → is_Some (device_networks self !! d).
Proof.
  intros Hd. revert Hd.
  rewrite parse_lab_conf_unfold. unfold finish_parse.
  rewrite (proj2 (fold_fill_defaults_frame _ _)). cbn [devices set_devices].
  intros Hd. rewrite fold_fill_defaults_networks.
  cbn [devices set_devices].
  destruct (device_networks _ !! d); [by eexists|].
  rewrite decide_True by done. by eexists.
Qed.

Lemma parsed_without_image (d : string) :
  d ∈ devices self →
  List.filter (image_fact_of d) (facts content) = [] →
  device_images self !! d = Some "unknown"
  ∧ device_types self !! d = Some "generic".
Proof.
  intros Hd Hno. revert Hd.
  rewrite parse_lab_conf_unfold. unfold finish_parse.
  set (g := set_devices _ _).
  rewrite (proj2 (fold_fill_defaults_frame _ _)). intros Hd.
  destruct (fold_fill_defaults_images (devices g) g d) as [-> ->].
  rewrite !decide_True by done. subst g.
  cbn [devices device_images device_types set_devices].
  destruct (record_facts_images (facts content) (new_generator cfg) ∅ d Hno)
    as [-> _].
  cbn. by rewrite lookup_empty.
Qed.

End Parsed.

(** Every dictionary of the generator has an entry for every device of
    the list, so that no subscript of the generator can fail. *)
Lemma record_facts_types_present fs self seen d :
  (is_Some (device_images self !! d) → is_Some (device_types self !! d)) →
  is_Some (device_images (record_facts fs (self, seen)).1 !! d) →
  is_Some (device_types (record_facts fs (self, seen)).1 !! d).
Proof.
  revert self seen. induction fs as [|fact fs IH]; intros self seen Hinv.
  - exact Hinv.
  - cbn [record_facts fold_left].
    destruct (record_fact fact (self, seen)) as [self' seen'] eqn:Hstep.
    apply IH.
    destruct fact as [[device property_name] value].
    unfold record_fact in Hstep.
    destruct (String.eqb property_name "image").
    + injection Hstep as <- _. cbn.
      destruct (decide (d = device)) as [-> | Hne].
      * rewrite !lookup_insert_eq. by eexists.
      * by rewrite !lookup_insert_ne.
    + destruct (Py.isdigit property_name); injection Hstep as <- _;
        exact Hinv.
Qed.

Lemma parsed_entries_present (cfg : Config) (content d : string) :
  let self := parse_lab_conf (new_generator cfg) content in
  d ∈ devices self →
  is_Some (device_networks self !! d)
  ∧ is_Some (device_images self !! d)
  ∧ is_Some (device_types self !! d).
Proof.
  intros self Hd. split; [by apply parsed_networks_present|].
  revert Hd. subst self.
  rewrite parse_lab_conf_unfold. unfold finish_parse.
  set (g := set_devices _ _).
  rewrite (proj2 (fold_fill_defaults_frame _ _)). intros Hd.
  destruct (fold_fill_defaults_images (devices g) g d) as [-> ->].
  rewrite !decide_True by done.
  destruct (device_images g !! d) as [image|] eqn:Himage.
  - split; [by eexists|]. subst g.
    cbn [device_images device_types set_devices] in *.
    apply record_facts_types_present.
    + cbn. rewrite lookup_empty. by intros [? ?].
    + by eexists.
  - split; by eexists.
Qed.

(** ** Interfaces declared twice *)

(** C5, as the code has it: the attachment strings of a device are those
    of its interface facts, one for each fact and in the order of the
    lines; a fact for an index already seen is added after the earlier
    one and replaces nothing. *)
Theorem interfaces_are_appended (cfg : Config) (content device : string) :
  device_networks (parse_lab_conf (new_generator cfg) content) !!! device
  = map attachment
        (List.filter (interface_fact_of device) (facts content)).
Proof. apply parsed_networks. Qed.

(** C5 fails as worded: two lines for interface 0 of [R1] leave two
    entries with index 0, the earlier one first. *)
Lemma interface_declared_twice :
  device_networks topology_twice !!! "R1" = ["0:netA"; "0:netB"]
  ∧ ¬ NoDup (map attachment_index (device_networks topology_twice !!! "R1")).
Proof.
  assert (H : device_networks topology_twice !!! "R1" = ["0:netA"; "0:netB"])
    by (vm_compute; reflexivity).
  split; [exact H|]. rewrite H. cbn.
  intros Hnd. apply NoDup_cons in Hnd as [Hnot _].
  apply Hnot. apply elem_of_cons. by left.
Qed.

(** ** The device list *)

(** C8: after parsing, the device list holds exactly the names on the
    left-hand side of the fact lines, each once, in lexicographic
    order; a device for which no image was recorded has image
    [unknown] and role [generic]; and a fact line whose property is
    neither [image] nor a string of digits adds the name of its device
    to the set of names and changes nothing else. *)
Theorem parsed_device_list (cfg : Config) (content : string) :
  let self := parse_lab_conf (new_generator cfg) content in
  (∀ d, d ∈ devices self ↔
        ∃ fact, fact ∈ facts content ∧ fact_device fact = d)
  ∧ NoDup (devices self)
  ∧ StronglySorted String.le (devices self)
  ∧ (∀ d, d ∈ devices self →
          List.filter (image_fact_of d) (facts content) = [] →
          device_images self !! d = Some "unknown"
          ∧ device_types self !! d = Some "generic")
  ∧ (∀ line device property_name value g seen,
       read_fact line = Some (device, property_name, value) →
       property_name ≠ "image" →
       Py.isdigit property_name = false →
       parse_line (g, seen) line = (g, {[device]} ∪ seen)).
Proof.
  intros self. repeat split.
  - by apply parsed_devices_elem.
  - by apply parsed_devices_elem.
  - apply parsed_devices_NoDup.
  - apply parsed_devices_StronglySorted.
  - by apply parsed_without_image.
  - by apply parsed_without_image.
  - intros line device property_name value g seen Hfact Hi Hd.
    unfold parse_line. rewrite Hfact. by apply record_fact_other.
Qed.

Lemma parsed_device_list_witness :
  (device_images topology_hosts !! "SW1" = Some "unknown"
   ∧ device_types topology_hosts !! "SW1" = Some "generic")
  ∧ parse_line (new_generator DEFAULT_CONFIG, ∅) "SW1[note]=spare"
    = (new_generator DEFAULT_CONFIG, {["SW1"]} ∪ ∅).
Proof.
  pose proof (parsed_device_list DEFAULT_CONFIG scenario_hosts)
    as (_ & _ & _ & Himage & Hother).
  split.
  - apply Himage; [|vm_compute; reflexivity].
    fold topology_hosts. rewrite devices_topology_hosts.
    apply elem_of_cons; right. apply elem_of_cons; right.
    apply elem_of_cons; by left.
  - apply (Hother _ "SW1" "note" "spare"); [vm_compute; reflexivity|done|done].
Defined.

(** ** Position and count of the devices on a network *)

Section PositionCount.

Variable self : Generator.
Variable network_name : string.
Variable device_name : string.

(** The body shared, word for word, by the three counting loops. *)
Let step (pc : Z * Z) (device : string) : Z * Z :=
  let '(device_position, device_count) := pc in
  if existsb (fun net => Py.contains network_name net)
             (device_networks self !!! device)
  then
    let device_count := device_count + 1 in
    if String.eqb device device_name then (device_count, device_count)
    else (device_position, device_count)
  else (device_position, device_count).

Lemma rank_nonneg (l : list string) : 0 <= rank device_name l.
Proof.
  induction l as [|x l IH]; cbn; [lia|].
  destruct (String.eqb x device_name); [lia|].
  destruct (Z.eqb_spec (rank device_name l) 0); lia.
Qed.

Lemma rank_absent (l : list string) :
  device_name ∉ l → rank device_name l = 0.
Proof.
  induction l as [|x l IH]; intros Hout; cbn; [done|].
  apply not_elem_of_cons in Hout as [Hne Hout].
  destruct (String.eqb_spec x device_name); [congruence|].
  by rewrite (IH Hout).
Qed.

Lemma filter_absent (f : string → bool) (l : list string) :
  device_name ∉ l → device_name ∉ List.filter f l.
Proof.
  intros Hout Hin. apply Hout.
  apply list_elem_of_In in Hin. apply filter_In in Hin as [Hin _].
  by apply list_elem_of_In.
Qed.

Lemma counting_loop (l : list string) (position count : Z) :
  NoDup l →
  fold_left step l (position, count)
  = (let r := rank device_name
                   (List.filter (on_network self network_name) l) in
     if r =? 0 then position else count + r,
     count + Z.of_nat (length (List.filter (on_network self network_name) l))).
Proof.
  revert position count.
  induction l as [|device l IH]; intros position count Hnd.
  - cbn. f_equal. lia.
  - apply NoDup_cons in Hnd as [Hfresh Hnd].
    cbn [fold_left List.filter]. unfold step at 2.
    change (existsb (fun net => Py.contains network_name net)
                    (device_networks self !!! device))
      with (on_network self network_name device).
    destruct (on_network self network_name device).
    + cbn [rank length]. rewrite Nat2Z.inj_succ.
      destruct (String.eqb_spec device device_name) as [-> | Hne].
      * rewrite IH by done. cbn zeta.
        rewrite (rank_absent _ (filter_absent _ _ Hfresh)).
        change (0 =? 0) with true. change (1 =? 0) with false.
        cbv iota. f_equal; lia.
      * rewrite IH by done. cbn zeta.
        pose proof (rank_nonneg
          (List.filter (on_network self network_name) l)) as Hr.
        destruct (Z.eqb_spec (rank device_name
          (List.filter (on_network self network_name) l)) 0) as [Hz | Hz].
        -- change (0 =? 0) with true. cbv iota. f_equal. lia.
        -- destruct (Z.eqb_spec (rank device_name
             (List.filter (on_network self network_name) l) + 1) 0);
             [lia|]. f_equal; lia.
    + by rewrite IH.
Qed.

Lemma isis_position_count_eq :
  isis_position_count self device_name network_name
  = fold_left step (devices self) (0, 0).
Proof. reflexivity. Qed.

Lemma basic_position_count_eq :
  basic_position_count self device_name network_name
  = fold_left step (devices self) (0, 0).
Proof. reflexivity. Qed.

Lemma router_position_count_eq :
  router_position_count self device_name network_name
  = fold_left step (devices self) (0, 0).
Proof. reflexivity. Qed.

Lemma counting_loop_devices :
  NoDup (devices self) →
  fold_left step (devices self) (0, 0)
  = (rank device_name (devices_on_network self network_name),
     Z.of_nat (length (devices_on_network self network_name))).
Proof.
  intros Hnd. rewrite counting_loop by done. cbn zeta.
  fold (devices_on_network self network_name).
  destruct (Z.eqb_spec (rank device_name
    (devices_on_network self network_name)) 0) as [-> | Hz];
    f_equal; lia.
Qed.

End PositionCount.

Lemma rank_lookup (device : string) (l : list string) :
  device ∈ l →
  1 <= rank device l <= Z.of_nat (length l)
  ∧ l !! Z.to_nat (rank device l - 1) = Some device.
Proof.
  induction l as [|x l IH]; intros Hin; [by apply elem_of_nil in Hin|].
  cbn [rank length]. rewrite Nat2Z.inj_succ.
  destruct (String.eqb_spec x device) as [-> | Hne].
  - split; [lia | reflexivity].
  - apply elem_of_cons in Hin as [-> | Hin]; [done|].
    destruct (IH Hin) as [Hr Hl].
    destruct (Z.eqb_spec (rank device l) 0); [lia|].
    split; [lia|].
    replace (Z.to_nat (rank device l + 1 - 1))
      with (S (Z.to_nat (rank device l - 1))) by lia.
    exact Hl.
Qed.

Lemma devices_on_network_elem (self : Generator) (network_name d : string) :
  d ∈ devices_on_network self network_name
  ↔ d ∈ devices self
    ∧ ∃ net, net ∈ device_networks self !!! d
             ∧ Py.contains network_name net = true.
Proof.
  unfold devices_on_network.
  rewrite list_elem_of_In, filter_In, <- list_elem_of_In.
  unfold on_network. by rewrite existsb_elem_of.
Qed.

(** C10: the three places that count the devices of a network agree.
    The count is the number of devices, in the order of the device
    list, that have an attachment string containing the network name;
    the position of a device is its rank, counted from 1, among those
    devices, and 0 when it is not one of them. Router interfaces,
    interfaces of other devices and the address of a gateway are all
    computed from this position and this count. *)
Theorem position_and_count_agree (self : Generator)
    (device network_name : string) (frr_routers : list string) :
  NoDup (devices self) →
  let members := devices_on_network self network_name in
  let position := rank device members in
  let count := Z.of_nat (length members) in
  isis_position_count self device network_name = (position, count)
  ∧ basic_position_count self device network_name = (position, count)
  ∧ router_position_count self device network_name = (position, count)
  ∧ (∀ d, d ∈ members ↔
          d ∈ devices self
          ∧ ∃ net, net ∈ device_networks self !!! d
                   ∧ Py.contains network_name net = true)
  ∧ (device ∈ members →
     1 <= position <= count
     ∧ members !! Z.to_nat (position - 1) = Some device)
  ∧ isis_ip_addr self device network_name
    = generate_ip_for_network self network_name position count
  ∧ basic_ip_addr self device network_name
    = generate_ip_for_network self network_name position count
  ∧ get_router_ip_on_network self device network_name frr_routers
    = if 0 <? position
      then Some (before_slash
                   (generate_ip_for_network self network_name position count))
      else None.
Proof.
  intros Hnd members position count.
  pose proof (counting_loop_devices self network_name device Hnd) as Hloop.
  fold members position count in Hloop.
  assert (Hisis : isis_position_count self device network_name
                  = (position, count))
    by (rewrite isis_position_count_eq; exact Hloop).
  assert (Hbasic : basic_position_count self device network_name
                   = (position, count))
    by (rewrite basic_position_count_eq; exact Hloop).
  assert (Hrouter : router_position_count self device network_name
                    = (position, count))
    by (rewrite router_position_count_eq; exact Hloop).
  split; [exact Hisis|]. split; [exact Hbasic|]. split; [exact Hrouter|].
  split; [intros d; apply devices_on_network_elem|].
  split; [apply rank_lookup|].
  split; [unfold isis_ip_addr; by rewrite Hisis|].
  split; [unfold basic_ip_addr; by rewrite Hbasic|].
  unfold get_router_ip_on_network. by rewrite Hrouter.
Qed.

Lemma position_and_count_agree_witness :
  isis_position_count topology_netA "R1" "netA" = (2, 2)
  ∧ basic_position_count topology_netA "R1" "netA" = (2, 2)
  ∧ router_position_count topology_netA "R1" "netA" = (2, 2).
Proof.
  pose proof (position_and_count_agree topology_netA "R1" "netA" ["R1"]
                (parsed_devices_NoDup DEFAULT_CONFIG scenario_netA))
    as (H1 & H2 & H3 & _).
  split; [rewrite H1 | split; [rewrite H2 | rewrite H3]];
    vm_compute; reflexivity.
Defined.

(** Containment, not equality, decides who is on a network: the
    manager on network [10] is counted on network [1]. *)
Example members_by_containment :
  devices_on_network topology_one_ten "1" = ["M1"; "R1"]
  ∧ has_interface_on topology_one_ten "1" "M1" = false.
Proof. split; vm_compute; reflexivity. Qed.

(** ** The files a run writes *)

Lemma length_append (s t : string) :
  String.length (s ++ t) = (String.length s + String.length t)%nat.
Proof. induction s as [|c s IH]; simpl; [done | by f_equal]. Qed.

Lemma append_inj_r (t s1 s2 : string) : s1 ++ t = s2 ++ t → s1 = s2.
Proof.
  revert s2. induction s1 as [|c s1 IH]; intros [|c' s2] Heq; simpl in Heq.
  - done.
  - apply (f_equal String.length) in Heq. simpl in Heq.
    rewrite (length_append s2 t) in Heq.
    change (String.length ("" ++ t)) with (String.length t) in Heq. lia.
  - apply (f_equal String.length) in Heq. simpl in Heq.
    rewrite (length_append s1 t) in Heq.
    change (String.length ("" ++ t)) with (String.length t) in Heq. lia.
  - injection Heq as -> Heq. by rewrite (IH _ Heq).
Qed.

Lemma startup_file_inj (d1 d2 : string) :
  startup_file d1 = startup_file d2 → d1 = d2.
Proof. apply append_inj_r. Qed.

Section Files.

Variable dir : Directory.
Variable self : Generator.
Variable frr_routers : list string.

Implicit Types (fs : gmap string string) (st : option Z * gmap string string).
Implicit Types (f name : string).

(** *** One write *)

Lemma safe_write_file_status name content fs :
  (safe_write_file dir name content true fs).1
  = if can_write dir name then None else Some 1.
Proof.
  unfold safe_write_file, can_write. cbn [negb orb].
  destruct (file_of dir name); [|done].
  destruct (may_open dir name); [|done].
  by destruct (may_chmod dir name).
Qed.

Lemma safe_write_file_lookup name content fs f :
  (safe_write_file dir name content true fs).2 !! f
  = if writes_to dir name f then Some content else fs !! f.
Proof.
  unfold safe_write_file, writes_to. cbn [negb orb].
  destruct (file_of dir name) as [g|] eqn:Hg.
  - destruct (may_open dir name).
    + rewrite andb_true_r.
      assert (Hsnd : ∀ m : gmap string string,
                 (if may_chmod dir name then (None, m) else (Some 1, m)).2
                 = m) by (intros m; by destruct (may_chmod dir name)).
      rewrite Hsnd. case_bool_decide as Heq.
      * injection Heq as ->. apply lookup_insert_eq.
      * apply lookup_insert_ne. by intros ->.
    + by rewrite andb_false_r.
  - by rewrite bool_decide_false.
Qed.

Lemma safe_write_file_done name content fs :
  can_write dir name = true →
  ∃ f, file_of dir name = Some f
       ∧ writes_to dir name f = true
       ∧ safe_write_file dir name content true fs = (None, <[f := content]> fs).
Proof.
  unfold can_write, safe_write_file, writes_to. cbn [negb orb].
  destruct (file_of dir name) as [g|]; [|done].
  intros [-> ->]%andb_true_iff. exists g.
  by rewrite bool_decide_true.
Qed.

Lemma generate_basic_config_status (d : string) fs :
  (generate_basic_config dir self d frr_routers fs).1
  = if isfile dir fs (startup_file d) || can_write dir (startup_file d)
    then None else Some 1.
Proof.
  unfold generate_basic_config.
  destruct (isfile dir fs (startup_file d)); [done|].
  apply safe_write_file_status.
Qed.

(** What [generate_basic_config] leaves in a file depends on that
    file alone: it is kept when it exists. *)
Lemma generate_basic_config_lookup (d : string) fs f :
  (generate_basic_config dir self d frr_routers fs).2 !! f
  = match fs !! f with
    | Some text => Some text
    | None =>
        if writes_to dir (startup_file d) f
        then Some (basic_content self d frr_routers) else None
    end.
Proof.
  unfold generate_basic_config, isfile.
  destruct (file_of dir (startup_file d)) as [g|] eqn:Hg.
  - case_bool_decide as Hsome.
    + cbn [snd]. destruct (fs !! f) eqn:Hf; [done|].
      unfold writes_to. rewrite Hg. case_bool_decide as Heq; [|done].
      injection Heq as ->. rewrite Hf in Hsome. by destruct Hsome.
    + rewrite safe_write_file_lookup. unfold writes_to. rewrite Hg.
      case_bool_decide as Heq; cbn [andb].
      * injection Heq as ->.
        destruct (fs !! f) eqn:Hf; [|done].
        destruct Hsome. by eexists.
      * by destruct (fs !! f).
  - rewrite safe_write_file_lookup. unfold writes_to. rewrite Hg.
    rewrite bool_decide_false by done. by destruct (fs !! f).
Qed.

(** *** The loop over the routers *)

Lemma write_routers_step (ir : Z * string) (l : list (Z * string)) st :
  write_routers dir self frr_routers (ir :: l) st
  = write_routers dir self frr_routers l
      (and_then (generate_isis_config dir self ir.2 ir.1 frr_routers) st).
Proof. reflexivity. Qed.

Lemma write_routers_exited (numbered : list (Z * string)) (c : Z) fs :
  write_routers dir self frr_routers numbered (Some c, fs) = (Some c, fs).
Proof. induction numbered as [|ir l IH]; [done | exact IH]. Qed.

Lemma write_routers_cons (ir : Z * string) (l : list (Z * string)) fs :
  write_routers dir self frr_routers (ir :: l) (None, fs)
  = write_routers dir self frr_routers l
      (generate_isis_config dir self ir.2 ir.1 frr_routers fs).
Proof. reflexivity. Qed.

(** Whether the loop ends the process is decided by the names alone. *)
Lemma write_routers_status (numbered : list (Z * string)) fs :
  (write_routers dir self frr_routers numbered (None, fs)).1
  = if forallb (fun ir => can_write dir (startup_file ir.2)) numbered
    then None else Some 1.
Proof.
  revert fs. induction numbered as [|ir l IH]; intros fs; [done|].
  rewrite write_routers_cons. cbn [forallb]. unfold generate_isis_config.
  pose proof (safe_write_file_status (startup_file ir.2)
                (isis_content self ir.2 ir.1 frr_routers) fs) as Hs.
  destruct (safe_write_file _ _ _ _ _) as [s fs1]. cbn [fst] in Hs. subst s.
  destruct (can_write dir (startup_file ir.2)); cbn [andb].
  - apply IH.
  - by rewrite write_routers_exited.
Qed.

Lemma write_routers_lookup (numbered : list (Z * string)) fs fs' f :
  fs !! f = fs' !! f →
  (write_routers dir self frr_routers numbered (None, fs)).2 !! f
  = (write_routers dir self frr_routers numbered (None, fs')).2 !! f.
Proof.
  revert fs fs'. induction numbered as [|ir l IH]; intros fs fs' Hf; [done|].
  rewrite !write_routers_cons. unfold generate_isis_config.
  set (name := startup_file ir.2).
  set (text := isis_content self ir.2 ir.1 frr_routers).
  pose proof (safe_write_file_status name text fs) as Hs.
  pose proof (safe_write_file_status name text fs') as Hs'.
  pose proof (safe_write_file_lookup name text fs f) as Hl.
  pose proof (safe_write_file_lookup name text fs' f) as Hl'.
  destruct (safe_write_file dir name text true fs) as [s fs1].
  destruct (safe_write_file dir name text true fs') as [s' fs1'].
  cbn [fst snd] in *. subst s s'.
  assert (Hf1 : fs1 !! f = fs1' !! f) by (rewrite Hl, Hl'; by rewrite Hf).
  destruct (can_write dir name).
  - by apply IH.
  - by rewrite !write_routers_exited.
Qed.

Lemma write_routers_other (numbered : list (Z * string)) st f :
  (∀ ir, ir ∈ numbered → file_of dir (startup_file ir.2) ≠ Some f) →
  (write_routers dir self frr_routers numbered st).2 !! f = st.2 !! f.
Proof.
  revert st. induction numbered as [|ir l IH]; intros st Hother; [done|].
  rewrite write_routers_step.
  rewrite IH by (intros ir' Hin; apply Hother, elem_of_cons; by right).
  destruct st as [[c|] fs]; [done|]. cbn [and_then fst snd].
  unfold generate_isis_config. rewrite safe_write_file_lookup.
  unfold writes_to. rewrite bool_decide_false; [done|].
  apply Hother, elem_of_cons. by left.
Qed.

Lemma write_routers_kept (numbered : list (Z * string)) st f :
  is_Some (st.2 !! f) →
  is_Some ((write_routers dir self frr_routers numbered st).2 !! f).
Proof.
  revert st. induction numbered as [|ir l IH]; intros st Hf; [done|].
  rewrite write_routers_step.
  apply IH. destruct st as [[c|] fs]; [done|]. cbn [and_then fst snd] in *.
  unfold generate_isis_config. rewrite safe_write_file_lookup.
  by destruct (writes_to _ _ _).
Qed.

(** When every router can be written, the file of a router ends with
    a content that the files found at the start have no part in. *)
Lemma write_routers_file (numbered : list (Z * string)) fs fs'
    (ir : Z * string) f :
  (∀ ir, ir ∈ numbered → can_write dir (startup_file ir.2) = true) →
  ir ∈ numbered →
  file_of dir (startup_file ir.2) = Some f →
  (write_routers dir self frr_routers numbered (None, fs)).2 !! f
  = (write_routers dir self frr_routers numbered (None, fs')).2 !! f
  ∧ is_Some ((write_routers dir self frr_routers numbered (None, fs)).2 !! f).
Proof.
  revert fs fs'. induction numbered as [|ir0 l IH]; intros fs fs' Hall Hin Hf;
    [by apply elem_of_nil in Hin|].
  rewrite !write_routers_cons. unfold generate_isis_config.
  assert (Hcan : can_write dir (startup_file ir0.2) = true)
    by (apply Hall, elem_of_cons; by left).
  destruct (safe_write_file_done _
              (isis_content self ir0.2 ir0.1 frr_routers) fs Hcan)
    as (g & Hg & _ & ->).
  destruct (safe_write_file_done _
              (isis_content self ir0.2 ir0.1 frr_routers) fs' Hcan)
    as (g' & Hg' & _ & ->).
  assert (g' = g) by congruence. subst g'.
  apply elem_of_cons in Hin as [-> | Hin].
  - assert (g = f) by congruence. subst g. split.
    + apply write_routers_lookup. by rewrite !lookup_insert_eq.
    + apply write_routers_kept. cbn [snd]. rewrite lookup_insert_eq.
      by eexists.
  - apply IH; [|done|done].
    intros ir' Hin'. apply Hall, elem_of_cons. by right.
Qed.

(** Two runs of the loop, on any two sets of files: a file is either
    left by both as they found it, or left by both with the same
    content. *)
Lemma write_routers_two (numbered : list (Z * string)) fs fs' f :
  ((write_routers dir self frr_routers numbered (None, fs)).2 !! f = fs !! f
   ∧ (write_routers dir self frr_routers numbered (None, fs')).2 !! f
     = fs' !! f)
  ∨ ((write_routers dir self frr_routers numbered (None, fs)).2 !! f
     = (write_routers dir self frr_routers numbered (None, fs')).2 !! f
     ∧ is_Some ((write_routers dir self frr_routers numbered (None, fs)).2
                  !! f)).
Proof.
  revert fs fs'. induction numbered as [|ir l IH]; intros fs fs';
    [by left|].
  rewrite !write_routers_cons. unfold generate_isis_config.
  set (name := startup_file ir.2).
  set (text := isis_content self ir.2 ir.1 frr_routers).
  pose proof (safe_write_file_status name text fs) as Hs.
  pose proof (safe_write_file_status name text fs') as Hs'.
  pose proof (safe_write_file_lookup name text fs f) as Hl.
  pose proof (safe_write_file_lookup name text fs' f) as Hl'.
  destruct (safe_write_file dir name text true fs) as [s fs1].
  destruct (safe_write_file dir name text true fs') as [s' fs1'].
  cbn [fst snd] in *. subst s s'.
  destruct (writes_to dir name f).
  - right. destruct (can_write dir name).
    + split; [apply write_routers_lookup; congruence|].
      apply write_routers_kept. cbn [snd]. rewrite Hl. by eexists.
    + rewrite !write_routers_exited. cbn [snd].
      split; [congruence|]. rewrite Hl. by eexists.
  - destruct (can_write dir name).
    + destruct (IH fs1 fs1') as [[HA HB] | H]; [left | by right].
      split; congruence.
    + rewrite !write_routers_exited. by left.
Qed.

(** *** The loop over the other devices *)

Lemma write_others_step (d : string) (l : list string) st :
  write_others dir self frr_routers (d :: l) st
  = write_others dir self frr_routers l
      (if bool_decide (d ∈ frr_routers) then st
       else and_then (generate_basic_config dir self d frr_routers) st).
Proof. reflexivity. Qed.

Lemma write_others_exited (l : list string) (c : Z) fs :
  write_others dir self frr_routers l (Some c, fs) = (Some c, fs).
Proof.
  induction l as [|d l IH]; [done|].
  rewrite write_others_step.
  by destruct (bool_decide (d ∈ frr_routers)).
Qed.

Lemma write_others_cons (d : string) (l : list string) fs :
  write_others dir self frr_routers (d :: l) (None, fs)
  = write_others dir self frr_routers l
      (if bool_decide (d ∈ frr_routers) then (None, fs)
       else generate_basic_config dir self d frr_routers fs).
Proof. reflexivity. Qed.

Lemma write_others_status_inv (l : list string) st :
  (write_others dir self frr_routers l st).1 = None → st.1 = None.
Proof.
  destruct st as [[c|] fs]; [|done]. by rewrite write_others_exited.
Qed.

Lemma write_others_kept (l : list string) st f (text : string) :
  st.2 !! f = Some text →
  (write_others dir self frr_routers l st).2 !! f = Some text.
Proof.
  revert st. induction l as [|d l IH]; intros st Hf; [done|].
  rewrite write_others_step.
  apply IH. destruct (bool_decide (d ∈ frr_routers)); [done|].
  destruct st as [[c|] fs]; [done|]. cbn [and_then fst snd] in *.
  by rewrite generate_basic_config_lookup, Hf.
Qed.

Lemma write_others_other (l : list string) st f :
  (∀ d, d ∈ l → d ∉ frr_routers →
        file_of dir (startup_file d) ≠ Some f) →
  (write_others dir self frr_routers l st).2 !! f = st.2 !! f.
Proof.
  revert st. induction l as [|d l IH]; intros st Hother; [done|].
  rewrite write_others_step.
  rewrite IH by (intros d' Hin; apply Hother, elem_of_cons; by right).
  destruct (bool_decide_reflect (d ∈ frr_routers)) as [? | Hout]; [done|].
  destruct st as [[c|] fs]; [done|]. cbn [and_then fst snd].
  rewrite generate_basic_config_lookup. unfold writes_to.
  rewrite bool_decide_false
    by (apply Hother; [apply elem_of_cons; by left | done]).
  by destruct (fs !! f).
Qed.

Lemma write_others_never_deletes (l : list string) st f :
  is_Some (st.2 !! f) →
  is_Some ((write_others dir self frr_routers l st).2 !! f).
Proof. intros [text Hf]. exists text. by apply write_others_kept. Qed.

(** A loop that does not end the process leaves a file for every
    device that is not a router. *)
Lemma write_others_present (l : list string) st (d : string) :
  (write_others dir self frr_routers l st).1 = None →
  d ∈ l → d ∉ frr_routers →
  isfile dir (write_others dir self frr_routers l st).2 (startup_file d)
  = true.
Proof.
  revert st. induction l as [|d0 l IH]; intros st Hok Hin Hout;
    [by apply elem_of_nil in Hin|].
  rewrite write_others_step in *.
  set (st1 := if bool_decide (d0 ∈ frr_routers) then st
              else and_then (generate_basic_config dir self d0 frr_routers) st)
    in *.
  apply elem_of_cons in Hin as [<- | Hin]; [|by apply IH].
  pose proof (write_others_status_inv _ _ Hok) as Hok1.
  subst st1. rewrite bool_decide_false in * by done.
  destruct st as [[c|] fs]; [done|]. cbn [and_then fst snd] in *.
  pose proof (generate_basic_config_status d fs) as Hs.
  rewrite Hok1 in Hs.
  assert (Hfile : ∃ g, file_of dir (startup_file d) = Some g
                       ∧ is_Some ((generate_basic_config dir self d
                                     frr_routers fs).2 !! g)).
  { destruct (isfile dir fs (startup_file d)) eqn:Hisfile.
    - unfold isfile in Hisfile.
      destruct (file_of dir (startup_file d)) as [g|]; [|done].
      exists g. split; [done|]. apply bool_decide_eq_true in Hisfile.
      destruct Hisfile as [text Hg].
      rewrite generate_basic_config_lookup, Hg. by eexists.
    - cbn [orb] in Hs.
      destruct (can_write dir (startup_file d)) eqn:Hcan; [|done].
      destruct (safe_write_file_done _ "" fs Hcan) as (g & Hg & Hw & _).
      exists g. split; [done|].
      rewrite generate_basic_config_lookup, Hw.
      destruct (fs !! g); by eexists. }
  destruct Hfile as (g & Hg & Hsome).
  unfold isfile. rewrite Hg. apply bool_decide_eq_true.
  by apply write_others_never_deletes.
Qed.

(** When every file is there, the loop writes nothing. *)
Lemma write_others_skip (l : list string) fs :
  (∀ d, d ∈ l → d ∉ frr_routers →
        isfile dir fs (startup_file d) = true) →
  write_others dir self frr_routers l (None, fs) = (None, fs).
Proof.
  induction l as [|d l IH]; intros Hall; [done|].
  rewrite write_others_cons.
  assert (Hl : ∀ d', d' ∈ l → d' ∉ frr_routers →
                     isfile dir fs (startup_file d') = true)
    by (intros d' Hin; apply Hall, elem_of_cons; by right).
  destruct (bool_decide_reflect (d ∈ frr_routers)) as [? | Hout];
    [by apply IH|].
  unfold generate_basic_config.
  rewrite Hall by (apply elem_of_cons; by left) || done.
  by apply IH.
Qed.

Lemma write_others_lookup (l : list string) fs fs' f :
  (write_others dir self frr_routers l (None, fs)).1 = None →
  (write_others dir self frr_routers l (None, fs')).1 = None →
  fs !! f = fs' !! f →
  (write_others dir self frr_routers l (None, fs)).2 !! f
  = (write_others dir self frr_routers l (None, fs')).2 !! f.
Proof.
  revert fs fs'. induction l as [|d l IH]; intros fs fs' Hok Hok' Hf; [done|].
  rewrite !write_others_cons in *.
  destruct (bool_decide (d ∈ frr_routers)); [by apply IH|].
  pose proof (write_others_status_inv _ _ Hok) as Hs.
  pose proof (write_others_status_inv _ _ Hok') as Hs'.
  pose proof (generate_basic_config_lookup d fs f) as Hl.
  pose proof (generate_basic_config_lookup d fs' f) as Hl'.
  destruct (generate_basic_config dir self d frr_routers fs) as [s fs1].
  destruct (generate_basic_config dir self d frr_routers fs') as [s' fs1'].
  cbn [fst snd] in *. subst s s'.
  apply IH; [done | done |]. rewrite Hl, Hl'. by rewrite Hf.
Qed.

(** A file that the loop creates holds the script of the first
    device of the list, routers apart, whose start-up name stands for
    it. *)
Lemma write_others_first (l : list string) st f (text : string) :
  st.2 !! f = None →
  (write_others dir self frr_routers l st).2 !! f = Some text →
  ∃ d, find (other_device_of dir frr_routers f) l = Some d
       ∧ text = basic_content self d frr_routers.
Proof.
  revert st. induction l as [|d l IH]; intros st Hnone Hsome;
    [cbn in Hsome; congruence|].
  rewrite write_others_step in Hsome. cbn [find]. unfold other_device_of at 1.
  destruct (bool_decide_reflect (d ∈ frr_routers)) as [Hin | Hout];
    cbn [negb andb]; [by apply (IH st)|].
  destruct st as [[c|] fs]; cbn [and_then fst snd] in *.
  { rewrite write_others_exited in Hsome. cbn [snd] in Hsome. congruence. }
  pose proof (generate_basic_config_lookup d fs f) as Hl.
  pose proof (generate_basic_config_status d fs) as Hs.
  rewrite Hnone in Hl. unfold writes_to in Hl.
  destruct (generate_basic_config dir self d frr_routers fs) as [s fs1].
  cbn [fst snd] in *.
  destruct (bool_decide_reflect (file_of dir (startup_file d) = Some f))
    as [Hf | Hf]; cbn [andb] in Hl; [|by apply (IH (s, fs1))].
  exists d. split; [done|].
  destruct (may_open dir (startup_file d)) eqn:Hopen.
  - rewrite (write_others_kept l (s, fs1) f _ Hl) in Hsome. congruence.
  - assert (s = Some 1) as ->.
    { rewrite Hs. unfold isfile, can_write. rewrite Hf, Hopen, Hnone.
      rewrite bool_decide_false; [done|]. by intros [? ?]. }
    rewrite write_others_exited in Hsome. cbn [snd] in Hsome. congruence.
Qed.

Lemma write_others_status_ok (l : list string) fs :
  (∀ d, d ∈ l → d ∉ frr_routers →
        can_write dir (startup_file d) = true) →
  (write_others dir self frr_routers l (None, fs)).1 = None.
Proof.
  revert fs. induction l as [|d l IH]; intros fs Hall; [done|].
  rewrite write_others_cons.
  assert (Hl : ∀ d', d' ∈ l → d' ∉ frr_routers →
                     can_write dir (startup_file d') = true)
    by (intros d' Hin; apply Hall, elem_of_cons; by right).
  destruct (bool_decide_reflect (d ∈ frr_routers)) as [? | Hout];
    [by apply IH|].
  pose proof (generate_basic_config_status d fs) as Hs.
  rewrite (Hall d) in Hs by (apply elem_of_cons; by left) || done.
  rewrite orb_true_r in Hs.
  destruct (generate_basic_config dir self d frr_routers fs) as [s fs1].
  cbn [fst] in Hs. subst s. by apply IH.
Qed.

Lemma write_others_code (l : list string) st :
  st.1 = None ∨ st.1 = Some 1 →
  (write_others dir self frr_routers l st).1 = None
  ∨ (write_others dir self frr_routers l st).1 = Some 1.
Proof.
  revert st. induction l as [|d l IH]; intros st Hst; [done|].
  rewrite write_others_step.
  apply IH. destruct (bool_decide (d ∈ frr_routers)); [done|].
  destruct st as [[c|] fs]; [done|]. cbn [and_then fst snd].
  rewrite generate_basic_config_status.
  destruct (_ || _); auto.
Qed.

Lemma enumerate_elem (l : list string) (i : Z) (x : string) :
  (i, x) ∈ enumerate l ↔ ∃ k : nat, i = Z.of_nat k ∧ l !! k = Some x.
Proof.
  unfold enumerate. rewrite elem_of_lookup_imap. split.
  - intros (k & y & [= -> ->] & Hk). by exists k.
  - intros (k & -> & Hk). by exists k, x.
Qed.

Lemma enumerate_snd (l : list string) : (enumerate l).*2 = l.
Proof.
  unfold enumerate. rewrite fmap_imap.
  rewrite (imap_ext _ (const id)) by done.
  rewrite imap_const. apply list_fmap_id.
Qed.

End Files.

Section Run.

Variable dir : Directory.
Variable cfg : Config.
Variable content : string.

Let self := parse_lab_conf (new_generator cfg) content.
Let R := routers_of self.

Implicit Types (fs : gmap string string) (f : string).

Lemma identify_frr_routers_eq :
  identify_frr_routers self
  = match R with [] => inl 0 | _ => inr R end.
Proof. reflexivity. Qed.

Lemma routers_of_NoDup : NoDup R.
Proof.
  apply NoDup_ListNoDup, List.NoDup_filter, NoDup_ListNoDup.
  apply parsed_devices_NoDup.
Qed.

Lemma routers_of_elem (d : string) :
  d ∈ R ↔ d ∈ devices self ∧ device_types self !!! d = "router".
Proof.
  subst R. unfold routers_of.
  rewrite list_elem_of_In, filter_In, <- list_elem_of_In.
  unfold has_role. by rewrite String.eqb_eq.
Qed.

Lemma run_without_router fs :
  R = [] → run dir cfg (Some content) fs = (0, fs).
Proof.
  intros HR. unfold run. fold self.
  by rewrite identify_frr_routers_eq, HR.
Qed.

Lemma run_with_routers fs :
  R ≠ [] →
  run dir cfg (Some content) fs
  = (default 0
       (write_others dir self R (devices self)
          (write_routers dir self R (enumerate R) (None, fs))).1,
     (write_others dir self R (devices self)
        (write_routers dir self R (enumerate R) (None, fs))).2).
Proof.
  intros HR. unfold run. fold self.
  rewrite identify_frr_routers_eq. by destruct R.
Qed.

Lemma routers_can_write :
  forallb (fun ir => can_write dir (startup_file ir.2)) (enumerate R) = true
  ↔ ∀ r, r ∈ R → can_write dir (startup_file r) = true.
Proof.
  rewrite forallb_forall. split.
  - intros Hall r [k Hk]%list_elem_of_lookup_1.
    apply (Hall (Z.of_nat k, r)), list_elem_of_In, enumerate_elem.
    by exists k.
  - intros Hall [i r] [k [_ Hk]]%list_elem_of_In%enumerate_elem.
    apply Hall. by eapply list_elem_of_lookup_2.
Qed.

Lemma run_code fs :
  (run dir cfg (Some content) fs).1 = 0
  ∨ (run dir cfg (Some content) fs).1 = 1.
Proof.
  destruct (decide (R = [])) as [HR | HR].
  - rewrite run_without_router by done. by left.
  - rewrite run_with_routers by done. cbn [fst].
    destruct (write_others_code dir self R (devices self)
                (write_routers dir self R (enumerate R) (None, fs)))
      as [-> | ->]; [|by left | by right].
    rewrite write_routers_status. destruct (forallb _ _); auto.
Qed.

(** A run with routers that ends with exit code 0 went through both
    loops. *)
Lemma run_done fs :
  R ≠ [] → (run dir cfg (Some content) fs).1 = 0 →
  (∀ r, r ∈ R → can_write dir (startup_file r) = true)
  ∧ ∃ fs1,
      write_routers dir self R (enumerate R) (None, fs) = (None, fs1)
      ∧ write_others dir self R (devices self) (None, fs1)
        = (None, (run dir cfg (Some content) fs).2).
Proof.
  intros HR. rewrite run_with_routers by done. cbn [fst snd].
  pose proof (write_routers_status dir self R (enumerate R) fs) as Hs1.
  destruct (write_routers dir self R (enumerate R) (None, fs))
    as [s1 fs1] eqn:H1.
  cbn [fst] in Hs1. intros Hcode.
  assert (Hs2 : (write_others dir self R (devices self) (s1, fs1)).1 = None).
  { destruct (write_others_code dir self R (devices self) (s1, fs1))
      as [H | H]; [|done|by rewrite H in Hcode].
    cbn [fst]. rewrite Hs1. destruct (forallb _ _); auto. }
  pose proof (write_others_status_inv _ _ _ _ _ Hs2) as Hnone.
  cbn [fst] in Hnone. rewrite Hnone in *. clear Hnone.
  split.
  - apply routers_can_write. by destruct (forallb _ _).
  - exists fs1. split; [done|].
    by destruct (write_others dir self R (devices self) (None, fs1))
      as [[c|] fs2].
Qed.

(** A router that cannot be written ends the run with exit code 1,
    before any other device is looked at. *)
Lemma run_router_refused fs (r : string) :
  r ∈ R → can_write dir (startup_file r) = false →
  run dir cfg (Some content) fs
  = (1, (write_routers dir self R (enumerate R) (None, fs)).2).
Proof.
  intros Hr Hcan.
  assert (HR : R ≠ []) by (intros HR; rewrite HR in Hr; inversion Hr).
  rewrite run_with_routers by done.
  pose proof (write_routers_status dir self R (enumerate R) fs) as Hs1.
  destruct (write_routers dir self R (enumerate R) (None, fs)) as [s1 fs1].
  cbn [fst snd] in *.
  destruct (forallb _ _) eqn:Hall.
  - by rewrite (proj1 routers_can_write Hall r Hr) in Hcan.
  - subst s1. by rewrite write_others_exited.
Qed.

(** A file that no device of the list names is not touched. *)
Lemma run_foreign_file fs f :
  (∀ d, d ∈ devices self → file_of dir (startup_file d) ≠ Some f) →
  (run dir cfg (Some content) fs).2 !! f = fs !! f.
Proof.
  intros Hother. destruct (decide (R = [])) as [HR | HR].
  - by rewrite run_without_router.
  - rewrite run_with_routers by done. cbn [snd].
    rewrite write_others_other by (intros d Hd _; by apply Hother).
    apply write_routers_other.
    intros [i r] [k [_ Hk]]%enumerate_elem. cbn.
    apply Hother. apply list_elem_of_lookup_2 in Hk.
    by apply routers_of_elem in Hk as [? _].
Qed.

Lemma run_never_deletes fs f :
  is_Some (fs !! f) → is_Some ((run dir cfg (Some content) fs).2 !! f).
Proof.
  intros Hf. destruct (decide (R = [])) as [HR | HR].
  - by rewrite run_without_router.
  - rewrite run_with_routers by done. cbn [snd].
    by apply write_others_never_deletes, write_routers_kept.
Qed.

(** After a run that ends with exit code 0, every device has its
    file, as soon as there is a router. *)
Lemma run_every_device fs (d : string) :
  R ≠ [] → (run dir cfg (Some content) fs).1 = 0 →
  d ∈ devices self →
  isfile dir (run dir cfg (Some content) fs).2 (startup_file d) = true.
Proof.
  intros HR Hcode Hd.
  destruct (run_done fs HR Hcode) as (Hcan & fs1 & H1 & H2).
  destruct (decide (d ∈ R)) as [Hin | Hout].
  - apply list_elem_of_lookup_1 in Hin as [k Hk].
    assert (Hir : (Z.of_nat k, d) ∈ enumerate R)
      by (apply enumerate_elem; by exists k).
    destruct (safe_write_file_done dir _ "" fs
                (Hcan d (list_elem_of_lookup_2 _ _ _ Hk)))
      as (g & Hg & _ & _).
    destruct (write_routers_file dir self R (enumerate R) fs fs
                (Z.of_nat k, d) g) as [_ Hsome]; [|done|done|].
    { intros [i r] [j [_ Hj]]%enumerate_elem.
      apply Hcan. by eapply list_elem_of_lookup_2. }
    rewrite H1 in Hsome. cbn [snd] in Hsome.
    unfold isfile. rewrite Hg. apply bool_decide_eq_true.
    pose proof (write_others_never_deletes dir self R (devices self)
                  (None, fs1) g Hsome) as Hkept.
    by rewrite H2 in Hkept.
  - pose proof (write_others_present dir self R (devices self)
                  (None, fs1) d) as Hpresent.
    rewrite H2 in Hpresent. by apply Hpresent.
Qed.

(** Running again on the files the first run left changes nothing,
    when the first run ended with exit code 0. *)
Lemma run_twice fs :
  (run dir cfg (Some content) fs).1 = 0 →
  run dir cfg (Some content) (run dir cfg (Some content) fs).2
  = (0, (run dir cfg (Some content) fs).2).
Proof.
  intros Hcode. destruct (decide (R = [])) as [HR | HR].
  { by rewrite !run_without_router. }
  destruct (run_done fs HR Hcode) as (Hcan & fs1 & H1 & H2).
  set (fs2 := (run dir cfg (Some content) fs).2) in *.
  assert (Hnumbered : ∀ ir, ir ∈ enumerate R →
                            can_write dir (startup_file ir.2) = true).
  { intros [i r] [j [_ Hj]]%enumerate_elem.
    apply Hcan. by eapply list_elem_of_lookup_2. }
  assert (Hrouters : write_routers dir self R (enumerate R) (None, fs2)
                     = (None, fs2)).
  { pose proof (write_routers_status dir self R (enumerate R) fs2) as Hs.
    rewrite (proj2 routers_can_write Hcan) in Hs.
    destruct (write_routers dir self R (enumerate R) (None, fs2))
      as [s fs3] eqn:H3.
    cbn [fst] in Hs. subst s. f_equal. apply map_eq. intros f.
    destruct (decide (Exists (fun ir => file_of dir (startup_file ir.2)
                                        = Some f) (enumerate R)))
      as [Hex | Hnone].
    - apply Exists_exists in Hex as (ir & Hir & Hf).
      destruct (write_routers_file dir self R (enumerate R) fs2 fs ir f
                  Hnumbered Hir Hf) as [Heq _].
      destruct (write_routers_file dir self R (enumerate R) fs fs ir f
                  Hnumbered Hir Hf) as [_ [text Hsome]].
      rewrite H3, H1 in Heq. rewrite H1 in Hsome. cbn [snd] in *.
      rewrite Heq, Hsome. symmetry.
      pose proof (write_others_kept dir self R (devices self)
                    (None, fs1) f text Hsome) as Hkept.
      by rewrite H2 in Hkept.
    - pose proof (write_routers_other dir self R (enumerate R)
                    (None, fs2) f) as Hother.
      rewrite H3 in Hother. apply Hother.
      intros ir Hir Hf. apply Hnone, Exists_exists. by exists ir. }
  rewrite (run_with_routers fs2) by done. rewrite Hrouters.
  rewrite write_others_skip; [done|].
  intros d Hd Hout. by apply run_every_device.
Qed.

(** The file of a router whose name no other router shares holds the
    script of that router. *)
Lemma write_routers_script (numbered : list (Z * string))
    (fs : gmap string string) (i : Z) (r f : string) :
  NoDup numbered →
  (∀ ir, ir ∈ numbered → can_write dir (startup_file ir.2) = true) →
  (i, r) ∈ numbered →
  file_of dir (startup_file r) = Some f →
  (∀ ir, ir ∈ numbered → ir ≠ (i, r) →
         file_of dir (startup_file ir.2) ≠ Some f) →
  (write_routers dir self R numbered (None, fs)).2 !! f
  = Some (isis_content self r i R).
Proof.
  revert fs. induction numbered as [|ir0 l IH];
    intros fs Hnd Hall Hin Hf Hother; [by apply elem_of_nil in Hin|].
  apply NoDup_cons in Hnd as [Hfresh Hnd].
  rewrite write_routers_cons. unfold generate_isis_config.
  destruct (safe_write_file_done dir _
              (isis_content self ir0.2 ir0.1 R) fs
              (Hall ir0 ltac:(apply elem_of_cons; by left)))
    as (g & Hg & _ & ->).
  apply elem_of_cons in Hin as [<- | Hin].
  - cbn [fst snd] in *. assert (g = f) by congruence. subst g.
    rewrite write_routers_other.
    + cbn [snd]. apply lookup_insert_eq.
    + intros ir Hir. apply Hother; [apply elem_of_cons; by right|].
      by intros ->.
  - apply IH; [done | | done | done |].
    + intros ir Hir. apply Hall, elem_of_cons. by right.
    + intros ir Hir. apply Hother, elem_of_cons. by right.
Qed.

Lemma enumerate_NoDup : NoDup (enumerate R).
Proof.
  apply (NoDup_fmap_1 snd). rewrite enumerate_snd. apply routers_of_NoDup.
Qed.

Lemma run_router_script fs (k : nat) (r f : string) :
  (run dir cfg (Some content) fs).1 = 0 →
  R !! k = Some r →
  file_of dir (startup_file r) = Some f →
  (∀ r', r' ∈ R → r' ≠ r → file_of dir (startup_file r') ≠ Some f) →
  (run dir cfg (Some content) fs).2 !! f
  = Some (isis_content self r (Z.of_nat k) R).
Proof.
  intros Hcode Hk Hf Hother.
  assert (HR : R ≠ []) by (intros HR; by rewrite HR in Hk).
  destruct (run_done fs HR Hcode) as (Hcan & fs1 & H1 & H2).
  pose proof (write_routers_script (enumerate R) fs (Z.of_nat k) r f
                enumerate_NoDup) as Hscript.
  rewrite H1 in Hscript. cbn [snd] in Hscript.
  pose proof (write_others_kept dir self R (devices self) (None, fs1) f
                (isis_content self r (Z.of_nat k) R)) as Hkept.
  rewrite H2 in Hkept. apply Hkept, Hscript.
  - intros [i r'] [j [_ Hj]]%enumerate_elem.
    apply Hcan. by eapply list_elem_of_lookup_2.
  - apply enumerate_elem. by exists k.
  - done.
  - intros [i r'] [j [-> Hj]]%enumerate_elem Hne. cbn [snd].
    apply Hother; [by eapply list_elem_of_lookup_2|].
    intros ->. apply Hne. f_equal. f_equal.
    by apply (NoDup_lookup R j k r routers_of_NoDup).
Qed.

(** Two runs that end with exit code 0 leave the same content in a
    file that a router names, and in a file they found with the same
    content. *)
Lemma run_agree fs fs' f :
  (run dir cfg (Some content) fs).1 = 0 →
  (run dir cfg (Some content) fs').1 = 0 →
  (fs !! f = fs' !! f
   ∨ ∃ r, r ∈ R ∧ file_of dir (startup_file r) = Some f) →
  (run dir cfg (Some content) fs).2 !! f
  = (run dir cfg (Some content) fs').2 !! f.
Proof.
  intros Hcode Hcode' Hf. destruct (decide (R = [])) as [HR | HR].
  { rewrite !run_without_router by done. cbn [snd].
    destruct Hf as [Hf | (r & Hr & _)]; [done|].
    rewrite HR in Hr. inversion Hr. }
  destruct (run_done fs HR Hcode) as (Hcan & fs1 & H1 & H2).
  destruct (run_done fs' HR Hcode') as (_ & fs1' & H1' & H2').
  assert (Hf1 : fs1 !! f = fs1' !! f).
  { destruct Hf as [Hf | (r & Hr & Hf)].
    - pose proof (write_routers_lookup dir self R (enumerate R) fs fs' f Hf)
        as Heq.
      by rewrite H1, H1' in Heq.
    - apply list_elem_of_lookup_1 in Hr as [k Hk].
      destruct (write_routers_file dir self R (enumerate R) fs fs'
                  (Z.of_nat k, r) f) as [Heq _]; [| |done|].
      + intros [i r'] [j [_ Hj]]%enumerate_elem.
        apply Hcan. by eapply list_elem_of_lookup_2.
      + apply enumerate_elem. by exists k.
      + by rewrite H1, H1' in Heq. }
  pose proof (write_others_lookup dir self R (devices self) fs1 fs1' f)
    as Heq.
  rewrite H2, H2' in Heq. by apply Heq.
Qed.

(** The status of the first loop does not depend on the files. *)
Lemma write_routers_same_status fs fs' :
  (write_routers dir self R (enumerate R) (None, fs)).1
  = (write_routers dir self R (enumerate R) (None, fs')).1.
Proof. by rewrite !write_routers_status. Qed.

(** A file that two runs both change ends with the same content. *)
Lemma run_changed_agree fs fs' f :
  (run dir cfg (Some content) fs).2 !! f ≠ fs !! f →
  (run dir cfg (Some content) fs').2 !! f ≠ fs' !! f →
  (run dir cfg (Some content) fs).2 !! f
  = (run dir cfg (Some content) fs').2 !! f.
Proof.
  destruct (decide (R = [])) as [HR | HR].
  { rewrite !run_without_router by done. by intros ?. }
  rewrite !run_with_routers by done. cbn [snd].
  pose proof (write_routers_same_status fs fs') as Hs.
  pose proof (write_routers_two dir self R (enumerate R) fs fs' f) as Htwo.
  destruct (write_routers dir self R (enumerate R) (None, fs)) as [s A1].
  destruct (write_routers dir self R (enumerate R) (None, fs')) as [s' B1].
  cbn [fst snd] in *. subst s'. intros HA HB.
  destruct Htwo as [[HA1 HB1] | [Heq [text Hsome]]].
  - destruct s as [c|].
    { rewrite write_others_exited in HA. cbn [snd] in HA. congruence. }
    destruct (fs !! f) as [t|] eqn:Hf.
    { by rewrite (write_others_kept dir self R _ (None, A1) f t HA1) in HA. }
    destruct (fs' !! f) as [t|] eqn:Hf'.
    { by rewrite (write_others_kept dir self R _ (None, B1) f t HB1) in HB. }
    destruct ((write_others dir self R (devices self) (None, A1)).2 !! f)
      as [ta|] eqn:Ha; [|done].
    destruct ((write_others dir self R (devices self) (None, B1)).2 !! f)
      as [tb|] eqn:Hb; [|done].
    destruct (write_others_first dir self R _ (None, A1) f ta HA1 Ha)
      as (da & Hda & ->).
    destruct (write_others_first dir self R _ (None, B1) f tb HB1 Hb)
      as (db & Hdb & ->).
    congruence.
  - rewrite (write_others_kept dir self R _ (s, A1) f text Hsome).
    rewrite Heq in Hsome.
    by rewrite (write_others_kept dir self R _ (s, B1) f text Hsome).
Qed.

(** A second run leaves every file that a router names, and every
    file that exists after the first run, as the first run left it. *)
Lemma run_again fs f :
  (is_Some ((run dir cfg (Some content) fs).2 !! f)
   ∨ ∃ r, r ∈ R ∧ file_of dir (startup_file r) = Some f) →
  (run dir cfg (Some content) (run dir cfg (Some content) fs).2).2 !! f
  = (run dir cfg (Some content) fs).2 !! f.
Proof.
  destruct (decide (R = [])) as [HR | HR].
  { by rewrite !run_without_router. }
  rewrite !run_with_routers by done. cbn [snd].
  set (fs1 := (write_others dir self R (devices self)
                 (write_routers dir self R (enumerate R) (None, fs))).2).
  pose proof (write_routers_same_status fs fs1) as Hs.
  pose proof (write_routers_status dir self R (enumerate R) fs) as Hall.
  pose proof (write_routers_two dir self R (enumerate R) fs fs1 f) as Htwo.
  pose proof (write_routers_other dir self R (enumerate R) (None, fs1) f)
    as Hother.
  pose proof (fun ir => write_routers_file dir self R (enumerate R) fs fs1
                          ir f) as Hfile.
  subst fs1.
  destruct (write_routers dir self R (enumerate R) (None, fs)) as [s A1].
  set (fs1 := (write_others dir self R (devices self) (s, A1)).2) in *.
  destruct (write_routers dir self R (enumerate R) (None, fs1)) as [s' B1].
  cbn [fst snd] in *. subst s'. intros Hf.
  destruct s as [c|].
  - rewrite write_others_exited. cbn [snd]. subst fs1.
    rewrite write_others_exited in *. cbn [snd] in *.
    destruct Htwo as [[_ HB] | [Heq _]]; congruence.
  - assert (Hcan : ∀ ir, ir ∈ enumerate R →
                         can_write dir (startup_file ir.2) = true).
    { intros ir Hir. symmetry in Hall.
      destruct (forallb _ _) eqn:Hforall; [|done].
      rewrite forallb_forall in Hforall.
      by apply Hforall, list_elem_of_In. }
    destruct (decide (Exists (fun ir => file_of dir (startup_file ir.2)
                                        = Some f) (enumerate R)))
      as [Hex | Hnone].
    + apply Exists_exists in Hex as (ir & Hir & Hname).
      destruct (Hfile ir Hcan Hir Hname) as [Heq [text Hsome]].
      rewrite Heq in Hsome.
      rewrite (write_others_kept dir self R _ (None, B1) f text Hsome).
      rewrite <- Heq in Hsome. subst fs1.
      by rewrite (write_others_kept dir self R _ (None, A1) f text Hsome).
    + assert (HB : B1 !! f = fs1 !! f).
      { apply Hother. intros ir Hir Hname.
        apply Hnone, Exists_exists. by exists ir. }
      destruct Hf as [[text Hsome] | (r & Hr & Hname)].
      * rewrite Hsome.
        apply (write_others_kept dir self R _ (None, B1) f text).
        cbn [snd]. congruence.
      * destruct Hnone. apply Exists_exists.
        apply list_elem_of_lookup_1 in Hr as [k Hk].
        exists (Z.of_nat k, r). split; [|done].
        apply enumerate_elem. by exists k.
Qed.

End Run.

(** ** Runs *)

(** A name with a directory that does not exist: [open] raises, the
    run ends with exit code 1 and nothing is written. *)
Example run_refused_name :
  run flat_directory DEFAULT_CONFIG (Some "net/r1[image]=frr") ∅ = (1, ∅).
Proof. vm_compute. reflexivity. Qed.

(** Two device names for one file: the router is written first, the
    other device then finds the file and is skipped. *)
Example run_two_names_one_file :
  let content := lines ["./PC1[image]=frr"; "PC1[image]=alpine"] in
  let self := parse_lab_conf (new_generator DEFAULT_CONFIG) content in
  run dotted_directory DEFAULT_CONFIG (Some content) ∅
  = (0, {[ "PC1.startup" := isis_content self "./PC1" 0 ["./PC1"] ]}).
Proof. vm_compute. reflexivity. Qed.

(** [os.chmod] refused: the file of the first router is written, and
    the run ends with exit code 1. *)
Example run_without_chmod :
  run chmodless_directory DEFAULT_CONFIG (Some scenario_netA) ∅
  = (1, {[ "R1.startup" := isis_content topology_netA "R1" 0 ["R1"] ]}).
Proof. vm_compute. reflexivity. Qed.

(** C6: when no device of the topology is a router, the run ends with
    exit code 0 and leaves the directory as it found it: no start-up
    file is written, for any device. *)
Theorem no_router_no_file (dir : Directory) (cfg : Config)
    (content : string) (fs : gmap string string) :
  let self := parse_lab_conf (new_generator cfg) content in
  (∀ d, d ∈ devices self → device_types self !!! d ≠ "router") →
  run dir cfg (Some content) fs = (0, fs).
Proof.
  intros self Hnone. apply run_without_router.
  destruct (routers_of _) as [|r l] eqn:HR; [done|].
  assert (Hr : r ∈ routers_of self)
    by (subst self; rewrite HR; apply elem_of_cons; by left).
  apply routers_of_elem in Hr as [Hd Ht]. by destruct (Hnone r Hd).
Qed.

Lemma no_router_no_file_witness :
  run flat_directory DEFAULT_CONFIG (Some scenario_hosts) ∅ = (0, ∅).
Proof.
  apply no_router_no_file. fold topology_hosts.
  rewrite devices_topology_hosts. intros d Hd.
  repeat (apply elem_of_cons in Hd as [-> | Hd];
          [vm_compute; discriminate |]).
  inversion Hd.
Defined.

(** C7: a second run on the same description and configuration. Every
    file that a router names, and every file that exists after the
    first run, is after the second run as the first run left it, byte
    for byte; and when the first run ended with exit code 0, so does
    the second, and it changes no file at all. The script of a router
    is written whatever the files hold: there is no test for a file
    that exists. A device that is not a router and whose file exists
    is skipped: nothing is written and nothing changes. After a first
    run that ended with exit code 0, the file of a router whose name no
    other router shares holds the script of that router, and every
    device of the list has its file as soon as there is a router. *)
Theorem second_run_changes_nothing (dir : Directory) (cfg : Config)
    (content : string) (fs0 : gmap string string) :
  let self := parse_lab_conf (new_generator cfg) content in
  let frr_routers := routers_of self in
  let fs1 := (run dir cfg (Some content) fs0).2 in
  let fs2 := (run dir cfg (Some content) fs1).2 in
  (∀ f, (is_Some (fs1 !! f)
         ∨ ∃ r, r ∈ frr_routers ∧ file_of dir (startup_file r) = Some f) →
        fs2 !! f = fs1 !! f)
  ∧ ((run dir cfg (Some content) fs0).1 = 0 →
     run dir cfg (Some content) fs1 = (0, fs1))
  ∧ (∀ (k : nat) router fs f,
       frr_routers !! k = Some router →
       writes_to dir (startup_file router) f = true →
       (generate_isis_config dir self router (Z.of_nat k) frr_routers fs).2
         !! f
       = Some (isis_content self router (Z.of_nat k) frr_routers))
  ∧ (∀ device fs,
       isfile dir fs (startup_file device) = true →
       generate_basic_config dir self device frr_routers fs = (None, fs))
  ∧ ((run dir cfg (Some content) fs0).1 = 0 →
     ∀ (k : nat) router f,
       frr_routers !! k = Some router →
       file_of dir (startup_file router) = Some f →
       (∀ r, r ∈ frr_routers → r ≠ router →
             file_of dir (startup_file r) ≠ Some f) →
       fs1 !! f = Some (isis_content self router (Z.of_nat k) frr_routers))
  ∧ ((run dir cfg (Some content) fs0).1 = 0 →
     frr_routers ≠ [] →
     ∀ device, device ∈ devices self →
               isfile dir fs1 (startup_file device) = true).
Proof.
  intros self frr_routers fs1 fs2.
  split; [intros f; apply run_again|].
  split; [apply run_twice|].
  split.
  { intros k router fs f _ Hw. unfold generate_isis_config.
    by rewrite safe_write_file_lookup, Hw. }
  split.
  { intros device fs Hfile. unfold generate_basic_config. by rewrite Hfile. }
  split.
  - intros Hcode k router f. by apply run_router_script.
  - intros Hcode HR device. by apply run_every_device.
Qed.

Lemma second_run_changes_nothing_witness :
  run flat_directory DEFAULT_CONFIG (Some scenario_netA)
      (run flat_directory DEFAULT_CONFIG (Some scenario_netA)
           {[ "PC1.startup" := "kept" ]}).2
  = (0, (run flat_directory DEFAULT_CONFIG (Some scenario_netA)
             {[ "PC1.startup" := "kept" ]}).2)
  ∧ (run flat_directory DEFAULT_CONFIG (Some scenario_netA)
         {[ "PC1.startup" := "kept" ]}).2 !! "R1.startup"
    = Some (isis_content topology_netA "R1" 0 ["R1"])
  ∧ (run flat_directory DEFAULT_CONFIG (Some scenario_netA)
         (run flat_directory DEFAULT_CONFIG (Some scenario_netA)
              {[ "PC1.startup" := "kept" ]}).2).2 !! "PC1.startup"
    = (run flat_directory DEFAULT_CONFIG (Some scenario_netA)
           {[ "PC1.startup" := "kept" ]}).2 !! "PC1.startup".
Proof.
  pose proof (second_run_changes_nothing flat_directory DEFAULT_CONFIG
                scenario_netA {[ "PC1.startup" := "kept" ]}) as H.
  cbv zeta in H. destruct H as (Hsame & Htwice & _ & _ & Hscript & _).
  assert (Hcode : (run flat_directory DEFAULT_CONFIG (Some scenario_netA)
                       {[ "PC1.startup" := "kept" ]}).1 = 0)
    by (vm_compute; reflexivity).
  split; [exact (Htwice Hcode)|]. split.
  - apply (Hscript Hcode 0%nat "R1" "R1.startup");
      [vm_compute; reflexivity | vm_compute; reflexivity |].
    intros r Hr Hne. exfalso. apply Hne.
    assert (Hrouters : routers_of (parse_lab_conf
                                     (new_generator DEFAULT_CONFIG)
                                     scenario_netA) = ["R1"])
      by (vm_compute; reflexivity).
    rewrite Hrouters in Hr. by apply list_elem_of_singleton in Hr.
  - apply Hsame. left. vm_compute. by eexists.
Defined.

(** The list of devices does not depend on the order in which the set
    of names is enumerated. *)
Lemma sorted_Permutation (l1 l2 : list string) :
  l1 ≡ₚ l2 → sorted l1 = sorted l2.
Proof.
  intros Hp. unfold sorted.
  apply (StronglySorted_unique String.le);
    [apply StronglySorted_merge_sort; apply _ ..|].
  by rewrite !merge_sort_Permutation.
Qed.

(** C9: two runs on the same description and configuration decide the
    same things. The only inputs left are the order in which the set of
    device names is enumerated and the files the run finds. Whatever
    the enumeration, the parser ends with the same generator, hence
    with the same roles and the same addresses. Whatever the files
    found, a file that both runs change ends with the same content in
    both. Two runs that end with exit code 0 leave the same content in
    every file that a router names and in every file they found with
    the same content, or not at all; and when some router cannot be
    written, both runs end with exit code 1 and agree on every file
    they found with the same content. *)
Theorem two_runs_agree (dir : Directory) (cfg : Config) (content : string)
    (listed : list string) (fs fs' : gmap string string) :
  let scanned := scan_lines (new_generator cfg) content in
  let self := parse_lab_conf (new_generator cfg) content in
  listed ≡ₚ elements scanned.2 →
  finish_parse scanned.1 listed = self
  ∧ (∀ f, (run dir cfg (Some content) fs).2 !! f ≠ fs !! f →
          (run dir cfg (Some content) fs').2 !! f ≠ fs' !! f →
          (run dir cfg (Some content) fs).2 !! f
          = (run dir cfg (Some content) fs').2 !! f)
  ∧ ((run dir cfg (Some content) fs).1 = 0 →
     (run dir cfg (Some content) fs').1 = 0 →
     ∀ f, (fs !! f = fs' !! f
           ∨ ∃ r, r ∈ routers_of self
                  ∧ file_of dir (startup_file r) = Some f) →
          (run dir cfg (Some content) fs).2 !! f
          = (run dir cfg (Some content) fs').2 !! f)
  ∧ ((∃ r, r ∈ routers_of self ∧ can_write dir (startup_file r) = false) →
     (run dir cfg (Some content) fs).1 = 1
     ∧ (run dir cfg (Some content) fs').1 = 1
     ∧ ∀ f, fs !! f = fs' !! f →
            (run dir cfg (Some content) fs).2 !! f
            = (run dir cfg (Some content) fs').2 !! f).
Proof.
  intros scanned self Hp. split; [|split; [|split]].
  - subst self scanned. unfold parse_lab_conf.
    destruct (scan_lines _ _) as [g seen]. cbn [fst snd] in *.
    unfold finish_parse. by rewrite (sorted_Permutation _ _ Hp).
  - intros f. apply run_changed_agree.
  - intros Hcode Hcode' f Hf. by apply run_agree.
  - intros (r & Hr & Hcan).
    rewrite !(run_router_refused dir cfg content _ r Hr Hcan).
    split; [done|]. split; [done|].
    intros f Hf. cbn [snd]. by apply write_routers_lookup.
Qed.

Lemma two_runs_agree_witness :
  finish_parse (scan_lines (new_generator DEFAULT_CONFIG) scenario_netA).1
               ["R1"; "PC1"]
  = topology_netA
  ∧ (run flat_directory DEFAULT_CONFIG (Some scenario_netA) ∅).2
      !! "R1.startup"
    = (run flat_directory DEFAULT_CONFIG (Some scenario_netA)
           {[ "R1.startup" := "old" ]}).2 !! "R1.startup".
Proof.
  assert (He : elements (scan_lines (new_generator DEFAULT_CONFIG)
                                    scenario_netA).2 = ["R1"; "PC1"]
               ∨ elements (scan_lines (new_generator DEFAULT_CONFIG)
                                      scenario_netA).2 = ["PC1"; "R1"]).
  { vm_compute. auto. }
  destruct (two_runs_agree flat_directory DEFAULT_CONFIG scenario_netA
              ["R1"; "PC1"] ∅ {[ "R1.startup" := "old" ]})
    as (Hparse & Hchanged & _).
  { destruct He as [-> | ->]; [done | apply Permutation_swap]. }
  split; [exact Hparse|].
  apply Hchanged; vm_compute; discriminate.
Defined.

(** ** The scenario with one router and one host *)

(** C4, as the code has it. Under the default configuration the device
    list is [PC1; R1]. Network [netA] is not a management network and
    its name is not a number, so its subnet number comes from the
    digest: 60. Both devices are on it, so both get an address on 30
    bits under the point-to-point prefix: [PC1], first in the list, has
    position 1 and host 1; [R1] has position 2 and host 2. The default
    route of [PC1] goes to the address of [R1]. [R1] is a router and
    [PC1], whose image is [alpine], is a pc. *)
Theorem scenario_netA_outcome :
  let self := topology_netA in
  devices self = ["PC1"; "R1"]
  ∧ is_management_network self "netA" = false
  ∧ Py.int "netA" = None
  ∧ subnet_num "netA" = first16 (MD5.digest (encode "netA")) mod 250 + 1
  ∧ subnet_num "netA" = 60
  ∧ basic_position_count self "PC1" "netA" = (1, 2)
  ∧ isis_position_count self "R1" "netA" = (2, 2)
  ∧ basic_ip_addr self "PC1" "netA"
    = PTP_SUBNET DEFAULT_CONFIG ++ ".60.1/30"
  ∧ isis_ip_addr self "R1" "netA"
    = PTP_SUBNET DEFAULT_CONFIG ++ ".60.2/30"
  ∧ get_router_ip_on_network self "R1" "netA" (routers_of self)
    = Some "10.0.60.2"
  ∧ basic_gateways self "PC1" (routers_of self) = ["10.0.60.2"]
  ∧ Py.contains "ip route add default via 10.0.60.2 metric 100"
      (basic_content self "PC1" (routers_of self)) = true
  ∧ device_types self !!! "R1" = "router"
  ∧ device_types self !!! "PC1" = "pc".
Proof.
  cbv zeta. repeat split; vm_compute; reflexivity.
Qed.

(** C4 fails as worded: [R1] does not receive host 1, [PC1] does not
    receive host 2, and [PC1] is not a generic device. *)
Lemma scenario_netA_as_worded :
  isis_position_count topology_netA "R1" "netA" ≠ (1, 2)
  ∧ isis_ip_addr topology_netA "R1" "netA" ≠ "10.0.60.1/30"
  ∧ basic_ip_addr topology_netA "PC1" "netA" ≠ "10.0.60.2/30"
  ∧ device_types topology_netA !!! "PC1" ≠ "generic".
Proof.
  repeat split; vm_compute; discriminate.
Qed.

(** * Further properties of the code *)

(** ** Configuration *)

Lemma config_of_default : config_of_dict default_config_dict = DEFAULT_CONFIG.
Proof. vm_compute. reflexivity. Qed.

Lemma fold_load_config_line (ls : list string) (config : gmap string string)
    (key : string) :
  fold_left load_config_line ls config !! key
  = match last_value key (omap read_assignment ls) with
    | Some value => Some value
    | None => config !! key
    end.
Proof.
  revert config. induction ls as [|line ls IH]; intros config; [done|].
  cbn [fold_left]. rewrite IH. unfold load_config_line.
  change (omap read_assignment (line :: ls)) with
    (match read_assignment line with
     | Some kv => kv :: omap read_assignment ls
     | None => omap read_assignment ls
     end).
  destruct (read_assignment line) as [[k v]|]; [|done].
  cbn [last_value].
  destruct (last_value key (omap read_assignment ls)); [done|].
  destruct (String.eqb_spec k key) as [-> | Hne].
  - by rewrite lookup_insert_eq.
  - by rewrite lookup_insert_ne.
Qed.

Lemma load_config_file_value (config : gmap string string)
    (config_file : option string) (key : string) :
  load_config_file config config_file !! key
  = match file_value config_file key with
    | Some value => Some value
    | None => config !! key
    end.
Proof.
  destruct config_file as [content|]; [|done].
  apply fold_load_config_line.
Qed.

(** X1: what [load_config_file] leaves under a key. When there is no
    configuration file the dictionary is unchanged. Otherwise a key has
    the value of the last line of the file that assigns it, and a key
    that no line assigns keeps the value it had. *)
Theorem load_config_file_lookup (config : gmap string string)
    (config_file : option string) (key : string) :
  load_config_file config None = config
  ∧ load_config_file config config_file !! key
    = match file_value config_file key with
      | Some value => Some value
      | None => config !! key
      end.
Proof. split; [done | apply load_config_file_value]. Qed.

Lemma override_lookup (k : string) (arg : option string)
    (config : gmap string string) (key : string) :
  override k arg config !! key
  = if String.eqb key k then
      match arg with
      | Some value => if Py.truthy value then Some value else config !! key
      | None => config !! key
      end
    else config !! key.
Proof.
  unfold override.
  destruct (String.eqb_spec key k) as [-> | Hne].
  - destruct arg as [value|]; [|done].
    destruct (Py.truthy value); [|done]. by rewrite lookup_insert_eq.
  - destruct arg as [value|]; [|done].
    destruct (Py.truthy value); [|done]. by rewrite lookup_insert_ne.
Qed.

Lemma override_with_args_lookup (args : Args) (config : gmap string string)
    (key : string) :
  override_with_args args config !! key
  = match cli_value args key with
    | Some value => Some value
    | None => config !! key
    end.
Proof.
  unfold override_with_args, cli_value, arg_of.
  rewrite !override_lookup.
  destruct (String.eqb_spec key "DNS_SERVER") as [-> | _].
  { cbn. by destruct (arg_dns_server args) as [v|]; [destruct (Py.truthy v)|]. }
  destruct (String.eqb_spec key "MULTI_SUBNET") as [-> | _].
  { cbn. by destruct (arg_multi_subnet args) as [v|]; [destruct (Py.truthy v)|]. }
  destruct (String.eqb_spec key "PTP_SUBNET") as [-> | _].
  { cbn. by destruct (arg_ptp_subnet args) as [v|]; [destruct (Py.truthy v)|]. }
  destruct (String.eqb_spec key "MGMT_SUBNET") as [-> | _].
  { cbn. by destruct (arg_mgmt_subnet args) as [v|]; [destruct (Py.truthy v)|]. }
  destruct (String.eqb_spec key "ISIS_PROCESS") as [-> | _].
  { cbn. by destruct (arg_isis_process args) as [v|]; [destruct (Py.truthy v)|]. }
  destruct (String.eqb_spec key "ISIS_AREA") as [-> | _].
  { cbn. by destruct (arg_isis_area args) as [v|]; [destruct (Py.truthy v)|]. }
  done.
Qed.

Lemma settled_config_value (args : Args)
    (config_file : option string) (key : string) :
  settled_config args config_file !! key
  = match cli_value args key with
    | Some value => Some value
    | None =>
        match file_value config_file key with
        | Some value => Some value
        | None => default_config_dict !! key
        end
    end.
Proof.
  unfold settled_config.
  by rewrite override_with_args_lookup, load_config_file_value.
Qed.

(** X2: the order of precedence of the configuration. A key has the
    value of its command-line option when that option is given and not
    empty; otherwise the value of the last line of the configuration
    file that assigns it; otherwise its default. The three pattern keys
    have no command-line option. *)
Theorem settled_config_precedence (args : Args)
    (config_file : option string) (key : string) :
  settled_config args config_file !! key
  = match cli_value args key with
    | Some value => Some value
    | None =>
        match file_value config_file key with
        | Some value => Some value
        | None => default_config_dict !! key
        end
    end
  ∧ cli_value args "ROUTER_PATTERNS" = None
  ∧ cli_value args "PC_PATTERNS" = None
  ∧ cli_value args "MANAGER_PATTERNS" = None.
Proof. split; [apply settled_config_value | done]. Qed.

(** X3: every key that has a default still has a value once the file
    and the command line are read, so that no subscript of
    [self.config] can fail. *)
Theorem settled_config_keys (args : Args) (config_file : option string)
    (key : string) :
  is_Some (default_config_dict !! key) →
  is_Some (settled_config args config_file !! key).
Proof.
  intros Hdef. rewrite settled_config_value.
  destruct (cli_value args key); [by eexists|].
  destruct (file_value config_file key); [by eexists | done].
Qed.

Lemma settled_config_keys_witness :
  is_Some (settled_config sample_args (Some sample_config_file)
             !! "MGMT_SUBNET").
Proof.
  apply settled_config_keys. vm_compute. by eexists.
Defined.

Example settled_config_sample :
  config_of_dict (settled_config sample_args (Some sample_config_file))
  = {| ISIS_AREA := "0001"; ISIS_PROCESS := "MAIN";
       MGMT_SUBNET := "192.168.10"; PTP_SUBNET := "10.9";
       MULTI_SUBNET := "10"; DNS_SERVER := "8.8.8.8";
       ROUTER_PATTERNS := "frr|FRR|quagga|vyos|router";
       PC_PATTERNS := "alpine|ubuntu|debian|pc|client|workstation";
       MANAGER_PATTERNS := "zabbix|snmp|manager|monitor|nms" |}.
Proof. vm_compute. reflexivity. Qed.

(** ** Strings *)

Section Strings.

Implicit Types (s t u : string) (c : ascii) (p : ascii → bool).

Lemma append_cons c s t : String c s ++ t = String c (s ++ t).
Proof. reflexivity. Qed.

Lemma append_nil_r s : s ++ "" = s.
Proof.
  induction s as [|c s IH]; [done|]. rewrite append_cons. by f_equal.
Qed.

Lemma append_assoc s t u : (s ++ t) ++ u = s ++ (t ++ u).
Proof.
  induction s as [|c s IH]; [done|]. rewrite !append_cons. by f_equal.
Qed.

Lemma rev_app_append s t : String.rev_app s t = String.rev s ++ t.
Proof.
  unfold String.rev. revert t.
  induction s as [|c s IH]; intros t; [done|].
  cbn [String.rev_app]. rewrite (IH (String c t)), (IH (String c "")).
  by rewrite append_assoc.
Qed.

Lemma rev_cons c s : String.rev (String c s) = String.rev s ++ String c "".
Proof. unfold String.rev at 1. cbn [String.rev_app]. apply rev_app_append. Qed.

Lemma rev_append s t : String.rev (s ++ t) = String.rev t ++ String.rev s.
Proof.
  induction s as [|c s IH].
  - by rewrite append_nil_r.
  - rewrite append_cons, !rev_cons, IH. by rewrite append_assoc.
Qed.

Lemma rev_involutive s : String.rev (String.rev s) = s.
Proof.
  induction s as [|c s IH]; [done|].
  rewrite rev_cons, rev_append, IH. reflexivity.
Qed.

Lemma lstrip_with_append_all p s t :
  Py.all_chars p s = true →
  Py.lstrip_with p (s ++ t) = Py.lstrip_with p t.
Proof.
  induction s as [|c s IH]; [done|]. cbn [Py.all_chars].
  intros [Hc Hs]%andb_true_iff. rewrite append_cons.
  cbn [Py.lstrip_with]. rewrite Hc. by apply IH.
Qed.

Lemma lstrip_with_append_some p s t :
  Py.lstrip_with p s ≠ "" →
  Py.lstrip_with p (s ++ t) = Py.lstrip_with p s ++ t.
Proof.
  induction s as [|c s IH]; [done|]. rewrite append_cons.
  cbn [Py.lstrip_with]. destruct (p c); [apply IH | done].
Qed.

Lemma lstrip_with_empty p s :
  Py.lstrip_with p s = "" ↔ Py.all_chars p s = true.
Proof.
  induction s as [|c s IH]; [done|]. cbn [Py.lstrip_with Py.all_chars].
  destruct (p c); [exact IH | done].
Qed.

(** Stripping on the right, computed with two reversals as in the
    model of [strip], is the recursive [rstrip_rec]. *)
Lemma rstrip_with_rec p s : Py.rstrip_with p s = rstrip_rec p s.
Proof.
  unfold Py.rstrip_with. induction s as [|c s IH]; [done|].
  cbn [rstrip_rec]. rewrite <- IH, rev_cons.
  destruct (Py.lstrip_with p (String.rev s)) as [|d r] eqn:Hl.
  - apply lstrip_with_empty in Hl.
    rewrite lstrip_with_append_all by done.
    cbn. by destruct (p c).
  - rewrite lstrip_with_append_some by (by rewrite Hl).
    rewrite Hl, rev_append.
    destruct (String.rev (String d r)) eqn:Hr; [|done].
    apply (f_equal String.rev) in Hr. rewrite rev_involutive in Hr.
    discriminate.
Qed.

End Strings.

Section Stripping.

Implicit Types (s t u : string) (c : ascii) (p : ascii → bool).

Lemma lstrip_with_free p s :
  match Py.lstrip_with p s with
  | EmptyString => True
  | String c _ => p c = false
  end.
Proof.
  induction s as [|c s IH]; [done|]. cbn [Py.lstrip_with].
  by destruct (p c) eqn:Hc.
Qed.

Lemma lstrip_with_id p c s : p c = false →
  Py.lstrip_with p (String c s) = String c s.
Proof. intros Hc. cbn. by rewrite Hc. Qed.

Lemma rstrip_rec_head p c s : p c = false →
  ∃ r, rstrip_rec p (String c s) = String c r.
Proof.
  intros Hc. cbn [rstrip_rec]. destruct (rstrip_rec p s); [|by eexists].
  rewrite Hc. by eexists.
Qed.

Lemma rstrip_rec_cons p c s :
  rstrip_rec p (String c s)
  = match rstrip_rec p s with
    | EmptyString => if p c then EmptyString else String c EmptyString
    | r => String c r
    end.
Proof. reflexivity. Qed.

Lemma rstrip_rec_idemp p s : rstrip_rec p (rstrip_rec p s) = rstrip_rec p s.
Proof.
  induction s as [|c s IH]; [done|]. rewrite rstrip_rec_cons.
  destruct (rstrip_rec p s) as [|d r] eqn:Hr.
  - destruct (p c) eqn:Hc; [done|]. cbn. by rewrite Hc.
  - by rewrite rstrip_rec_cons, IH.
Qed.

Lemma rstrip_rec_all_free p s :
  free_of p s = true → rstrip_rec p s = s.
Proof.
  unfold free_of. induction s as [|c s IH]; [done|]. cbn [Py.all_chars].
  intros [Hc Hs]%andb_true_iff. cbn [rstrip_rec]. rewrite (IH Hs).
  destruct s; [|done]. apply negb_true_iff in Hc. by rewrite Hc.
Qed.

(** [strip] keeps nothing it would strip again. *)
Lemma strip_with_idemp p s :
  Py.strip_with p (Py.strip_with p s) = Py.strip_with p s.
Proof.
  unfold Py.strip_with. rewrite !rstrip_with_rec.
  pose proof (lstrip_with_free p s) as Hfree.
  destruct (Py.lstrip_with p s) as [|c t]; [done|].
  destruct (rstrip_rec_head p c t Hfree) as [r Hr]. rewrite Hr.
  rewrite lstrip_with_id by done. rewrite <- Hr. apply rstrip_rec_idemp.
Qed.

Lemma strip_with_all_free p s :
  free_of p s = true → Py.strip_with p s = s.
Proof.
  intros Hfree. unfold Py.strip_with. rewrite rstrip_with_rec.
  assert (Hl : Py.lstrip_with p s = s).
  { destruct s as [|c s]; [done|]. apply lstrip_with_id.
    unfold free_of in Hfree. cbn in Hfree.
    apply andb_true_iff in Hfree as [Hc _]. by apply negb_true_iff. }
  rewrite Hl. by apply rstrip_rec_all_free.
Qed.

(** A stripped text is empty or begins with a character that is kept. *)
Lemma strip_with_head p s :
  match Py.strip_with p s with
  | EmptyString => True
  | String c _ => p c = false
  end.
Proof.
  unfold Py.strip_with. rewrite rstrip_with_rec.
  pose proof (lstrip_with_free p s) as Hfree.
  destruct (Py.lstrip_with p s) as [|c t]; [done|].
  destruct (rstrip_rec_head p c t Hfree) as [r ->]. done.
Qed.

(** A text that begins with a character that is kept still begins
    with it once stripped. *)
Lemma strip_with_keeps_head p c s : p c = false →
  ∃ r, Py.strip_with p (String c s) = String c r.
Proof.
  intros Hc. unfold Py.strip_with. rewrite rstrip_with_rec.
  rewrite lstrip_with_id by done. by apply rstrip_rec_head.
Qed.

End Stripping.

(** ** Splitting at a character *)

Section Splitting.

Implicit Types (s t h : string) (c sep : ascii).

Lemma mem_char_append c s t :
  Py.mem_char c (s ++ t) = Py.mem_char c s || Py.mem_char c t.
Proof.
  induction s as [|d s IH]; [done|]. rewrite append_cons.
  cbn [Py.mem_char]. by rewrite IH, orb_assoc.
Qed.

Lemma split_once_Some sep s h t :
  Py.split_once sep s = Some (h, t)
  ↔ s = h ++ String sep t ∧ Py.mem_char sep h = false.
Proof.
  revert h. induction s as [|c s IH]; intros h.
  - split; [done|]. intros [Heq _]. by destruct h.
  - cbn [Py.split_once]. destruct (Ascii.eqb_spec c sep) as [-> | Hne].
    + split.
      * by intros [= <- <-].
      * intros [Heq Hfree]. destruct h as [|d h].
        -- by injection Heq as ->.
        -- rewrite append_cons in Heq. injection Heq as <- _.
           cbn in Hfree. by rewrite Ascii.eqb_refl in Hfree.
    + destruct (Py.split_once sep s) as [[h' t']|] eqn:Hs.
      * split.
        -- intros [= <- <-]. destruct (proj1 (IH h') eq_refl) as [-> Hfree].
           split; [done|]. cbn.
           rewrite Hfree, orb_false_r. by apply Ascii.eqb_neq.
        -- intros [Heq Hfree]. destruct h as [|d h].
           ++ by injection Heq as ->.
           ++ rewrite append_cons in Heq. injection Heq as <- ->.
              cbn in Hfree. apply orb_false_iff in Hfree as [_ Hfree].
              assert (H : Some (h', t') = Some (h, t))
                by (by apply IH).
              by injection H as -> ->.
      * split; [done|]. intros [Heq Hfree]. destruct h as [|d h].
        -- by injection Heq as ->.
        -- rewrite append_cons in Heq. injection Heq as <- ->.
           cbn in Hfree. apply orb_false_iff in Hfree as [_ Hfree].
           assert (H : None = Some (h, t)) by (by apply IH).
           discriminate.
Qed.

Lemma split_once_None sep s :
  Py.split_once sep s = None ↔ Py.mem_char sep s = false.
Proof.
  induction s as [|c s IH]; [done|]. cbn [Py.split_once Py.mem_char].
  rewrite (Ascii.eqb_sym sep c).
  destruct (Ascii.eqb c sep); cbn [orb]; [by split|]. rewrite <- IH.
  destruct (Py.split_once sep s) as [[? ?]|]; by split.
Qed.

Lemma truthy_nonempty s : Py.truthy s = true ↔ s ≠ "".
Proof. by destruct s. Qed.

Lemma match_device_property_spec (left_ device property_name : string) :
  match_device_property left_ = Some (device, property_name)
  ↔ device ≠ "" ∧ property_name ≠ ""
    ∧ Py.mem_char "[" device = false
    ∧ Py.mem_char "]" property_name = false
    ∧ (left_ = device ++ "[" ++ property_name ++ "]"
       ∨ left_ = device ++ "[" ++ property_name ++ "]" ++ Py.nl).
Proof.
  unfold match_device_property. split.
  - destruct (Py.split_once "[" left_) as [[d rest]|] eqn:H1; [|done].
    destruct (Py.split_once "]" rest) as [[p tail]|] eqn:H2; [|done].
    apply split_once_Some in H1 as [-> Hd], H2 as [-> Hp].
    destruct (Py.truthy d && Py.truthy p
              && (String.eqb tail "" || String.eqb tail Py.nl)) eqn:Hc;
      [|done].
    intros [= <- <-].
    apply andb_true_iff in Hc as [[Hd' Hp']%andb_true_iff Ht].
    apply truthy_nonempty in Hd', Hp'.
    split; [done|]. split; [done|]. split; [done|]. split; [done|].
    apply orb_true_iff in Ht as [Ht | Ht]; apply String.eqb_eq in Ht;
      subst tail; [by left | by right].
  - intros (Hd & Hp & Hfd & Hfp & Hleft).
    assert (H1 : ∀ tail, Py.split_once "[" (device ++ "[" ++ property_name
                                           ++ String "]" tail)
                 = Some (device, property_name ++ String "]" tail)).
    { intros tail. by apply split_once_Some. }
    assert (H2 : ∀ tail, Py.split_once "]" (property_name ++ String "]" tail)
                 = Some (property_name, tail)).
    { intros tail. by apply split_once_Some. }
    apply truthy_nonempty in Hd, Hp.
    destruct Hleft as [-> | ->].
    + change (device ++ "[" ++ property_name ++ "]")
        with (device ++ "[" ++ property_name ++ String "]" "").
      by rewrite H1, H2, Hd, Hp.
    + change (device ++ "[" ++ property_name ++ "]" ++ Py.nl)
        with (device ++ "[" ++ property_name ++ String "]" Py.nl).
      by rewrite H1, H2, Hd, Hp.
Qed.

(** X4: the left-hand side of a fact line. The pattern
    [^([^[]+)\[([^]]+)\]$] matches exactly the texts [device[property]],
    maybe followed by one newline, with a device that is not empty and
    holds no opening bracket and a property that is not empty and holds
    no closing bracket; the groups are then this device and this
    property. *)
Theorem match_device_property_iff (left_ device property_name : string) :
  match_device_property left_ = Some (device, property_name)
  ↔ device ≠ "" ∧ property_name ≠ ""
    ∧ Py.mem_char "[" device = false
    ∧ Py.mem_char "]" property_name = false
    ∧ (left_ = device ++ "[" ++ property_name ++ "]"
       ∨ left_ = device ++ "[" ++ property_name ++ "]" ++ Py.nl).
Proof. apply match_device_property_spec. Qed.

Lemma match_device_property_iff_witness :
  match_device_property "R1[0]" = Some ("R1", "0").
Proof.
  apply match_device_property_iff. repeat split; try done. by left.
Defined.

End Splitting.

(** ** The shape of the facts *)

Section FactShape.

Lemma prefix_append (a s t : string) :
  String.prefix a s = true → String.prefix a (s ++ t) = true.
Proof.
  revert s. induction a as [|c a IH]; intros s.
  - intros _. by destruct (s ++ t).
  - destruct s as [|d s]; [done|]. rewrite append_cons. cbn [String.prefix].
    destruct (ascii_dec c d); [apply IH | done].
Qed.

Lemma decimal_not_colon (s : string) :
  Py.isdigit s = true → Py.mem_char ":" s = false.
Proof.
  intros Hd. assert (Hall : Py.all_chars Py.is_digit s = true)
    by (by destruct s).
  clear Hd. induction s as [|c s IH]; [done|].
  cbn [Py.all_chars] in Hall. apply andb_true_iff in Hall as [Hc Hs].
  cbn [Py.mem_char]. rewrite (IH Hs), orb_false_r.
  apply Ascii.eqb_neq. intros <-. discriminate.
Qed.

Lemma read_fact_shape (line device property_name value : string) :
  read_fact line = Some (device, property_name, value) →
  device ≠ "" ∧ property_name ≠ ""
  ∧ Py.mem_char "[" device = false ∧ Py.mem_char "=" device = false
  ∧ Py.mem_char "]" property_name = false
  ∧ Py.mem_char "=" property_name = false
  ∧ head_not_space device
  ∧ Py.startswith "#" device = false
  ∧ Py.startswith "LAB_" device = false
  ∧ Py.strip_chars quotes value = value.
Proof.
  unfold read_fact.
  pose proof (strip_with_head Py.isspace line) as Hhead.
  fold (Py.strip line) in Hhead.
  destruct (negb (Py.truthy (Py.strip line))
            || Py.startswith "#" (Py.strip line)
            || Py.startswith "LAB_" (Py.strip line)) eqn:Hskip; [done|].
  apply orb_false_iff in Hskip as [[_ Hhash]%orb_false_iff Hlab].
  destruct (Py.split_once "=" (Py.strip line)) as [[lhs rhs]|] eqn:Heq;
    [|done].
  apply split_once_Some in Heq as [Hline Hfree].
  destruct (match_device_property lhs) as [[d p]|] eqn:Hm; [|done].
  intros [= <- <- <-].
  apply match_device_property_spec in Hm as (Hd & Hp & Hfd & Hfp & Hlhs).
  assert (Hparts : ∃ tail, lhs = d ++ String "[" (p ++ tail)).
  { destruct Hlhs as [-> | ->]; eexists; reflexivity. }
  destruct Hparts as [tail ->].
  rewrite !mem_char_append in Hfree. cbn [Py.mem_char] in Hfree.
  rewrite mem_char_append in Hfree.
  apply orb_false_iff in Hfree as [Hed [_ [Hep _]%orb_false_iff]%orb_false_iff].
  split; [done|]. split; [done|]. split; [done|]. split; [done|].
  split; [done|]. split; [done|].
  rewrite Hline in Hhead, Hhash, Hlab. rewrite append_assoc in Hhash, Hlab.
  destruct d as [|c d]; [done|].
  split; [exact Hhead|].
  split.
  { destruct (Py.startswith "#" (String c d)) eqn:Hs; [|done].
    unfold Py.startswith in *. by rewrite (prefix_append _ _ _ Hs) in Hhash. }
  split.
  { destruct (Py.startswith "LAB_" (String c d)) eqn:Hs; [|done].
    unfold Py.startswith in *. by rewrite (prefix_append _ _ _ Hs) in Hlab. }
  apply strip_with_idemp.
Qed.

Lemma facts_elem (content : string) (fact : string * string * string) :
  fact ∈ facts content → ∃ line, read_fact line = Some fact.
Proof.
  unfold facts. rewrite list_elem_of_omap. intros (line & _ & Hline).
  by exists line.
Qed.

(** X5: the names of the devices. A device of the parsed topology has
    a name that is not empty, holds neither an opening bracket nor an
    equals sign, does not begin with white space, and begins neither
    with [#] nor with [LAB_]. *)
Theorem parsed_device_names (cfg : Config) (content device : string) :
  device ∈ devices (parse_lab_conf (new_generator cfg) content) →
  device ≠ ""
  ∧ Py.mem_char "[" device = false
  ∧ Py.mem_char "=" device = false
  ∧ head_not_space device
  ∧ Py.startswith "#" device = false
  ∧ Py.startswith "LAB_" device = false.
Proof.
  intros Hd. apply parsed_devices_elem in Hd as ([[d p] v] & Hfact & <-).
  apply facts_elem in Hfact as [line Hline].
  apply read_fact_shape in Hline. cbn. tauto.
Qed.

Lemma parsed_device_names_witness :
  Py.startswith "LAB_" "PC1" = false.
Proof.
  apply (parsed_device_names DEFAULT_CONFIG scenario_netA "PC1").
  vm_compute. apply elem_of_cons. by left.
Defined.

(** X6: the attachment strings. Every string stored for a device of the
    parsed topology is [index:name], where the index is a string of
    digits and the name has no quote left at either end; both interface
    loops split it back into this index and this name and never skip
    it; and the device is in the device list. *)
Theorem parsed_attachments (cfg : Config) (content device net : string) :
  let self := parse_lab_conf (new_generator cfg) content in
  net ∈ device_networks self !!! device →
  ∃ if_num network_name,
    net = if_num ++ ":" ++ network_name
    ∧ Py.isdigit if_num = true
    ∧ Py.strip_chars quotes network_name = network_name
    ∧ split_network_info net = Some (if_num, network_name)
    ∧ device ∈ devices self.
Proof.
  intros self. subst self. rewrite parsed_networks.
  rewrite list_elem_of_fmap. intros ([[d p] v] & -> & Hin).
  apply list_elem_of_In, filter_In in Hin as [Hin Hof].
  apply list_elem_of_In in Hin.
  unfold interface_fact_of, fact_device, fact_property in Hof. cbn in Hof.
  apply andb_true_iff in Hof as [Hdev Hdigit].
  apply String.eqb_eq in Hdev. subst d.
  exists p, v. unfold attachment. cbn [fst snd].
  destruct (facts_elem _ _ Hin) as [line Hline].
  apply read_fact_shape in Hline as (_ & Hp & _ & _ & _ & _ & _ & _ & _ & Hv).
  split; [done|]. split; [done|]. split; [done|]. split.
  - unfold split_network_info.
    destruct p as [|c p]; [done|]. rewrite append_cons. cbn [Py.truthy negb].
    rewrite <- append_cons. apply split_once_Some.
    split; [done|]. by apply decimal_not_colon.
  - apply parsed_devices_elem. by exists (device, p, v).
Qed.

Lemma parsed_attachments_witness :
  ∃ if_num network_name,
    "0:netA" = if_num ++ ":" ++ network_name
    ∧ Py.isdigit if_num = true
    ∧ Py.strip_chars quotes network_name = network_name
    ∧ split_network_info "0:netA" = Some (if_num, network_name)
    ∧ "R1" ∈ devices topology_netA.
Proof.
  apply (parsed_attachments DEFAULT_CONFIG scenario_netA "R1" "0:netA").
  vm_compute. apply elem_of_cons. by left.
Defined.

End FactShape.

(** ** Images and roles *)

Section Images.

Lemma detect_device_type_config (g g' : Generator) (image : string) :
  config g = config g' →
  detect_device_type g image = detect_device_type g' image.
Proof. intros Hc. unfold detect_device_type. by rewrite Hc. Qed.

Lemma detect_device_type_role (g : Generator) (image : string) :
  is_role (detect_device_type g image).
Proof.
  unfold detect_device_type, is_role.
  destruct (re_search_ignorecase _ _); [by left|].
  destruct (re_search_ignorecase _ _); [by right; left|].
  destruct (re_search_ignorecase _ _); [by right; right; left|].
  by right; right; right.
Qed.

Lemma last_image_None (d : string) (fs : list (string * string * string)) :
  last_image d fs = None → List.filter (image_fact_of d) fs = [].
Proof.
  induction fs as [|fact fs IH]; [done|]. cbn [last_image List.filter].
  destruct (last_image d fs); [done|].
  destruct (image_fact_of d fact); [done|]. intros _. by apply IH.
Qed.

Lemma record_fact_last_image fact (self : Generator) (seen : gset string)
    (d : string) :
  image_fact_of d fact = true →
  device_images (record_fact fact (self, seen)).1 !! d = Some fact.2
  ∧ device_types (record_fact fact (self, seen)).1 !! d
    = Some (detect_device_type self fact.2).
Proof.
  destruct fact as [[device property_name] value].
  unfold image_fact_of, fact_device, fact_property. cbn [fst snd].
  intros [Hd Hp]%andb_true_iff.
  apply String.eqb_eq in Hd, Hp. subst device property_name.
  rewrite record_fact_image. cbn. by rewrite !lookup_insert_eq.
Qed.

Lemma record_facts_last_image (fs : list (string * string * string))
    (self : Generator) (seen : gset string) (d image : string) :
  last_image d fs = Some image →
  device_images (record_facts fs (self, seen)).1 !! d = Some image
  ∧ device_types (record_facts fs (self, seen)).1 !! d
    = Some (detect_device_type self image).
Proof.
  revert self seen. induction fs as [|fact fs IH]; intros self seen; [done|].
  cbn [last_image record_facts fold_left].
  destruct (record_fact fact (self, seen)) as [self' seen'] eqn:Hstep.
  fold (record_facts fs (self', seen')).
  assert (Hcfg : config self' = config self).
  { pose proof (record_fact_config fact self seen) as [Hc _].
    by rewrite Hstep in Hc. }
  destruct (last_image d fs) as [image'|] eqn:Hlast.
  - intros [= ->]. destruct (IH self' seen' eq_refl) as [-> ->].
    split; [done|]. f_equal. by apply detect_device_type_config.
  - destruct (image_fact_of d fact) eqn:Hfact; [|done]. intros [= <-].
    destruct (record_facts_images fs self' seen' d (last_image_None _ _ Hlast))
      as [-> ->].
    pose proof (record_fact_last_image fact self seen d Hfact) as Hi.
    by rewrite Hstep in Hi.
Qed.

(** X7: image and role of a device. For a device of the parsed
    topology, the image is the one declared last in the description
    and the role is the classification of that image under the
    configured patterns; a device without any image line has image
    [unknown] and role [generic]. In both cases the role is one of
    [router], [manager], [pc] and [generic]. *)
Theorem parsed_image_and_role (cfg : Config) (content device : string) :
  let self := parse_lab_conf (new_generator cfg) content in
  device ∈ devices self →
  match last_image device (facts content) with
  | Some image =>
      device_images self !! device = Some image
      ∧ device_types self !! device
        = Some (detect_device_type (new_generator cfg) image)
  | None =>
      device_images self !! device = Some "unknown"
      ∧ device_types self !! device = Some "generic"
  end
  ∧ is_role (device_types self !!! device).
Proof.
  intros self Hd.
  assert (Hmain : match last_image device (facts content) with
    | Some image =>
        device_images self !! device = Some image
        ∧ device_types self !! device
          = Some (detect_device_type (new_generator cfg) image)
    | None =>
        device_images self !! device = Some "unknown"
        ∧ device_types self !! device = Some "generic"
    end).
  { destruct (last_image device (facts content)) as [image|] eqn:Hlast.
    - subst self. rewrite parse_lab_conf_unfold. unfold finish_parse.
      set (g := set_devices _ _).
      destruct (fold_fill_defaults_images (devices g) g device) as [-> ->].
      subst g. cbn [device_images device_types set_devices].
      destruct (record_facts_last_image (facts content) (new_generator cfg)
                  ∅ device image Hlast) as [-> ->]. done.
    - apply parsed_without_image; [done|]. by apply last_image_None. }
  split; [exact Hmain|].
  rewrite lookup_total_alt.
  destruct (last_image device (facts content)) as [image|];
    destruct Hmain as [_ ->]; cbn.
  - apply detect_device_type_role.
  - by right; right; right.
Qed.

Lemma parsed_image_and_role_witness :
  is_role (device_types topology_netA !!! "PC1").
Proof.
  apply (parsed_image_and_role DEFAULT_CONFIG scenario_netA "PC1").
  vm_compute. apply elem_of_cons. by left.
Defined.

End Images.

(** ** Routers, external networks and gateways *)

Section Resolver.

Variable self : Generator.

Implicit Types (network_name router device : string).
Implicit Types (frr_routers : list string).

(** X8: [find_router_on_network] returns the first router of the list
    that is on the network: every router before it in the list is off
    the network; and it returns nothing exactly when no router of the
    list is on the network. *)
Theorem find_router_on_network_first network_name frr_routers :
  match find_router_on_network self network_name frr_routers with
  | Some router =>
      ∃ before after,
        frr_routers = (before ++ router :: after)%list
        ∧ on_network self network_name router = true
        ∧ ∀ r, r ∈ before → on_network self network_name r = false
  | None =>
      ∀ r, r ∈ frr_routers → on_network self network_name r = false
  end.
Proof.
  unfold find_router_on_network.
  change (fun router : string =>
            existsb (fun net => Py.contains network_name net)
                    (device_networks self !!! router))
    with (on_network self network_name).
  induction frr_routers as [|r l IH]; cbn [find].
  - intros r Hr. by apply elem_of_nil in Hr.
  - destruct (on_network self network_name r) eqn:Hon.
    + exists [], l. split; [done|]. split; [done|].
      intros r' Hr'. by apply elem_of_nil in Hr'.
    + destruct (find (on_network self network_name) l) as [router|].
      * destruct IH as (before & after & -> & Hrouter & Hbefore).
        exists (r :: before), after. split; [done|]. split; [done|].
        intros r' [-> | Hr']%elem_of_cons; auto.
      * intros r' [-> | Hr']%elem_of_cons; auto.
Qed.

Lemma is_external_network_iff network_name frr_routers :
  is_external_network self network_name frr_routers = true
  ↔ ∃ device, device ∈ devices self
              ∧ on_network self network_name device = true
              ∧ device ∉ frr_routers.
Proof.
  unfold is_external_network. rewrite existsb_elem_of.
  split; intros (device & Hd & H); exists device; (split; [done|]).
  - apply andb_true_iff in H as [Hon Hout]. split; [done|].
    apply negb_true_iff, bool_decide_eq_false in Hout. done.
  - destruct H as [Hon Hout]. apply andb_true_iff. split; [done|].
    by apply negb_true_iff, bool_decide_eq_false.
Qed.

(** X9: external networks. A network is external for a list of routers
    exactly when some device on it is not in the list; and a management
    network is always external for the routers of the topology, since
    the manager on it is not a router. *)
Theorem management_network_is_external network_name frr_routers :
  (is_external_network self network_name frr_routers = true
   ↔ ∃ device, device ∈ devices self
               ∧ on_network self network_name device = true
               ∧ device ∉ frr_routers)
  ∧ (is_management_network self network_name = true →
     is_external_network self network_name (routers_of self) = true).
Proof.
  split; [apply is_external_network_iff|].
  rewrite is_management_network_existsb.
  intros [Hm _]%andb_true_iff.
  apply existsb_elem_of in Hm as (m & Hd & [Hon Hrole]%andb_true_iff).
  apply is_external_network_iff. exists m. split; [done|]. split; [done|].
  unfold routers_of. rewrite list_elem_of_In, filter_In.
  intros [_ Hrouter]. unfold has_role in *.
  apply String.eqb_eq in Hrole, Hrouter. congruence.
Qed.

End Resolver.

Lemma management_network_is_external_witness :
  is_external_network topology_campus "mgmt" (routers_of topology_campus)
  = true.
Proof.
  apply (management_network_is_external topology_campus "mgmt" []).
  vm_compute. reflexivity.
Defined.

(** ** Decimal numerals: [str] and [int] *)

From Stdlib Require DecimalZ DecimalPos.

Section Numerals.

Lemma string_of_uint_decimal (d : Decimal.uint) :
  Py.all_chars Py.is_decimal (NilEmpty.string_of_uint d) = true.
Proof. induction d; cbn [NilEmpty.string_of_uint Py.all_chars]; by try rewrite IHd. Qed.

Lemma all_chars_impl (p q : ascii → bool) (s : string) :
  (∀ c, p c = true → q c = true) →
  Py.all_chars p s = true → Py.all_chars q s = true.
Proof.
  intros Hpq. induction s as [|c s IH]; [done|]. cbn [Py.all_chars].
  intros [Hc Hs]%andb_true_iff. by rewrite (Hpq c Hc), (IH Hs).
Qed.

Lemma nilzero_string_of_uint (d : Decimal.uint) :
  d ≠ Decimal.Nil → NilZero.string_of_uint d = NilEmpty.string_of_uint d.
Proof. by destruct d. Qed.

Lemma to_int_cases (n : Z) :
  (n = 0 ∧ Py.str n = "0")
  ∨ (∃ p, n = Z.pos p ∧ Py.str n = NilEmpty.string_of_uint (Pos.to_uint p))
  ∨ (∃ p, n = Z.neg p
          ∧ Py.str n = String "-" (NilEmpty.string_of_uint (Pos.to_uint p))).
Proof.
  destruct n as [|p|p].
  - by left.
  - right; left. exists p. split; [done|]. unfold Py.str. cbn.
    apply nilzero_string_of_uint, DecimalPos.Unsigned.to_uint_nonnil.
  - right; right. exists p. split; [done|]. unfold Py.str. cbn. f_equal.
    apply nilzero_string_of_uint, DecimalPos.Unsigned.to_uint_nonnil.
Qed.

(** [str(n)] is made of digits and, for a negative number, of a minus
    sign. *)
Lemma str_numeral_chars (n : Z) :
  Py.all_chars is_numeral_char (Py.str n) = true.
Proof.
  assert (Hd : ∀ d, Py.all_chars is_numeral_char
                      (NilEmpty.string_of_uint d) = true).
  { intros d. apply (all_chars_impl Py.is_decimal); [|apply string_of_uint_decimal].
    intros c Hc. unfold is_numeral_char. by rewrite Hc. }
  destruct (to_int_cases n) as [[_ ->] | [(p & _ & ->) | (p & _ & ->)]].
  - done.
  - apply Hd.
  - cbn [Py.all_chars]. by rewrite Hd.
Qed.

Lemma str_free_of (q : ascii → bool) (n : Z) :
  (∀ c, is_numeral_char c = true → q c = false) →
  free_of q (Py.str n) = true.
Proof.
  intros Hq. unfold free_of.
  apply (all_chars_impl is_numeral_char); [|apply str_numeral_chars].
  intros c Hc. by rewrite (Hq c Hc).
Qed.

Lemma is_numeral_char_cases (c : ascii) :
  is_numeral_char c = true →
  c = "0"%char ∨ c = "1"%char ∨ c = "2"%char ∨ c = "3"%char ∨ c = "4"%char
  ∨ c = "5"%char ∨ c = "6"%char ∨ c = "7"%char ∨ c = "8"%char
  ∨ c = "9"%char ∨ c = "-"%char.
Proof.
  unfold is_numeral_char, Py.is_decimal, Py.ord.
  intros [[H1 H2]%andb_true_iff | H]%orb_true_iff.
  - assert (Hn : (48 <= N_of_ascii c <= 57)%N) by lia.
    rewrite <- (ascii_N_embedding c).
    assert (Hcases : N_of_ascii c = 48%N ∨ N_of_ascii c = 49%N
                     ∨ N_of_ascii c = 50%N ∨ N_of_ascii c = 51%N
                     ∨ N_of_ascii c = 52%N ∨ N_of_ascii c = 53%N
                     ∨ N_of_ascii c = 54%N ∨ N_of_ascii c = 55%N
                     ∨ N_of_ascii c = 56%N ∨ N_of_ascii c = 57%N) by lia.
    repeat (destruct Hcases as [-> | Hcases]; [tauto|]).
    rewrite Hcases. tauto.
  - apply Ascii.eqb_eq in H. tauto.
Qed.

(** [str] is one to one. *)
Lemma str_inj (a b : Z) : Py.str a = Py.str b → a = b.
Proof.
  unfold Py.str. intros Heq.
  assert (Hnn : ∀ n, Z.to_int n ≠ Decimal.Pos Decimal.Nil
                     ∧ Z.to_int n ≠ Decimal.Neg Decimal.Nil).
  { intros [|p|p]; cbn; split; try done;
      intros [= H]; by apply DecimalPos.Unsigned.to_uint_nonnil in H. }
  apply (f_equal NilZero.int_of_string) in Heq.
  rewrite !NilZero.isi in Heq by apply Hnn.
  injection Heq as Heq. by apply DecimalZ.to_int_inj.
Qed.

End Numerals.

(** ** Addresses *)

Section Addresses.

Variable self : Generator.
Variable network_name : string.
Hypothesis devices_NoDup : NoDup (devices self).

Let members := devices_on_network self network_name.
Let count := Z.of_nat (length members).

Lemma position_count_rank (device : string) :
  isis_position_count self device network_name
  = (rank device members, count)
  ∧ basic_position_count self device network_name
    = (rank device members, count)
  ∧ router_position_count self device network_name
    = (rank device members, count).
Proof.
  pose proof (counting_loop_devices self network_name device devices_NoDup)
    as Hloop.
  rewrite isis_position_count_eq, basic_position_count_eq,
    router_position_count_eq.
  by rewrite Hloop.
Qed.

Lemma ip_addr_rank (device : string) :
  isis_ip_addr self device network_name
  = generate_ip_for_network self network_name (rank device members) count
  ∧ basic_ip_addr self device network_name
    = generate_ip_for_network self network_name (rank device members) count.
Proof.
  destruct (position_count_rank device) as (Hi & Hb & _).
  unfold isis_ip_addr, basic_ip_addr. by rewrite Hi, Hb.
Qed.

Lemma members_elem (device : string) :
  device ∈ members
  ↔ device ∈ devices self ∧ on_network self network_name device = true.
Proof.
  subst members. unfold devices_on_network.
  by rewrite list_elem_of_In, filter_In, <- list_elem_of_In.
Qed.



Lemma rank_inj (d1 d2 : string) (l : list string) :
  d1 ∈ l → d2 ∈ l → rank d1 l = rank d2 l → d1 = d2.
Proof.
  intros H1 H2 Heq.
  destruct (rank_lookup d1 l H1) as [_ Hl1].
  destruct (rank_lookup d2 l H2) as [_ Hl2].
  rewrite Heq in Hl1. congruence.
Qed.

Lemma generate_ip_for_network_inj (i j total_devices : Z) :
  generate_ip_for_network self network_name i total_devices
  = generate_ip_for_network self network_name j total_devices →
  i = j.
Proof.
  unfold generate_ip_for_network.
  destruct (is_management_network self network_name).
  - intros H. apply String.app_inj, (String.app_inj ".") in H.
    apply append_inj_r, str_inj in H. lia.
  - destruct (total_devices =? 2).
    + intros H. do 4 apply String.app_inj in H.
      by apply append_inj_r, str_inj in H.
    + intros H. do 4 apply String.app_inj in H.
      apply append_inj_r, str_inj in H. lia.
Qed.

(** X11: no address is given twice on a network. Two different devices
    of the list that are on the same network get different addresses,
    whether the address is computed for a router or for another
    device. *)
Theorem addresses_distinct (d1 d2 : string) :
  d1 ∈ devices self → d2 ∈ devices self →
  on_network self network_name d1 = true →
  on_network self network_name d2 = true →
  d1 ≠ d2 →
  isis_ip_addr self d1 network_name ≠ isis_ip_addr self d2 network_name
  ∧ isis_ip_addr self d1 network_name ≠ basic_ip_addr self d2 network_name
  ∧ basic_ip_addr self d1 network_name ≠ basic_ip_addr self d2 network_name.
Proof.
  intros Hd1 Hd2 Hon1 Hon2 Hne.
  assert (Hm1 : d1 ∈ members) by (by apply members_elem).
  assert (Hm2 : d2 ∈ members) by (by apply members_elem).
  destruct (ip_addr_rank d1) as [Hi1 Hb1].
  destruct (ip_addr_rank d2) as [Hi2 Hb2].
  rewrite Hi1, Hi2, Hb1, Hb2.
  assert (Hdiff : generate_ip_for_network self network_name
                    (rank d1 members) count
                  ≠ generate_ip_for_network self network_name
                      (rank d2 members) count).
  { intros Heq. apply generate_ip_for_network_inj in Heq.
    by apply Hne, (rank_inj d1 d2 members). }
  done.
Qed.

End Addresses.

Lemma addresses_distinct_witness :
  isis_ip_addr topology_netA "R1" "netA"
  ≠ basic_ip_addr topology_netA "PC1" "netA".
Proof.
  apply (addresses_distinct topology_netA "netA"
           (parsed_devices_NoDup DEFAULT_CONFIG scenario_netA) "R1" "PC1").
  - vm_compute. apply elem_of_cons; right. apply elem_of_cons; by left.
  - vm_compute. apply elem_of_cons; by left.
  - vm_compute. reflexivity.
  - vm_compute. reflexivity.
  - done.
Defined.

(** ** The host part of an address *)

Section HostPart.

Lemma split_cons_free (sep : ascii) (a b : string) :
  Py.mem_char sep a = false →
  Py.split sep (a ++ String sep b) = a :: Py.split sep b.
Proof.
  induction a as [|c a IH]; intros Hfree.
  - change ("" ++ String sep b) with (String sep b). cbn [Py.split].
    by rewrite Ascii.eqb_refl.
  - cbn [Py.mem_char] in Hfree.
    apply orb_false_iff in Hfree as [Hc Hfree].
    rewrite append_cons. cbn [Py.split].
    rewrite (Ascii.eqb_sym c sep), Hc. by rewrite (IH Hfree).
Qed.

Lemma before_slash_append (a b : string) :
  Py.mem_char "/" a = false → before_slash (a ++ String "/" b) = a.
Proof.
  intros Hfree. unfold before_slash. by rewrite split_cons_free.
Qed.

Lemma all_chars_mem_char (p : ascii → bool) (c : ascii) (s : string) :
  Py.all_chars p s = true → p c = false → Py.mem_char c s = false.
Proof.
  intros Hall Hc. induction s as [|d s IH]; [done|].
  cbn [Py.all_chars] in Hall. apply andb_true_iff in Hall as [Hd Hs].
  cbn [Py.mem_char]. rewrite (IH Hs), orb_false_r.
  apply Ascii.eqb_neq. intros ->. congruence.
Qed.

Lemma str_no_slash (n : Z) : Py.mem_char "/" (Py.str n) = false.
Proof.
  apply (all_chars_mem_char is_numeral_char); [apply str_numeral_chars | done].
Qed.

(** X12: the host part. When none of the three configured prefixes
    holds a slash, the text that [get_router_ip_on_network] keeps of an
    address (what stands before the first slash) holds no slash, and the
    address is this text followed by [/24] or [/30]: only the prefix
    length is cut off. *)
Theorem address_host_part (self : Generator) (network_name : string)
    (device_index total_devices : Z) :
  Py.mem_char "/" (MGMT_SUBNET (config self)) = false →
  Py.mem_char "/" (PTP_SUBNET (config self)) = false →
  Py.mem_char "/" (MULTI_SUBNET (config self)) = false →
  let address :=
    generate_ip_for_network self network_name device_index total_devices in
  Py.mem_char "/" (before_slash address) = false
  ∧ (address = before_slash address ++ "/24"
     ∨ address = before_slash address ++ "/30").
Proof.
  intros Hm Hp Hu address. subst address. unfold generate_ip_for_network.
  destruct (is_management_network self network_name).
  - set (host := MGMT_SUBNET (config self) ++ "." ++ Py.str (10 + device_index)).
    assert (Hfree : Py.mem_char "/" host = false).
    { subst host. rewrite !mem_char_append, Hm, str_no_slash. done. }
    replace (MGMT_SUBNET (config self) ++ "." ++ Py.str (10 + device_index)
             ++ "/24") with (host ++ String "/" "24")
      by (subst host; by rewrite !append_assoc).
    rewrite before_slash_append by done. split; [done | by left].
  - destruct (total_devices =? 2).
    + set (host := PTP_SUBNET (config self) ++ "."
                   ++ Py.str (subnet_num network_name) ++ "."
                   ++ Py.str device_index).
      assert (Hfree : Py.mem_char "/" host = false).
      { subst host. rewrite !mem_char_append, Hp, !str_no_slash. done. }
      replace (PTP_SUBNET (config self) ++ "."
               ++ Py.str (subnet_num network_name) ++ "."
               ++ Py.str device_index ++ "/30")
        with (host ++ String "/" "30")
        by (subst host; by rewrite !append_assoc).
      rewrite before_slash_append by done. split; [done | by right].
    + set (host := MULTI_SUBNET (config self) ++ "."
                   ++ Py.str (subnet_num network_name) ++ ".0."
                   ++ Py.str (device_index + 1)).
      assert (Hfree : Py.mem_char "/" host = false).
      { subst host. rewrite !mem_char_append, Hu, !str_no_slash. done. }
      replace (MULTI_SUBNET (config self) ++ "."
               ++ Py.str (subnet_num network_name) ++ ".0."
               ++ Py.str (device_index + 1) ++ "/24")
        with (host ++ String "/" "24")
        by (subst host; by rewrite !append_assoc).
      rewrite before_slash_append by done. split; [done | by left].
Qed.

Lemma address_host_part_witness :
  Py.mem_char "/" (before_slash
    (generate_ip_for_network topology_netA "netA" 1 2)) = false.
Proof.
  apply (address_host_part topology_netA "netA" 1 2);
    vm_compute; reflexivity.
Defined.

End HostPart.

(** ** Network names that are numbers *)

Section NumericNames.

Lemma uint_value_acc (d : Decimal.uint) (p : positive) :
  Z.pos (Pos.of_uint_acc d p) = uint_value d (Z.pos p).
Proof.
  revert p. induction d; intros p; cbn [Pos.of_uint_acc uint_value];
    [done | rewrite IHd; f_equal; lia ..].
Qed.

Lemma uint_value_of_uint (d : Decimal.uint) :
  Z.of_N (Pos.of_uint d) = uint_value d 0.
Proof.
  induction d; cbn [Pos.of_uint uint_value Z.of_N];
    [done | exact IHd | rewrite uint_value_acc; f_equal ..].
Qed.

Lemma digits_value_uint (d : Decimal.uint) (acc : Z) :
  Py.digits_value acc true (NilEmpty.string_of_uint d)
  = Some (uint_value d acc).
Proof.
  revert acc. induction d; intros acc; [done|..];
    cbn [NilEmpty.string_of_uint uint_value]; rewrite <- IHd; reflexivity.
Qed.

Lemma digits_value_uint_start (d : Decimal.uint) (acc : Z) :
  d ≠ Decimal.Nil →
  Py.digits_value acc false (NilEmpty.string_of_uint d)
  = Some (uint_value d acc).
Proof.
  destruct d; [done|..]; intros _;
    cbn [NilEmpty.string_of_uint uint_value];
    rewrite <- digits_value_uint; reflexivity.
Qed.

Lemma uint_value_to_uint (p : positive) :
  uint_value (Pos.to_uint p) 0 = Z.pos p.
Proof.
  by rewrite <- uint_value_of_uint, DecimalPos.Unsigned.of_to.
Qed.

Lemma count_chars_le (q : ascii → bool) (s : string) :
  (Py.count_chars q s <= String.length s)%nat.
Proof.
  induction s as [|c s IH]; cbn [Py.count_chars String.length]; [done|].
  destruct (q c); lia.
Qed.

Lemma numeral_not_space (c : ascii) :
  is_numeral_char c = true → Py.int_space c = false.
Proof.
  intros H. apply is_numeral_char_cases in H.
  repeat (destruct H as [-> | H]; [reflexivity|]). by subst c.
Qed.

Lemma strip_str (n : Z) :
  Py.strip_with Py.int_space (Py.str n) = Py.str n.
Proof.
  apply strip_with_all_free, str_free_of, numeral_not_space.
Qed.

Lemma unsigned_int_uint (d : Decimal.uint) :
  d ≠ Decimal.Nil →
  (String.length (NilEmpty.string_of_uint d) <= Py.int_max_str_digits)%nat →
  Py.unsigned_int (NilEmpty.string_of_uint d) = Some (uint_value d 0).
Proof.
  intros Hd Hlen. unfold Py.unsigned_int.
  pose proof (count_chars_le Py.is_decimal (NilEmpty.string_of_uint d)).
  rewrite (proj2 (Nat.ltb_ge _ _)) by lia.
  by apply digits_value_uint_start.
Qed.

Lemma uint_head_decimal (d : Decimal.uint) :
  d ≠ Decimal.Nil →
  ∃ c s, NilEmpty.string_of_uint d = String c s ∧ Py.is_decimal c = true.
Proof. destruct d; [done | intros _; by eexists _, _ ..]. Qed.

Lemma int_str (n : Z) :
  (String.length (Py.str n) <= Py.int_max_str_digits)%nat →
  Py.int (Py.str n) = Some n.
Proof.
  intros Hlen. unfold Py.int. rewrite strip_str.
  destruct (to_int_cases n) as [[-> _] | [(p & -> & Hs) | (p & -> & Hs)]].
  - reflexivity.
  - rewrite Hs in *.
    pose proof (DecimalPos.Unsigned.to_uint_nonnil p) as Hnn.
    destruct (uint_head_decimal _ Hnn) as (c & s & Heq & Hc).
    rewrite Heq.
    destruct (Ascii.eqb_spec c (Py.chr 45)) as [-> | _]; [discriminate|].
    destruct (Ascii.eqb_spec c (Py.chr 43)) as [-> | _]; [discriminate|].
    rewrite <- Heq, unsigned_int_uint by done.
    by rewrite uint_value_to_uint.
  - rewrite Hs in *. cbn [String.length] in Hlen.
    change (Ascii.eqb "-" (Py.chr 45)) with true. cbv iota.
    rewrite unsigned_int_uint
      by (apply DecimalPos.Unsigned.to_uint_nonnil || lia).
    by rewrite uint_value_to_uint.
Qed.

(** X13: network names that are numbers. For a number [n] whose decimal
    numeral has at most 4300 characters, [int] reads the numeral back
    as [n], so the network named by the numeral of [n] gets subnet
    number [(n mod 250) + 1]; hence the numerals of two numbers between
    0 and 249 never share a subnet number. *)
Theorem numeric_network_name (n : Z) :
  (String.length (Py.str n) <= Py.int_max_str_digits)%nat →
  Py.int (Py.str n) = Some n
  ∧ subnet_num (Py.str n) = n mod 250 + 1
  ∧ (∀ m, (String.length (Py.str m) <= Py.int_max_str_digits)%nat →
          0 <= n < 250 → 0 <= m < 250 →
          subnet_num (Py.str n) = subnet_num (Py.str m) → n = m).
Proof.
  intros Hlen. pose proof (int_str n Hlen) as Hint.
  assert (Hsub : ∀ k, (String.length (Py.str k) <= Py.int_max_str_digits)%nat →
                      subnet_num (Py.str k) = k mod 250 + 1).
  { intros k Hk. unfold subnet_num. by rewrite (int_str k Hk). }
  split; [done|]. split; [by apply Hsub|].
  intros m Hm Hn0 Hm0. rewrite !Hsub by done.
  rewrite !Z.mod_small by lia. lia.
Qed.

Lemma numeric_network_name_witness :
  subnet_num (Py.str 249) = 250.
Proof.
  apply (numeric_network_name 249). vm_compute. lia.
Defined.

End NumericNames.

(** ** The files of a run *)

Section Footprint.

Variable dir : Directory.
Variable cfg : Config.
Variable content : string.

Let self := parse_lab_conf (new_generator cfg) content.

Lemma run_all_writable (fs : gmap string string) :
  (∀ d, d ∈ devices self → can_write dir (startup_file d) = true) →
  (run dir cfg (Some content) fs).1 = 0.
Proof.
  intros Hall. unfold self in *.
  destruct (decide (routers_of (parse_lab_conf (new_generator cfg) content)
                    = [])) as [HR | HR].
  - by rewrite run_without_router.
  - rewrite run_with_routers by done. cbn [fst].
    pose proof (write_routers_status dir
                  (parse_lab_conf (new_generator cfg) content)
                  (routers_of (parse_lab_conf (new_generator cfg) content))
                  (enumerate
                     (routers_of (parse_lab_conf (new_generator cfg) content)))
                  fs) as Hs.
    rewrite (proj2 (routers_can_write dir cfg content)) in Hs.
    + destruct (write_routers _ _ _ _ _) as [s fs1]. cbn [fst] in Hs.
      subst s. rewrite write_others_status_ok; [done|].
      intros d Hd _. by apply Hall.
    + intros r Hr. apply Hall. by apply routers_of_elem in Hr as [? _].
Qed.

(** X14: what a run does to the files. It ends with exit code 1 and
    touches nothing when [lab.conf] cannot be read; otherwise its exit
    code is 0 or 1. It changes no file other than those that the
    start-up names of the devices of the description stand for, and it
    deletes no file. With patterns that are alternations of literal
    words, it ends with exit code 0 when the start-up file of every
    device can be written. It ends with exit code 1 when the file of
    some router cannot be written. When it ends with exit code 0 and
    the topology has a router, every device of the list has its
    start-up file. *)
Theorem run_footprint (fs : gmap string string) :
  let result := run dir cfg (Some content) fs in
  run dir cfg None fs = (1, fs)
  ∧ (result.1 = 0 ∨ result.1 = 1)
  ∧ (∀ f, (∀ d, d ∈ devices self →
                file_of dir (startup_file d) ≠ Some f) →
          result.2 !! f = fs !! f)
  ∧ (∀ f, is_Some (fs !! f) → is_Some (result.2 !! f))
  ∧ (plain_patterns cfg = true →
     (∀ d, d ∈ devices self → can_write dir (startup_file d) = true) →
     result.1 = 0)
  ∧ ((∃ r, r ∈ routers_of self ∧ can_write dir (startup_file r) = false) →
     result.1 = 1)
  ∧ (result.1 = 0 → routers_of self ≠ [] →
     ∀ d, d ∈ devices self → isfile dir result.2 (startup_file d) = true).
Proof.
  intros result. subst result.
  split; [done|]. split; [apply run_code|].
  split; [intros f; apply run_foreign_file|].
  split; [intros f; apply run_never_deletes|].
  split; [intros _; apply run_all_writable|].
  split.
  - intros (r & Hr & Hcan).
    by rewrite (run_router_refused dir cfg content fs r Hr Hcan).
  - intros Hcode HR d. by apply run_every_device.
Qed.

End Footprint.

Lemma run_footprint_witness :
  (run flat_directory DEFAULT_CONFIG (Some scenario_netA) ∅).1 = 0
  ∧ isfile flat_directory
      (run flat_directory DEFAULT_CONFIG (Some scenario_netA) ∅).2
      "PC1.startup" = true
  ∧ (run flat_directory DEFAULT_CONFIG (Some scenario_netA)
         {[ "lab.conf" := scenario_netA ]}).2 !! "lab.conf"
    = Some scenario_netA
  ∧ (run flat_directory DEFAULT_CONFIG (Some "net/r1[image]=frr") ∅).1 = 1.
Proof.
  assert (Hdev : devices topology_netA = ["PC1"; "R1"])
    by (vm_compute; reflexivity).
  assert (Hall : ∀ d, d ∈ devices topology_netA →
                      can_write flat_directory (startup_file d) = true).
  { intros d Hd. rewrite Hdev in Hd.
    repeat (apply elem_of_cons in Hd as [-> | Hd]; [reflexivity|]).
    inversion Hd. }
  pose proof (run_footprint flat_directory DEFAULT_CONFIG scenario_netA ∅)
    as Hrun.
  cbv zeta in Hrun.
  destruct Hrun as (_ & _ & _ & _ & Hcode & _ & Hfiles).
  specialize (Hcode eq_refl Hall).
  split; [exact Hcode|]. split.
  - apply (Hfiles Hcode ltac:(vm_compute; discriminate) "PC1").
    fold topology_netA. rewrite Hdev. apply elem_of_cons. by left.
  - split.
    + pose proof (run_footprint flat_directory DEFAULT_CONFIG scenario_netA
                    {[ "lab.conf" := scenario_netA ]}) as Hrun.
      cbv zeta in Hrun. destruct Hrun as (_ & _ & Hforeign & _).
      rewrite Hforeign; [vm_compute; reflexivity|].
      intros d Hd. fold topology_netA in Hd. rewrite Hdev in Hd.
      repeat (apply elem_of_cons in Hd as [-> | Hd];
              [vm_compute; discriminate|]).
      inversion Hd.
    + pose proof (run_footprint flat_directory DEFAULT_CONFIG
                    "net/r1[image]=frr" ∅) as Hrun.
      cbv zeta in Hrun. destruct Hrun as (_ & _ & _ & _ & _ & Hrefused & _).
      apply Hrefused. exists "net/r1". split; [|reflexivity].
      vm_compute. apply elem_of_cons. by left.
Defined.

(** ** The interface loops of the two scripts *)

Section InterfaceLoops.

Variable self : Generator.
Variable frr_routers : list string.

Lemma isis_interface_step (router_name : string) (content ext net : string) :
  ∃ block,
    isis_interface self router_name frr_routers (content, ext) net
    = (content ++ block,
       if Py.truthy ext then ext
       else if attachment_is_external self frr_routers net
            then attachment_interface net else "").
Proof.
  unfold isis_interface, attachment_is_external, attachment_interface.
  destruct (split_network_info net) as [[if_num network_name]|].
  - eexists. f_equal.
    destruct (is_external_network self network_name frr_routers),
      (Py.truthy ext) eqn:Hext; cbn; try done. by destruct ext.
  - exists "". rewrite append_nil_r. by destruct ext.
Qed.

Lemma attachment_interface_truthy (net : string) :
  attachment_is_external self frr_routers net = true →
  Py.truthy (attachment_interface net) = true.
Proof.
  unfold attachment_is_external, attachment_interface.
  by destruct (split_network_info net) as [[if_num network_name]|].
Qed.

Lemma fold_isis_interface (router_name : string) (networks : list string)
    (content ext : string) :
  ∃ blocks,
    fold_left (isis_interface self router_name frr_routers) networks
              (content, ext)
    = (content ++ blocks,
       if Py.truthy ext then ext
       else match find (attachment_is_external self frr_routers) networks with
            | Some net => attachment_interface net
            | None => ""
            end).
Proof.
  revert content ext. induction networks as [|net networks IH];
    intros content ext.
  - exists "". cbn. rewrite append_nil_r. by destruct ext.
  - cbn [fold_left find].
    destruct (isis_interface_step router_name content ext net)
      as [block ->].
    destruct (IH (content ++ block)
                 (if Py.truthy ext then ext
                  else if attachment_is_external self frr_routers net
                       then attachment_interface net else ""))
      as [blocks ->].
    exists (block ++ blocks). rewrite append_assoc. f_equal.
    destruct (Py.truthy ext) eqn:Hext; [by rewrite Hext|].
    destruct (attachment_is_external self frr_routers net) eqn:Hnet.
    + by rewrite attachment_interface_truthy.
    + done.
Qed.

(** X15: the interface that gets the NAT rule. The loop over the
    attachments of a router only adds text to the script, and the
    external interface it ends with is the interface of the first
    attachment, in the order of declaration, whose network is external;
    it is empty, and no NAT rule is written, exactly when no attachment
    of the router is on an external network. *)
Theorem nat_interface_is_first_external (router_name content : string)
    (networks : list string) :
  let result :=
    fold_left (isis_interface self router_name frr_routers) networks
              (content, "") in
  (∃ blocks, result.1 = content ++ blocks)
  ∧ result.2
    = match find (attachment_is_external self frr_routers) networks with
      | Some net => attachment_interface net
      | None => ""
      end
  ∧ (Py.truthy result.2 = false
     ↔ ∀ net, net ∈ networks →
              attachment_is_external self frr_routers net = false).
Proof.
  intros result. subst result.
  destruct (fold_isis_interface router_name networks content "")
    as [blocks ->].
  cbn [fst snd Py.truthy]. split; [by exists blocks|]. split; [done|].
  destruct (find _ networks) as [net|] eqn:Hfind.
  - apply find_some in Hfind as [Hin Hext].
    rewrite (attachment_interface_truthy net Hext). split; [done|].
    intros Hall. apply list_elem_of_In in Hin.
    by rewrite (Hall net Hin) in Hext.
  - split; [|done]. intros _ net Hin.
    apply list_elem_of_In in Hin. by apply (find_none _ _ Hfind).
Qed.

Lemma basic_interface_step (device_name : string) (content net : string)
    (gateways : list string) :
  ∃ block,
    basic_interface self device_name frr_routers (content, gateways) net
    = (content ++ block,
       (gateways ++ option_list (gateway_of self frr_routers net))%list).
Proof.
  unfold basic_interface, gateway_of.
  destruct (split_network_info net) as [[if_num network_name]|].
  - eexists. f_equal.
    destruct (find_router_on_network self network_name frr_routers)
      as [router|]; [|by rewrite app_nil_r].
    destruct (Py.truthy router); [|by rewrite app_nil_r].
    destruct (get_router_ip_on_network self router network_name frr_routers)
      as [router_ip|]; [|by rewrite app_nil_r].
    destruct (Py.truthy router_ip); [done | by rewrite app_nil_r].
  - exists "". by rewrite append_nil_r, app_nil_r.
Qed.

Lemma fold_basic_interface (device_name : string) (networks : list string)
    (content : string) (gateways : list string) :
  ∃ blocks,
    fold_left (basic_interface self device_name frr_routers) networks
              (content, gateways)
    = (content ++ blocks,
       (gateways ++ omap (gateway_of self frr_routers) networks)%list).
Proof.
  revert content gateways. induction networks as [|net networks IH];
    intros content gateways.
  - exists "". cbn. by rewrite append_nil_r, app_nil_r.
  - cbn [fold_left].
    destruct (basic_interface_step device_name content net gateways)
      as [block ->].
    destruct (IH (content ++ block)
                 (gateways ++ option_list (gateway_of self frr_routers net))%list)
      as [blocks ->].
    exists (block ++ blocks). rewrite append_assoc. f_equal.
    rewrite <- app_assoc. f_equal.
    change (omap (gateway_of self frr_routers) (net :: networks))
      with (match gateway_of self frr_routers net with
            | Some g => g :: omap (gateway_of self frr_routers) networks
            | None => omap (gateway_of self frr_routers) networks
            end).
    by destruct (gateway_of self frr_routers net).
Qed.

End InterfaceLoops.

Section Gateways.

Variable self : Generator.
Variable frr_routers : list string.
Hypothesis devices_NoDup : NoDup (devices self).
Hypothesis routers_are_devices : ∀ r, r ∈ frr_routers → r ∈ devices self.



End Gateways.

(** ** Lines that state no fact *)

Section NonFacts.

Lemma split_nonempty (sep : ascii) (s : string) : Py.split sep s ≠ [].
Proof.
  destruct s as [|c s]; [done|]. cbn [Py.split].
  destruct (Ascii.eqb c sep); [done|]. by destruct (Py.split sep s).
Qed.

Lemma split_append (sep : ascii) (a b : string) :
  Py.split sep (a ++ String sep b)
  = (Py.split sep a ++ Py.split sep b)%list.
Proof.
  induction a as [|c a IH].
  - change ("" ++ String sep b) with (String sep b). cbn [Py.split].
    by rewrite Ascii.eqb_refl.
  - rewrite append_cons. cbn [Py.split]. rewrite IH.
    destruct (Ascii.eqb c sep); [done|].
    pose proof (split_nonempty sep a) as Hne.
    by destruct (Py.split sep a).
Qed.

Lemma split_free (sep : ascii) (s : string) :
  Py.mem_char sep s = false → Py.split sep s = [s].
Proof.
  induction s as [|c s IH]; [done|]. cbn [Py.mem_char Py.split].
  intros [Hc Hs]%orb_false_iff.
  rewrite (Ascii.eqb_sym c sep), Hc. by rewrite (IH Hs).
Qed.

Lemma facts_append (a b : string) :
  facts (a ++ Py.nl ++ b) = (facts a ++ facts b)%list.
Proof.
  unfold facts, Py.nl.
  change (a ++ String Py.newline "" ++ b) with (a ++ String Py.newline b).
  by rewrite split_append, omap_app.
Qed.

Lemma parse_lab_conf_facts (g : Generator) (content content' : string) :
  facts content = facts content' →
  parse_lab_conf g content = parse_lab_conf g content'.
Proof.
  intros Hf. unfold parse_lab_conf. by rewrite !scan_lines_facts, Hf.
Qed.

(** X17: a line that states no fact can stand anywhere. The facts of
    two descriptions joined by a newline are the facts of the first
    followed by the facts of the second; so a line without a newline
    that states no fact, put between two parts of a description, leaves
    the parsed topology as it is. *)
Theorem non_fact_line_is_ignored (g : Generator) (a b line : string) :
  Py.mem_char Py.newline line = false →
  read_fact line = None →
  facts (a ++ Py.nl ++ b) = (facts a ++ facts b)%list
  ∧ parse_lab_conf g (a ++ Py.nl ++ line ++ Py.nl ++ b)
    = parse_lab_conf g (a ++ Py.nl ++ b).
Proof.
  intros Hfree Hline. split; [apply facts_append|].
  apply parse_lab_conf_facts. rewrite !facts_append.
  assert (Hnone : facts line = []).
  { unfold facts. rewrite split_free by done. cbn. by rewrite Hline. }
  by rewrite Hnone.
Qed.

Lemma non_fact_line_is_ignored_witness :
  parse_lab_conf (new_generator DEFAULT_CONFIG)
    ("R1[image]=frr" ++ Py.nl ++ "# the core router" ++ Py.nl ++ "R1[0]=lan")
  = parse_lab_conf (new_generator DEFAULT_CONFIG)
      ("R1[image]=frr" ++ Py.nl ++ "R1[0]=lan").
Proof.
  apply (non_fact_line_is_ignored (new_generator DEFAULT_CONFIG)
           "R1[image]=frr" "R1[0]=lan" "# the core router");
    vm_compute; reflexivity.
Defined.

End NonFacts.

Section SkippedLines.

Implicit Types (s t rest ws : string) (c : ascii) (p : ascii → bool).

Lemma rstrip_rec_keep p c s :
  p c = false → rstrip_rec p (String c s) = String c (rstrip_rec p s).
Proof.
  intros Hc. rewrite rstrip_rec_cons.
  destruct (rstrip_rec p s); [by rewrite Hc | done].
Qed.

Lemma rstrip_rec_keeps_prefix p s t :
  free_of p s = true → rstrip_rec p (s ++ t) = s ++ rstrip_rec p t.
Proof.
  unfold free_of. induction s as [|c s IH]; [done|].
  cbn [Py.all_chars]. intros [Hc Hs]%andb_true_iff.
  apply negb_true_iff in Hc.
  rewrite !append_cons, rstrip_rec_keep by done. by rewrite IH.
Qed.

Lemma strip_with_skips p ws t :
  Py.all_chars p ws = true →
  Py.strip_with p (ws ++ t) = Py.strip_with p t.
Proof.
  intros Hws. unfold Py.strip_with. by rewrite lstrip_with_append_all.
Qed.

Lemma strip_with_keeps_prefix p c s t :
  free_of p (String c s) = true →
  Py.strip_with p (String c s ++ t) = String c s ++ rstrip_rec p t.
Proof.
  intros Hfree. unfold Py.strip_with. rewrite rstrip_with_rec.
  assert (Hc : p c = false).
  { unfold free_of in Hfree. cbn in Hfree.
    apply andb_true_iff in Hfree as [Hc _]. by apply negb_true_iff. }
  rewrite append_cons, lstrip_with_id by done.
  rewrite <- append_cons. by apply rstrip_rec_keeps_prefix.
Qed.

Lemma prefix_self (s t : string) : String.prefix s (s ++ t) = true.
Proof.
  induction s as [|c s IH]; [by destruct t|].
  rewrite append_cons. cbn [String.prefix].
  by destruct (ascii_dec c c).
Qed.

Lemma read_fact_skips_prefix ws c s rest :
  Py.all_chars Py.isspace ws = true →
  free_of Py.isspace (String c s) = true →
  String c s = "#" ∨ String c s = "LAB_" →
  read_fact (ws ++ String c s ++ rest) = None.
Proof.
  intros Hws Hfree Hpre. unfold read_fact, Py.strip.
  rewrite strip_with_skips, strip_with_keeps_prefix by done.
  unfold Py.startswith.
  destruct Hpre as [Heq | Heq]; rewrite Heq.
  - rewrite (prefix_self "#"). by rewrite orb_true_r.
  - rewrite (prefix_self "LAB_"). by rewrite !orb_true_r.
Qed.

Lemma mem_char_lstrip_with p c s :
  Py.mem_char c s = false → Py.mem_char c (Py.lstrip_with p s) = false.
Proof.
  induction s as [|d s IH]; [done|]. cbn [Py.lstrip_with].
  destruct (p d); [|done]. cbn [Py.mem_char].
  intros [_ Hs]%orb_false_iff. by apply IH.
Qed.

Lemma mem_char_rstrip_rec p c s :
  Py.mem_char c s = false → Py.mem_char c (rstrip_rec p s) = false.
Proof.
  induction s as [|d s IH]; [done|]. cbn [Py.mem_char].
  intros [Hd Hs]%orb_false_iff. rewrite rstrip_rec_cons.
  specialize (IH Hs). destruct (rstrip_rec p s) as [|e r].
  - destruct (p d); [done|]. cbn. by rewrite Hd.
  - cbn [Py.mem_char] in *. by rewrite Hd, IH.
Qed.

Lemma mem_char_strip c s :
  Py.mem_char c s = false → Py.mem_char c (Py.strip s) = false.
Proof.
  intros H. unfold Py.strip, Py.strip_with. rewrite rstrip_with_rec.
  by apply mem_char_rstrip_rec, mem_char_lstrip_with.
Qed.

(** X18: the lines that state no fact. A line whose first character
    after any white space is [#], or that begins there with [LAB_], a
    line made of white space only, and a line without an equals sign
    are all skipped by the scanning loop. *)
Theorem skipped_lines (ws rest line : string) :
  Py.all_chars Py.isspace ws = true →
  read_fact (ws ++ "#" ++ rest) = None
  ∧ read_fact (ws ++ "LAB_" ++ rest) = None
  ∧ read_fact ws = None
  ∧ (Py.mem_char "=" line = false → read_fact line = None).
Proof.
  intros Hws. split; [|split; [|split]].
  - apply (read_fact_skips_prefix ws "#" "" rest);
      [done | reflexivity | by left].
  - apply (read_fact_skips_prefix ws "L" "AB_" rest);
      [done | reflexivity | by right].
  - unfold read_fact, Py.strip, Py.strip_with.
    rewrite (proj2 (lstrip_with_empty Py.isspace ws) Hws). reflexivity.
  - intros Hfree. unfold read_fact.
    destruct (negb _ || _ || _); [done|].
    by rewrite (proj2 (split_once_None "=" (Py.strip line))
                  (mem_char_strip "=" line Hfree)).
Qed.

Lemma skipped_lines_witness :
  read_fact ("  " ++ "#" ++ " R1[0]=lan") = None
  ∧ read_fact ("" ++ "LAB_" ++ "NAME=demo") = None.
Proof.
  split.
  - exact (proj1 (skipped_lines "  " " R1[0]=lan" "" eq_refl)).
  - exact (proj1 (proj2 (skipped_lines "" "NAME=demo" "" eq_refl))).
Defined.

End SkippedLines.

(** ** The shape of the scripts *)

Section Shape.

Implicit Types (p s t : string).

Lemma begins_with_append p s t : begins_with p s → begins_with p (s ++ t).
Proof. intros [rest ->]. exists (rest ++ t). by rewrite append_assoc. Qed.

Lemma ends_with_append p s t : ends_with p t → ends_with p (s ++ t).
Proof. intros [init ->]. exists (s ++ init). by rewrite append_assoc. Qed.

Lemma holds_append_l p s t : holds p s → holds p (s ++ t).
Proof.
  intros (before & after & ->). exists before, (after ++ t).
  by rewrite !append_assoc.
Qed.

Lemma holds_append_r p s t : holds p t → holds p (s ++ t).
Proof.
  intros (before & after & ->). exists (s ++ before), after.
  by rewrite !append_assoc.
Qed.

Lemma lines_cons (x : string) (l : list string) :
  lines (x :: l) = x ++ Py.nl ++ lines l.
Proof. reflexivity. Qed.

Lemma lines_begins (x : string) (l : list string) :
  begins_with (x ++ Py.nl) (lines (x :: l)).
Proof. exists (lines l). by rewrite lines_cons, append_assoc. Qed.

Lemma lines_ends (l : list string) (x : string) :
  ends_with (x ++ Py.nl) (lines (l ++ [x])).
Proof.
  induction l as [|y l IH].
  - exists "". cbn [app lines]. by rewrite append_nil_r.
  - cbn [app]. rewrite lines_cons.
    rewrite <- append_assoc. by apply ends_with_append.
Qed.

Lemma lines_holds (l1 l2 : list string) (x : string) :
  holds (x ++ Py.nl) (lines (l1 ++ x :: l2)).
Proof.
  induction l1 as [|y l1 IH].
  - exists "", (lines l2). cbn [app]. by rewrite lines_cons, append_assoc.
  - cbn [app]. rewrite lines_cons, <- append_assoc.
    by apply holds_append_r.
Qed.

Lemma fold_isis_stanza (self : Generator) (networks : list string)
    (content : string) :
  ∃ stanzas, fold_left (isis_stanza self) networks content
             = content ++ stanzas.
Proof.
  revert content. induction networks as [|net networks IH]; intros content.
  - exists "". by rewrite append_nil_r.
  - cbn [fold_left]. unfold isis_stanza at 2.
    destruct (split_network_info net) as [[if_num network_name]|].
    + destruct (IH (content ++ lines [
          "interface eth" ++ if_num;
          " ip router isis " ++ ISIS_PROCESS (config self);
          "exit"])) as [stanzas ->].
      eexists. by rewrite append_assoc.
    + apply IH.
Qed.

End Shape.

Section SystemId.

Lemma digits_value_zeros (k : nat) (prev : bool) (s : string) :
  Py.digits_value 0 prev (Py.zeros k ++ s)
  = Py.digits_value 0 (prev || negb (Nat.eqb k 0)) s.
Proof.
  revert prev. induction k as [|k IH]; intros prev.
  - cbn. by rewrite orb_false_r.
  - cbn [Py.zeros]. rewrite append_cons.
    change (Py.digits_value 0 prev (String (Py.chr 48) (Py.zeros k ++ s)))
      with (Py.digits_value 0 true (Py.zeros k ++ s)).
    rewrite IH. cbn. by rewrite orb_true_r.
Qed.

Lemma digits_value_str (n : Z) (prev : bool) :
  0 <= n → Py.digits_value 0 prev (Py.str n) = Some n.
Proof.
  intros Hn.
  destruct (to_int_cases n) as [[-> ->] | [(p & -> & ->) | (p & -> & _)]].
  - by destruct prev.
  - pose proof (DecimalPos.Unsigned.to_uint_nonnil p) as Hnn.
    destruct prev.
    + by rewrite digits_value_uint, uint_value_to_uint.
    + by rewrite digits_value_uint_start, uint_value_to_uint.
  - lia.
Qed.

Lemma zfill4_value (n : Z) :
  0 <= n → Py.digits_value 0 false (Py.zfill4 n) = Some n.
Proof.
  intros Hn. unfold Py.zfill4.
  by rewrite digits_value_zeros, digits_value_str.
Qed.

Lemma zfill4_inj (a b : Z) :
  0 <= a → 0 <= b → Py.zfill4 a = Py.zfill4 b → a = b.
Proof.
  intros Ha Hb Heq.
  pose proof (zfill4_value a Ha) as Hva. rewrite Heq in Hva.
  rewrite (zfill4_value b Hb) in Hva. by injection Hva.
Qed.

Lemma length_zeros (k : nat) : String.length (Py.zeros k) = k.
Proof. induction k as [|k IH]; [done|]. cbn. by rewrite IH. Qed.

Lemma zfill4_length (n : Z) :
  String.length (Py.zfill4 n) = Nat.max 4 (String.length (Py.str n)).
Proof.
  unfold Py.zfill4. rewrite length_append, length_zeros. lia.
Qed.

Lemma net_line_inj (cfg : Config) (i j : Z) :
  0 <= i → 0 <= j → net_line cfg i = net_line cfg j → i = j.
Proof.
  intros Hi Hj. unfold net_line, net_address. intros H.
  do 4 apply String.app_inj in H.
  apply append_inj_r, String.app_inj, zfill4_inj in H; lia.
Qed.

End SystemId.

Section ScriptShape.

Variable self : Generator.
Variable frr_routers : list string.

Lemma lines_last (l : list string) :
  l ≠ [] → ends_with (List.last l "" ++ Py.nl) (lines l).
Proof.
  induction l as [|x l IH]; [done|]. intros _.
  destruct l as [|y l].
  - exists "". cbn. by rewrite append_nil_r.
  - rewrite lines_cons, <- append_assoc.
    apply ends_with_append. by apply IH.
Qed.

Ltac use_fold_lemmas :=
  repeat match goal with
  | |- context [fold_left (isis_interface self ?r ?R) ?n (?c, ?e)] =>
      let blocks := fresh "blocks" in
      destruct (fold_isis_interface self R r n c e) as [blocks ->]
  | |- context [fold_left (basic_interface self ?d ?R) ?n (?c, ?g)] =>
      let blocks := fresh "blocks" in
      destruct (fold_basic_interface self R d n c g) as [blocks ->]
  | |- context [fold_left (isis_stanza self) ?n ?c] =>
      let stanzas := fresh "stanzas" in
      destruct (fold_isis_stanza self n c) as [stanzas ->]
  end.

Ltac to_the_head :=
  repeat first
    [ apply lines_begins
    | apply begins_with_append
    | match goal with
      | |- begins_with _ (if ?b then _ else _) => destruct b
      | |- begins_with _ (match ?g with [] => _ | _ :: _ => _ end) =>
          destruct g
      end ].

(** X19: the script of a router. It begins with the line [#!/bin/bash]
    and ends with the line [tail -f /dev/null]; it holds the line that
    declares the network entity title [49.AREA.0000.0000.NNNN.00],
    where [NNNN] is the index of the router in the list plus one, on
    four digits at least; and two different indexes give two different
    titles. *)
Theorem isis_script_shape (router_name : string) (router_index : Z) :
  let script := isis_content self router_name router_index frr_routers in
  begins_with ("#!/bin/bash" ++ Py.nl) script
  ∧ ends_with ("tail -f /dev/null" ++ Py.nl) script
  ∧ holds (net_line (config self) router_index ++ Py.nl) script
  ∧ (4 <= String.length (Py.zfill4 (router_index + 1)))%nat
  ∧ ∀ j, 0 <= router_index → 0 <= j →
         net_line (config self) router_index = net_line (config self) j →
         router_index = j.
Proof.
  intros script. subst script. unfold isis_content.
  use_fold_lemmas. cbv beta iota zeta. use_fold_lemmas.
  split; [|split; [|split; [|split]]].
  - to_the_head.
  - apply ends_with_append.
    match goal with
    | |- ends_with _ (lines ?l) => exact (lines_last l ltac:(discriminate))
    end.
  - apply holds_append_l, holds_append_l, holds_append_r.
    match goal with
    | |- holds _ (lines (?a :: ?x :: ?l)) => exact (lines_holds [a] l x)
    end.
  - rewrite zfill4_length. lia.
  - intros j Hi Hj. by apply net_line_inj.
Qed.

Ltac to_the_default_route :=
  match goal with
  | |- holds _ (lines (?a :: ?b :: ?c :: ?d :: ?e :: ?x :: ?l)) =>
      exact (lines_holds [a; b; c; d; e] l x)
  end.

(** X20: the script of a device that is not a router. It begins with
    the line [#!/bin/bash] and ends with the line [tail -f /dev/null];
    and when some attachment of the device has a gateway, it holds the
    line that adds the default route through the gateway of the first
    such attachment. *)
Theorem basic_script_shape (device_name : string) :
  let script := basic_content self device_name frr_routers in
  let gateways :=
    omap (gateway_of self frr_routers)
         (device_networks self !!! device_name) in
  begins_with ("#!/bin/bash" ++ Py.nl) script
  ∧ ends_with ("tail -f /dev/null" ++ Py.nl) script
  ∧ ∀ gateway others,
      gateways = gateway :: others →
      holds (default_route_line gateway ++ Py.nl) script.
Proof.
  intros script gateways. subst script gateways. unfold basic_content.
  use_fold_lemmas. cbv beta iota zeta. cbn [app].
  split; [|split].
  - to_the_head.
  - apply ends_with_append.
    match goal with
    | |- ends_with _ (lines ?l) => exact (lines_last l ltac:(discriminate))
    end.
  - intros gateway others ->.
    apply holds_append_l, holds_append_r. to_the_default_route.
Qed.

End ScriptShape.

Lemma basic_script_shape_witness :
  holds (default_route_line "10.0.60.2" ++ Py.nl)
        (basic_content topology_netA "PC1" ["R1"]).
Proof.
  pose proof (basic_script_shape topology_netA ["R1"] "PC1") as H.
  cbv zeta in H. destruct H as (_ & _ & H).
  apply (H "10.0.60.2" []). vm_compute. reflexivity.
Defined.

Lemma isis_script_shape_witness :
  net_line (config topology_netA) 0 ≠ net_line (config topology_netA) 1.
Proof.
  intros H.
  pose proof (isis_script_shape topology_netA ["R1"] "R1" 0) as S.
  cbv zeta in S. destruct S as (_ & _ & _ & _ & S).
  specialize (S 1 ltac:(lia) ltac:(lia) H). discriminate S.
Defined.

(** ** Gateways and the addresses of the routers *)

Section RouterAddresses.

Variable self : Generator.
Variable frr_routers : list string.
Hypothesis devices_NoDup : NoDup (devices self).
Hypothesis routers_are_devices : ∀ r, r ∈ frr_routers → r ∈ devices self.










End RouterAddresses.



(** Containment, not attachment, finds the router: the router on
    [wlan] is taken for the gateway of [lan], with an address that its
    script sets on no interface. *)
Example gateway_by_containment :
  basic_gateways topology_wlan "PC1" ["R1"] = ["10.0.186.2"]
  ∧ isis_ip_addr topology_wlan "R1" "wlan" = "10.147.0.2/24"
  ∧ Py.contains "10.0.186.2" (isis_content topology_wlan "R1" 0 ["R1"])
    = false.
Proof. repeat split; vm_compute; reflexivity. Qed.
